(** * Bot777: a shallow embedding of the finance bot and its specification

    The development follows [src/Bot777.py].  The program keeps three
    module-level globals ([records], [pending_inputs], [registered_users])
    and talks to three worksheets of a spreadsheet; here they are the fields
    of one explicit [state] that every function threads.

    Conventions.
    - Strings are [string]: sequences of bytes, a Python [str] being held
      in its UTF-8 encoding (byte-wise order of UTF-8 text is code point
      order, which is how Python compares [str]).
    - An amount is a Python [float]: Rocq's primitive binary64 [float].
    - A number that may still be the [int] a [sum] or a dict starts from is
      a [pynum].
    - Calls into libraries whose result the program only passes on
      ([hashlib.md5], [float(str)], [str(float)], the locale's month
      names) are the members of the class [PyLib]; every theorem holds for
      every implementation of them.
    - The builtin [sum] adds floats left to right up to CPython 3.11 and
      with a compensation from 3.12 on; the source names no interpreter, so
      which of the two it is is a member of [PyLib] as well and every
      theorem holds for both.
    - [datetime.now()] is an argument [now] of each function that reads
      the clock.
    - Only ASCII digits and ASCII white space are recognised by the models
      of [str.split], [str.strip] and [datetime.strptime]. *)

From Stdlib Require Import ZArith List String Ascii Bool Lia QArith.
From Stdlib Require Import Sorted Permutation.
From Stdlib Require Import Floats.
From stdpp Require Import gmap strings.
Import ListNotations.

Local Open Scope string_scope.
Local Open Scope Z_scope.

(** ** Python values *)

(** A number: [int] or [float]. *)
Inductive pynum :=
| NInt (z : Z)
| NFloat (f : float).

(** What [get_all_records] hands back for one key of one row: nothing when
    the sheet has no such column ([row.get] answers [None]), text, or a
    number. *)
Inductive cell :=
| CMissing
| CText (s : string)
| CNum (n : pynum).

(** [float(z)] for an [int]: the nearest binary64, [OverflowError] beyond
    the finite range. *)
Definition float_of_Z (z : Z) : option float :=
  let f := SF2Prim (binary_normalize prec emax z 0 false) in
  if PrimFloat.is_infinity f then None else Some f.

(** The float an [int] operand is converted to in mixed arithmetic. *)
Definition float_of_int_operand (z : Z) : float :=
  SF2Prim (binary_normalize prec emax z 0 false).

Definition py_add (a b : pynum) : pynum :=
  match a, b with
  | NInt x, NInt y => NInt (x + y)
  | NInt x, NFloat g => NFloat (PrimFloat.add (float_of_int_operand x) g)
  | NFloat f, NInt y => NFloat (PrimFloat.add f (float_of_int_operand y))
  | NFloat f, NFloat g => NFloat (PrimFloat.add f g)
  end.

Definition py_sub (a b : pynum) : pynum :=
  match a, b with
  | NInt x, NInt y => NInt (x - y)
  | NInt x, NFloat g => NFloat (PrimFloat.sub (float_of_int_operand x) g)
  | NFloat f, NInt y => NFloat (PrimFloat.sub f (float_of_int_operand y))
  | NFloat f, NFloat g => NFloat (PrimFloat.sub f g)
  end.

(** [x >= 0]. *)
Definition py_ge0 (a : pynum) : bool :=
  match a with
  | NInt x => 0 <=? x
  | NFloat f => PrimFloat.leb PrimFloat.zero f
  end.

(** Additions left to right from the [int] 0: a loop of [+=], and [sum(xs)]
    of CPython up to 3.11. *)
Definition py_sum (xs : list float) : pynum :=
  fold_left (fun acc x => py_add acc (NFloat x)) xs (NInt 0).

(** [sum(xs)] of CPython from 3.12 on.  Once the running total is a [float]
    the loop keeps, beside it, a compensation [c] for what the additions
    lost (Neumaier's summation), and adds it at the end. *)
Definition is_finite (f : float) : bool :=
  match Prim2SF f with
  | S754_zero _ | S754_finite _ _ _ => true
  | S754_infinity _ | S754_nan => false
  end.

(** One turn of the loop over the items: [t = f_result + x], then
    [c += (f_result - t) + x] or [c += (x - t) + f_result] by the larger
    magnitude. *)
Definition compensated_step (fc : float * float) (x : float) : float * float :=
  let '(f_result, c) := fc in
  let t := PrimFloat.add f_result x in
  if PrimFloat.leb (PrimFloat.abs x) (PrimFloat.abs f_result)
  then (t, PrimFloat.add c (PrimFloat.add (PrimFloat.sub f_result t) x))
  else (t, PrimFloat.add c (PrimFloat.add (PrimFloat.sub x t) f_result)).

(** The end of the loop: [if c and isfinite(c): f_result += c]. *)
Definition compensated_result (fc : float * float) : float :=
  let '(f_result, c) := fc in
  if negb (PrimFloat.eqb c PrimFloat.zero) && is_finite c
  then PrimFloat.add f_result c
  else f_result.

Definition py_sum_compensated (xs : list float) : pynum :=
  match xs with
  | [] => NInt 0
  | x :: t =>
      NFloat (compensated_result
                (fold_left compensated_step t
                   (PrimFloat.add (float_of_int_operand 0) x, PrimFloat.zero)))
  end.

(** The two summations of the builtin [sum]. *)
Inductive summation :=
| LeftToRight
| Compensated.

(** Truth value of a number: zero (of either sign) is false, NaN is true. *)
Definition pynum_truthy (n : pynum) : bool :=
  match n with
  | NInt z => negb (z =? 0)
  | NFloat f => negb (PrimFloat.eqb f PrimFloat.zero)
  end.

Definition cell_truthy (c : cell) : bool :=
  match c with
  | CMissing => false
  | CText s => negb (String.eqb s "")
  | CNum n => pynum_truthy n
  end.

(** The exact rational value of a finite number; [None] for an infinity
    or a NaN. *)
Definition Q_of_float (f : float) : option Q :=
  match Prim2SF f with
  | S754_zero _ => Some 0%Q
  | S754_finite s m e =>
      let mag := (inject_Z (Z.pos m) * Qpower 2 e)%Q in
      Some (if s then Qopp mag else mag)
  | _ => None
  end.

Definition Q_of_pynum (n : pynum) : option Q :=
  match n with
  | NInt z => Some (inject_Z z)
  | NFloat f => Q_of_float f
  end.

(** ** Strings *)

(** ASCII characters for which [str.isspace] holds. *)
Definition is_space (c : ascii) : bool :=
  let n := N_of_ascii c in
  ((9 <=? n) && (n <=? 13) || (28 <=? n) && (n <=? 32))%N.

Definition is_digit (c : ascii) : bool :=
  let n := N_of_ascii c in ((48 <=? n) && (n <=? 57))%N.

Definition digit_val (c : ascii) : Z := Z.of_N (N_of_ascii c) - 48.

Definition digit_char (d : Z) : ascii := ascii_of_N (Z.to_N (48 + d)).

Fixpoint lstrip (s : string) : string :=
  match s with
  | String c t => if is_space c then lstrip t else s
  | EmptyString => EmptyString
  end.

Fixpoint string_rev_onto (s acc : string) : string :=
  match s with
  | String c t => string_rev_onto t (String c acc)
  | EmptyString => acc
  end.

Definition string_rev (s : string) : string := string_rev_onto s "".

Definition rstrip (s : string) : string := string_rev (lstrip (string_rev s)).

(** [s.strip()]. *)
Definition strip (s : string) : string := rstrip (lstrip s).

(** The longest prefix without white space, and what follows it. *)
Fixpoint break_space (s : string) : string * string :=
  match s with
  | String c t =>
      if is_space c then ("", s)
      else let '(w, r) := break_space t in (String c w, r)
  | EmptyString => ("", "")
  end.

(** [s.split(maxsplit=1)]. *)
Definition split_maxsplit1 (s : string) : list string :=
  match lstrip s with
  | EmptyString => []
  | s1 =>
      let '(w, r) := break_space s1 in
      match lstrip r with
      | EmptyString => [w]
      | r1 => [w; r1]
      end
  end.

(** [s.startswith(p)]. *)
Definition startswith (s p : string) : bool := String.prefix p s.

(** [str(z)] for an [int]. *)
Fixpoint decimal_digits (fuel : nat) (n : Z) (acc : string) : string :=
  match fuel with
  | O => acc
  | S k =>
      let acc' := String (digit_char (n mod 10)) acc in
      if n <? 10 then acc' else decimal_digits k (n / 10) acc'
  end.

Definition str_of_Z (z : Z) : string :=
  if z <? 0 then String "-" (decimal_digits (Z.to_nat (Z.log2 (- z)) + 1) (- z) "")
  else decimal_digits (Z.to_nat (Z.log2 z) + 1) z "".

(** Two digits, zero padded: [%m], [%d], [%H], [%M], [%S] of [strftime]. *)
Definition fmt2 (n : Z) : string :=
  String (digit_char (n / 10)) (String (digit_char (n mod 10)) "").

(** ** [datetime] *)

Record datetime := {
  year : Z; month : Z; day : Z;
  hour : Z; minute : Z; second : Z; microsecond : Z
}.

Definition is_leap (y : Z) : bool :=
  (y mod 4 =? 0) && (negb (y mod 100 =? 0) || (y mod 400 =? 0)).

Definition days_in_month (y m : Z) : Z :=
  if m =? 2 then (if is_leap y then 29 else 28)
  else if (m =? 4) || (m =? 6) || (m =? 9) || (m =? 11) then 30
  else 31.

(** The range checks of the [datetime] constructor. *)
Definition datetime_ok (d : datetime) : bool :=
  (1 <=? year d) && (year d <=? 9999) &&
  (1 <=? month d) && (month d <=? 12) &&
  (1 <=? day d) && (day d <=? days_in_month (year d) (month d)) &&
  (0 <=? hour d) && (hour d <=? 23) &&
  (0 <=? minute d) && (minute d <=? 59) &&
  (0 <=? second d) && (second d <=? 59) &&
  (0 <=? microsecond d) && (microsecond d <=? 999999).

(** [datetime(y, m, d, H, M, S)]; [None] is the [ValueError]. *)
Definition mk_datetime (y m d H M S : Z) : option datetime :=
  let dt := {| year := y; month := m; day := d;
               hour := H; minute := M; second := S; microsecond := 0 |} in
  if datetime_ok dt then Some dt else None.

(** [dt.replace(hour=H, minute=0, second=0, microsecond=0)]. *)
Definition replace_hms0 (dt : datetime) (H : Z) : datetime :=
  {| year := year dt; month := month dt; day := day dt;
     hour := H; minute := 0; second := 0; microsecond := 0 |}.

(** Comparison of two [datetime]s is the comparison of their field tuples. *)
Definition datetime_fields (d : datetime) : list Z :=
  [year d; month d; day d; hour d; minute d; second d; microsecond d].

Fixpoint lex_leb (a b : list Z) : bool :=
  match a, b with
  | [], _ => true
  | _ :: _, [] => false
  | x :: a', y :: b' => (x <? y) || ((x =? y) && lex_leb a' b')
  end.

Definition datetime_leb (a b : datetime) : bool :=
  lex_leb (datetime_fields a) (datetime_fields b).

Definition datetime_le (a b : datetime) : Prop := datetime_leb a b = true.

(** The day before, [None] before 0001-01-01 ([OverflowError]). *)
Definition prev_day (d : datetime) : option datetime :=
  if 1 <? day d then
    Some {| year := year d; month := month d; day := day d - 1;
            hour := hour d; minute := minute d; second := second d;
            microsecond := microsecond d |}
  else if 1 <? month d then
    Some {| year := year d; month := month d - 1;
            day := days_in_month (year d) (month d - 1);
            hour := hour d; minute := minute d; second := second d;
            microsecond := microsecond d |}
  else if 1 <? year d then
    Some {| year := year d - 1; month := 12; day := 31;
            hour := hour d; minute := minute d; second := second d;
            microsecond := microsecond d |}
  else None.

(** [dt - datetime.timedelta(days=n)]. *)
Fixpoint minus_days (n : nat) (d : datetime) : option datetime :=
  match n with
  | O => Some d
  | S k => match prev_day d with
           | Some d' => minus_days k d'
           | None => None
           end
  end.

(** *** [strftime] *)

(** ["%Y-%m-%d"]; the C library does not pad a year below 1000. *)
Definition strftime_ymd (d : datetime) : string :=
  str_of_Z (year d) ++ "-" ++ fmt2 (month d) ++ "-" ++ fmt2 (day d).

(** ["%Y-%m-%d %H:%M:%S"]. *)
Definition strftime_full (d : datetime) : string :=
  strftime_ymd d ++ " " ++ fmt2 (hour d) ++ ":" ++ fmt2 (minute d)
    ++ ":" ++ fmt2 (second d).

(** ["%d.%m"]. *)
Definition strftime_dm (d : datetime) : string :=
  fmt2 (day d) ++ "." ++ fmt2 (month d).

(** *** [strptime(s, "%Y-%m-%d %H:%M:%S")]

    The format is compiled by the library to the pattern
    [(\d\d\d\d)-(1[0-2]|0[1-9]|[1-9])-(3[01]|[12]\d|0[1-9]|[1-9]| [1-9])\s+
     (2[0-3]|[0-1]\d|\d):([0-5]\d|\d):(6[0-1]|[0-5]\d|\d)], which must
    match the whole string; every field is followed by a character that is
    not a digit, so a field is a maximal run of digits. *)

(** The maximal run of leading digits (most significant first) and the rest. *)
Fixpoint span_digits (s : string) : list Z * string :=
  match s with
  | String c t =>
      if is_digit c then let '(ds, r) := span_digits t in (digit_val c :: ds, r)
      else ([], s)
  | EmptyString => ([], "")
  end.

Definition digits_value (ds : list Z) : Z :=
  fold_left (fun acc d => acc * 10 + d) ds 0.

(** A field of one or two digits with a value in [lo..hi]. *)
Definition field12 (lo hi : Z) (ds : list Z) : option Z :=
  match ds with
  | [_] | [_; _] =>
      let v := digits_value ds in
      if (lo <=? v) && (v <=? hi) then Some v else None
  | _ => None
  end.

(** Expect the character [c]. *)
Definition expect (c : ascii) (s : string) : option string :=
  match s with
  | String c' t => if Ascii.eqb c c' then Some t else None
  | EmptyString => None
  end.

(** [\s+]. *)
Definition spaces1 (s : string) : option string :=
  match s with
  | String c t => if is_space c then Some (lstrip t) else None
  | EmptyString => None
  end.

(** The day field: its last alternative is a space and one digit 1-9. *)
Definition day_field (s : string) : option (Z * string) :=
  match s with
  | String " " (String c t) =>
      if is_digit c && negb (Ascii.eqb c "0") then Some (digit_val c, t) else None
  | _ =>
      let '(ds, r) := span_digits s in
      match field12 1 31 ds with
      | Some v => Some (v, r)
      | None => None
      end
  end.

(** The parser runs in the option monad; [None] is the [ValueError]. *)
Definition strptime (s : string) : option datetime :=
  let '(ys, s) := span_digits s in
  y ← (match ys with [_; _; _; _] => Some (digits_value ys) | _ => None end);
  s ← expect "-" s;
  let '(ms, s) := span_digits s in
  m ← field12 1 12 ms;
  s ← expect "-" s;
  '(d, s) ← day_field s;
  s ← spaces1 s;
  let '(Hs, s) := span_digits s in
  H ← field12 0 23 Hs;
  s ← expect ":" s;
  let '(Ms, s) := span_digits s in
  M ← field12 0 59 Ms;
  s ← expect ":" s;
  let '(Ss, s) := span_digits s in
  S ← field12 0 61 Ss;
  match s with
  | EmptyString => mk_datetime y m d H M S
  | _ => None
  end.

(** ** Library calls left abstract *)

Class PyLib := {
  (** [hashlib.md5(s.encode('utf-8')).hexdigest()] *)
  md5_hexdigest : string -> string;
  (** [float(s)] for a [str]; [None] is the [ValueError] *)
  float_of_str : string -> option float;
  (** [str(x)] for a [float], as an f-string prints it *)
  str_of_float : float -> string;
  (** [%B]: the locale's name of a month *)
  month_name : Z -> string;
  (** how the builtin [sum] adds floats: the source names no interpreter,
      and CPython changed the summation with 3.12 *)
  float_summation : summation
}.

(** ** [list.sort(key=...)]

    The keys are computed first; when one of them raises the list is left
    as it was.  The sort itself is stable. *)

Section Sort.
Context {A K : Type} (leb : K -> K -> bool).

Fixpoint insert_keyed (x : K * A) (l : list (K * A)) : list (K * A) :=
  match l with
  | [] => [x]
  | y :: t => if leb (fst x) (fst y) then x :: y :: t
              else y :: insert_keyed x t
  end.

Fixpoint sort_keyed (l : list (K * A)) : list (K * A) :=
  match l with
  | [] => []
  | x :: t => insert_keyed x (sort_keyed t)
  end.

(** [None] when a key raises. *)
Fixpoint decorate (key : A -> option K) (l : list A) : option (list (K * A)) :=
  match l with
  | [] => Some []
  | x :: t =>
      match key x with
      | Some k => match decorate key t with
                  | Some kt => Some ((k, x) :: kt)
                  | None => None
                  end
      | None => None
      end
  end.

Definition sort_by_key (key : A -> option K) (l : list A) : option (list A) :=
  match decorate key l with
  | Some kl => Some (map snd (sort_keyed kl))
  | None => None
  end.

(** The order of two decorated elements. *)
Definition keyed_le (x y : K * A) : Prop := leb (fst x) (fst y) = true.

(** An element is before another when both keys are there and in order. *)
Definition key_le (key : A -> option K) (x y : A) : Prop :=
  match key x, key y with
  | Some kx, Some ky => leb kx ky = true
  | _, _ => False
  end.
End Sort.

(** [sorted(xs)] for strings. *)
Definition sorted_strings (xs : list string) : list string :=
  map snd (sort_keyed String.leb (map (fun s => (s, s)) xs)).

(** ** The data of the bot *)

(** One entry of [records]: a dict with the keys [date], [type], [category],
    [amount], [comment], and [id] once [save_record] has seen it. *)
Record record := {
  rec_date : string;
  rec_type : string;
  rec_category : string;
  rec_amount : float;
  rec_comment : string;
  rec_id : option string
}.

(** One row of the income or expense worksheet as [get_all_records] returns
    it.  The category and comment columns hold text. *)
Record row := {
  row_date : cell;
  row_category : string;
  row_amount : cell;
  row_comment : string
}.

(** A worksheet of the external service; when it is not [ws_up] every call
    on it raises. *)
Record worksheet := {
  ws_rows : list row;
  ws_up : bool
}.

(** The "Баланс" worksheet: the rows last written to its ranges.  Every
    call of [update] on it succeeds or raises on its own: [bs_outcome n]
    tells whether the call number [n] succeeds, and [bs_calls] counts the
    calls made so far. *)
Record summary_sheet := {
  bs_ranges : gmap string (list cell);
  bs_outcome : nat -> bool;
  bs_calls : nat
}.

(** [pending_inputs\[user_id\]]. *)
Record pending := {
  pend_type : string;
  pend_category : string
}.

Record state := {
  gc : bool;
  income_sheet : worksheet;
  expense_sheet : worksheet;
  balance_sheet : summary_sheet;
  records : list record;
  pending_inputs : gmap Z pending;
  registered_users : gset Z
}.

Definition set_records (rs : list record) (st : state) : state :=
  {| gc := gc st; income_sheet := income_sheet st;
     expense_sheet := expense_sheet st; balance_sheet := balance_sheet st;
     records := rs; pending_inputs := pending_inputs st;
     registered_users := registered_users st |}.

Definition set_income_sheet (ws : worksheet) (st : state) : state :=
  {| gc := gc st; income_sheet := ws;
     expense_sheet := expense_sheet st; balance_sheet := balance_sheet st;
     records := records st; pending_inputs := pending_inputs st;
     registered_users := registered_users st |}.

Definition set_expense_sheet (ws : worksheet) (st : state) : state :=
  {| gc := gc st; income_sheet := income_sheet st;
     expense_sheet := ws; balance_sheet := balance_sheet st;
     records := records st; pending_inputs := pending_inputs st;
     registered_users := registered_users st |}.

Definition set_balance_sheet (bs : summary_sheet) (st : state) : state :=
  {| gc := gc st; income_sheet := income_sheet st;
     expense_sheet := expense_sheet st; balance_sheet := bs;
     records := records st; pending_inputs := pending_inputs st;
     registered_users := registered_users st |}.

Definition set_pending_inputs (p : gmap Z pending) (st : state) : state :=
  {| gc := gc st; income_sheet := income_sheet st;
     expense_sheet := expense_sheet st; balance_sheet := balance_sheet st;
     records := records st; pending_inputs := p;
     registered_users := registered_users st |}.

(** The two transaction types. *)
Definition INCOME : string := "доход".
Definition EXPENSE : string := "расход".

(** The external service. *)
Definition get_all_records (ws : worksheet) : option (list row) :=
  if ws_up ws then Some (ws_rows ws) else None.

Definition append_row (ws : worksheet) (r : row) : option worksheet :=
  if ws_up ws then Some {| ws_rows := ws_rows ws ++ [r]; ws_up := true |}
  else None.

(** [balance_sheet.update(values, range)]: whether the call returned, and
    the worksheet after it. *)
Definition sheet_update (bs : summary_sheet) (range : string) (values : list cell)
  : bool * summary_sheet :=
  let ok := bs_outcome bs (bs_calls bs) in
  (ok,
   {| bs_ranges := if ok then <[range := values]> (bs_ranges bs) else bs_ranges bs;
      bs_outcome := bs_outcome bs;
      bs_calls := S (bs_calls bs) |}).

Definition nl : string := String "010" "".

(** ** The functions of the bot *)

Section Bot.
Context {L : PyLib}.

Definition str_of_pynum (n : pynum) : string :=
  match n with
  | NInt z => str_of_Z z
  | NFloat f => str_of_float f
  end.

(** The text the identity is the digest of. *)
Definition hash_input (r : record) : string :=
  rec_date r ++ "-" ++ rec_type r ++ "-" ++ rec_category r ++ "-"
    ++ str_of_float (rec_amount r) ++ "-" ++ rec_comment r.

Definition get_record_id (r : record) : string :=
  md5_hexdigest (hash_input r).

(** The sort key of [records.sort]. *)
Definition record_key (r : record) : option datetime := strptime (rec_date r).

(** [records.sort(key=...)] inside its [try]: a key that raises leaves the
    list as it was. *)
Definition sort_records (rs : list record) : list record :=
  match sort_by_key datetime_leb record_key rs with
  | Some rs' => rs'
  | None => rs
  end.

(** [float(row.get("amount"))]. *)
Definition float_of_cell (c : cell) : option float :=
  match c with
  | CMissing => None
  | CText s => float_of_str s
  | CNum (NInt z) => float_of_Z z
  | CNum (NFloat f) => Some f
  end.

(** [strptime] of a cell; a cell that is not text is a [TypeError]. *)
Definition strptime_cell (c : cell) : option (string * datetime) :=
  match c with
  | CText s => dt ← strptime s; Some (s, dt)
  | _ => None
  end.

(** The body of the loop over the rows of one sheet: [None] when the row is
    skipped (a required field is falsy) or dropped (its [try] raised). *)
Definition parse_row (trans_type : string) (rw : row) : option record :=
  if negb (cell_truthy (row_date rw)) || negb (cell_truthy (row_amount rw))
  then None
  else
    '(record_date, _) ← strptime_cell (row_date rw);
    record_amount ← float_of_cell (row_amount rw);
    Some {| rec_date := record_date;
            rec_type := trans_type;
            rec_category := row_category rw;
            rec_amount := record_amount;
            rec_comment := row_comment rw;
            rec_id := None |}.

(** The records of one sheet; a fetch that raises contributes none. *)
Definition load_sheet (ws : worksheet) (trans_type : string) : list record :=
  match get_all_records ws with
  | Some data => omap (parse_row trans_type) data
  | None => []
  end.

Definition load_records (st : state) : state :=
  if gc st then
    set_records
      (sort_records (load_sheet (income_sheet st) INCOME
                       ++ load_sheet (expense_sheet st) EXPENSE)) st
  else set_records [] st.

Definition row_of_record (r : record) : row :=
  {| row_date := CText (rec_date r);
     row_category := rec_category r;
     row_amount := CNum (NFloat (rec_amount r));
     row_comment := rec_comment r |}.

(** What the [try] of [save_record_to_sheet] does; [None] when it raises
    (without a client the worksheets are unbound names). *)
Definition save_record_to_sheet_try (r : record) (st : state) : option state :=
  if gc st then
    if String.eqb (rec_type r) INCOME then
      ws ← append_row (income_sheet st) (row_of_record r);
      Some (set_income_sheet ws st)
    else
      ws ← append_row (expense_sheet st) (row_of_record r);
      Some (set_expense_sheet ws st)
  else None.

(** [save_record_to_sheet]: [Some] is a normal return.  Its own [except]
    logs what the [try] raised and returns. *)
Definition save_record_to_sheet (r : record) (st : state) : option state :=
  match save_record_to_sheet_try r st with
  | Some st' => Some st'
  | None => Some st
  end.

Definition with_id (r : record) : record :=
  {| rec_date := rec_date r; rec_type := rec_type r;
     rec_category := rec_category r; rec_amount := rec_amount r;
     rec_comment := rec_comment r; rec_id := Some (get_record_id r) |}.

Definition save_record (r : record) (st : state) : bool * state :=
  let record := with_id r in
  if existsb (fun x => String.eqb (get_record_id x) (get_record_id r)) (records st)
  then (false, st)
  else
    match save_record_to_sheet record st with
    | Some st1 =>
        (true, set_records (sort_records (records st1 ++ [record])) st1)
    | None => (false, st)
    end.

(** *** Aggregation *)

Definition is_income (r : record) : bool := String.eqb (rec_type r) INCOME.
Definition is_expense (r : record) : bool := String.eqb (rec_type r) EXPENSE.

(** The builtin [sum] on floats. *)
Definition builtin_sum (xs : list float) : pynum :=
  match float_summation with
  | LeftToRight => py_sum xs
  | Compensated => py_sum_compensated xs
  end.

(** [sum(r["amount"] for r in rs if ...)]. *)
Definition sum_amounts (rs : list record) : pynum :=
  builtin_sum (map rec_amount rs).

Definition get_current_balance (st : state) : pynum :=
  let overall_income := sum_amounts (List.filter is_income (records st)) in
  let overall_expense := sum_amounts (List.filter is_expense (records st)) in
  py_sub overall_income overall_expense.

(** A comprehension whose condition can raise. *)
Fixpoint filter_try (cond : record -> option bool) (rs : list record)
  : option (list record) :=
  match rs with
  | [] => Some []
  | r :: t =>
      match cond r with
      | Some b =>
          match filter_try cond t with
          | Some t' => Some (if b then r :: t' else t')
          | None => None
          end
      | None => None
      end
  end.

(** The three windows that parse the date. *)
Definition in_week (week_ago : datetime) (r : record) : option bool :=
  dt ← strptime (rec_date r); Some (datetime_leb week_ago dt).

Definition in_month (now : datetime) (r : record) : option bool :=
  dt ← strptime (rec_date r);
  if year dt =? year now then
    dt' ← strptime (rec_date r); Some (month dt' =? month now)
  else Some false.

Definition in_year (now : datetime) (r : record) : option bool :=
  dt ← strptime (rec_date r); Some (year dt =? year now).

(** [type == t and window]: the window is only evaluated for the type. *)
Definition typed (t : string) (w : record -> option bool) (r : record)
  : option bool :=
  if String.eqb (rec_type r) t then w r else Some false.

(** The daily window compares text. *)
Definition daily_records (now : datetime) (rs : list record) : list record :=
  let today_str := strftime_ymd now in
  List.filter (fun r => startswith (rec_date r) today_str) rs.

(** *** [generate_chart] *)

Record chart := {
  chart_categories : list string;
  chart_incomes : list pynum;
  chart_expenses : list pynum;
  chart_file : string
}.

(** [{cat: 0 for cat in categories}]. *)
Definition zero_by_cat (categories : list string) : gmap string pynum :=
  list_to_map (map (fun cat => (cat, NInt 0)) categories).

(** [d\[k\] += a]; [None] is the [KeyError]. *)
Definition dict_add (d : gmap string pynum) (k : string) (a : float)
  : option (gmap string pynum) :=
  match d !! k with
  | Some v => Some (<[k := py_add v (NFloat a)]> d)
  | None => None
  end.

(** One turn of the loop over [period_records]. *)
Definition chart_step (acc : option (gmap string pynum * gmap string pynum))
    (r : record) : option (gmap string pynum * gmap string pynum) :=
  match acc with
  | Some (income_by_cat, expense_by_cat) =>
      if String.eqb (rec_type r) INCOME then
        match dict_add income_by_cat (rec_category r) (rec_amount r) with
        | Some d => Some (d, expense_by_cat)
        | None => None
        end
      else if String.eqb (rec_type r) EXPENSE then
        match dict_add expense_by_cat (rec_category r) (rec_amount r) with
        | Some d => Some (income_by_cat, d)
        | None => None
        end
      else Some (income_by_cat, expense_by_cat)
  | None => None
  end.

(** [title.replace(" ", "_")]. *)
Fixpoint replace_spaces (s : string) : string :=
  match s with
  | String c t =>
      String (if Ascii.eqb c " " then "_"%char else c) (replace_spaces t)
  | EmptyString => EmptyString
  end.

(** The data handed to the plotting library and the name of the file; the
    set of categories is listed by [elements] and put in order by
    [sorted].  [None] when the loop raises a [KeyError]. *)
Definition generate_chart (period_records : list record) (title : string)
  : option chart :=
  let categories :=
    sorted_strings
      (elements (list_to_set (map rec_category period_records) : gset string)) in
  match fold_left chart_step period_records
          (Some (zero_by_cat categories, zero_by_cat categories)) with
  | Some (income_by_cat, expense_by_cat) =>
      Some {| chart_categories := categories;
              chart_incomes :=
                map (fun cat => default (NInt 0) (income_by_cat !! cat)) categories;
              chart_expenses :=
                map (fun cat => default (NInt 0) (expense_by_cat !! cat)) categories;
              chart_file := replace_spaces title ++ ".png" |}
  | None => None
  end.

(** *** [generate_daily_summary] *)

(** ["\n".join(xs)]. *)
Fixpoint join_lines (xs : list string) : string :=
  match xs with
  | [] => ""
  | [x] => x
  | x :: t => x ++ nl ++ join_lines t
  end.

Definition item_line (r : record) : string :=
  "- " ++ rec_category r ++ ": " ++ str_of_float (rec_amount r) ++ " руб. "
    ++ rec_comment r.

Definition items (rs : list record) : string :=
  match rs with
  | [] => "Нет записей"
  | _ => join_lines (map item_line rs)
  end.

Definition sign_prefix (n : pynum) : string :=
  if py_ge0 n then "+" else "".

(** The three totals of the daily report. *)
Definition daily_totals (now : datetime) (rs : list record)
  : pynum * pynum * pynum :=
  let daily := daily_records now rs in
  let total_income := sum_amounts (List.filter is_income daily) in
  let total_expense := sum_amounts (List.filter is_expense daily) in
  (total_income, total_expense, py_sub total_income total_expense).

Definition generate_daily_summary (now : datetime) (st : state) : string :=
  let daily := daily_records now (records st) in
  let incomes := List.filter is_income daily in
  let expenses := List.filter is_expense daily in
  let total_income := sum_amounts incomes in
  let total_expense := sum_amounts expenses in
  let balance_day := py_sub total_income total_expense in
  "🗓️ Отчёт за " ++ fmt2 (day now) ++ " " ++ month_name (month now) ++ " "
    ++ str_of_Z (year now) ++ ":" ++ nl ++ nl
    ++ "✅ Доходы:" ++ nl ++ items incomes ++ nl ++ nl
    ++ "❌ Расходы:" ++ nl ++ items expenses ++ nl ++ nl
    ++ "📌 Итого:" ++ nl ++ "Доходы: " ++ str_of_pynum total_income ++ " руб."
    ++ nl ++ "Расходы: " ++ str_of_pynum total_expense ++ " руб." ++ nl
    ++ "Баланс за день: " ++ sign_prefix balance_day
    ++ str_of_pynum balance_day ++ " руб.".

(** *** [update_balance_sheet] *)

(** Income, expense and balance of the records of one type-and-window
    comprehension pair; [None] when a date raises. *)
Definition window_totals (w : record -> option bool) (rs : list record)
  : option (pynum * pynum * pynum) :=
  inc ← filter_try (typed INCOME w) rs;
  exp ← filter_try (typed EXPENSE w) rs;
  let income := sum_amounts inc in
  let expense := sum_amounts exp in
  Some (income, expense, py_sub income expense).

Definition summary_row (label : string) (t : pynum * pynum * pynum) : list cell :=
  let '(i, e, b) := t in [CText label; CNum i; CNum e; CNum b].

(** The first part of the [try] of [update_balance_sheet]: the four ranges
    and their rows, all computed before the first call of [update]; [None]
    when the subtraction of the seven days or the date of a record raises. *)
Definition summary_rows (now : datetime) (st : state)
  : option (list (string * list cell)) :=
  let overall_income := sum_amounts (List.filter is_income (records st)) in
  let overall_expense := sum_amounts (List.filter is_expense (records st)) in
  let overall_balance := py_sub overall_income overall_expense in
  week_ago ← minus_days 7 now;
  weekly ← window_totals (in_week week_ago) (records st);
  monthly ← window_totals (in_month now) (records st);
  yearly ← window_totals (in_year now) (records st);
  Some [("A1:D1", [CText "Общий баланс"; CNum overall_balance; CText ""; CText ""]);
        ("A2:D2", summary_row "Данные недели" weekly);
        ("A3:D3", summary_row "Данные месяца" monthly);
        ("A4:D4", summary_row "Данные года" yearly)].

(** The second part: the calls of [update] one after the other.  The call
    that raises ends the [try]; what the calls before it wrote stays. *)
Fixpoint update_all (bs : summary_sheet) (rows : list (string * list cell))
  : summary_sheet :=
  match rows with
  | [] => bs
  | (range, values) :: rest =>
      let '(ok, bs') := sheet_update bs range values in
      if ok then update_all bs' rest else bs'
  end.

Definition update_balance_sheet (now : datetime) (st : state) : state :=
  if gc st then
    match summary_rows now st with
    | Some rows => set_balance_sheet (update_all (balance_sheet st) rows) st
    | None => st
    end
  else st.

(** *** [process_manual_input] *)

(** What a handler sends: a reply to the message, or a message to a chat. *)
Inductive outgoing :=
| Reply (text : string)
| SendMessage (chat : Z) (text : string).

Definition saved_text (r : record) : string :=
  "Запись сохранена:" ++ nl ++ "Дата: " ++ rec_date r ++ nl
    ++ "Тип: " ++ rec_type r ++ nl ++ "Категория: " ++ rec_category r ++ nl
    ++ "Сумма: " ++ str_of_float (rec_amount r) ++ nl
    ++ "Комментарий: " ++ rec_comment r.

(** The handler of a text message of a user who has a pending input. *)
Definition process_manual_input (now : datetime) (user_id : Z) (text : string)
    (st : state) : list outgoing * state :=
  match pending_inputs st !! user_id with
  | None => ([], st)
  | Some pending =>
      let text := strip text in
      match split_maxsplit1 text with
      | [] => ([Reply "Пожалуйста, введите сумму и комментарий."], st)
      | part0 :: rest =>
          match float_of_str part0 with
          | None =>
              ([Reply "Неверный формат суммы. Введите число в начале сообщения."],
               st)
          | Some amount =>
              let comment := match rest with c :: _ => c | [] => "" end in
              let record :=
                {| rec_date := strftime_full now;
                   rec_type := pend_type pending;
                   rec_category := pend_category pending;
                   rec_amount := amount;
                   rec_comment := comment;
                   rec_id := None |} in
              let '(saved, st1) := save_record record st in
              let answer :=
                if saved then Reply (saved_text record)
                else Reply "Такая запись уже существует." in
              ([answer; SendMessage user_id "Главное меню:"],
               set_pending_inputs (delete user_id (pending_inputs st1)) st1)
          end
      end
  end.
End Bot.

(** *** [monthly_summary_task]: the target of one turn of the loop *)

Definition monthly_summary_task_target (now : datetime) : option datetime :=
  if (day now =? 1) && (hour now <? 10) then
    Some (replace_hms0 now 10)
  else if month now =? 12 then
    mk_datetime (year now + 1) 1 1 10 0 0
  else
    mk_datetime (year now) (month now + 1) 1 10 0 0.

(** ** Notions the specification speaks of *)

(** Ascending timestamp order: every record is before all later ones. *)
Definition sorted_by_timestamp (rs : list record) : Prop :=
  StronglySorted (key_le datetime_leb record_key) rs.

(** Every record carries a timestamp: its date parses. *)
Definition dates_parse (rs : list record) : Prop :=
  List.Forall (fun r => record_key r <> None) rs.

(** The five fields of two entries agree. *)
Definition same_fields (a b : record) : Prop :=
  rec_date a = rec_date b /\ rec_type a = rec_type b /\
  rec_category a = rec_category b /\ rec_amount a = rec_amount b /\
  rec_comment a = rec_comment b.

(** The worksheet an entry is written to raises on a write. *)
Definition append_raises (r : record) (st : state) : Prop :=
  gc st = false \/
  (rec_type r = INCOME /\ ws_up (income_sheet st) = false) \/
  (rec_type r <> INCOME /\ ws_up (expense_sheet st) = false).


(** ** A reference implementation of the library calls

    The theorems below hold for every [PyLib]; this one is there to run the
    bot on examples. *)

(** *** MD5 (RFC 1321) over the bytes of a string *)

Definition md5_shifts : list Z :=
  [7; 12; 17; 22; 7; 12; 17; 22; 7; 12; 17; 22; 7; 12; 17; 22;
   5; 9; 14; 20; 5; 9; 14; 20; 5; 9; 14; 20; 5; 9; 14; 20;
   4; 11; 16; 23; 4; 11; 16; 23; 4; 11; 16; 23; 4; 11; 16; 23;
   6; 10; 15; 21; 6; 10; 15; 21; 6; 10; 15; 21; 6; 10; 15; 21].

Definition md5_sines : list Z :=
  [0xd76aa478; 0xe8c7b756; 0x242070db; 0xc1bdceee;
   0xf57c0faf; 0x4787c62a; 0xa8304613; 0xfd469501;
   0x698098d8; 0x8b44f7af; 0xffff5bb1; 0x895cd7be;
   0x6b901122; 0xfd987193; 0xa679438e; 0x49b40821;
   0xf61e2562; 0xc040b340; 0x265e5a51; 0xe9b6c7aa;
   0xd62f105d; 0x02441453; 0xd8a1e681; 0xe7d3fbc8;
   0x21e1cde6; 0xc33707d6; 0xf4d50d87; 0x455a14ed;
   0xa9e3e905; 0xfcefa3f8; 0x676f02d9; 0x8d2a4c8a;
   0xfffa3942; 0x8771f681; 0x6d9d6122; 0xfde5380c;
   0xa4beea44; 0x4bdecfa9; 0xf6bb4b60; 0xbebfbc70;
   0x289b7ec6; 0xeaa127fa; 0xd4ef3085; 0x04881d05;
   0xd9d4d039; 0xe6db99e5; 0x1fa27cf8; 0xc4ac5665;
   0xf4292244; 0x432aff97; 0xab9423a7; 0xfc93a039;
   0x655b59c3; 0x8f0ccc92; 0xffeff47d; 0x85845dd1;
   0x6fa87e4f; 0xfe2ce6e0; 0xa3014314; 0x4e0811a1;
   0xf7537e82; 0xbd3af235; 0x2ad7d2bb; 0xeb86d391].

Definition w32 (x : Z) : Z := Z.land x 0xffffffff.

Definition rotl32 (x c : Z) : Z :=
  w32 (Z.lor (Z.shiftl x c) (Z.shiftr x (32 - c))).

Definition bytes_of_string (s : string) : list Z :=
  map (fun c => Z.of_N (N_of_ascii c)) (list_ascii_of_string s).

(** [n] bytes of [x], least significant first. *)
Fixpoint le_bytes (n : nat) (x : Z) : list Z :=
  match n with
  | O => []
  | S k => Z.land x 255 :: le_bytes k (Z.shiftr x 8)
  end.

Fixpoint le_value (bs : list Z) : Z :=
  match bs with
  | [] => 0
  | b :: t => b + 256 * le_value t
  end.

Definition md5_pad (msg : list Z) : list Z :=
  let len := Z.of_nat (List.length msg) in
  msg ++ [128] ++ repeat 0 (Z.to_nat ((55 - len) mod 64)) ++ le_bytes 8 (8 * len).

(** The sixteen words of a block of 64 bytes. *)
Fixpoint md5_words (n : nat) (block : list Z) : list Z :=
  match n with
  | O => []
  | S k => le_value (firstn 4 block) :: md5_words k (skipn 4 block)
  end.

Definition md5_round (M : list Z) (i : Z) (st : Z * Z * Z * Z) : Z * Z * Z * Z :=
  let '(A, B, C, D) := st in
  let notB := Z.lxor B 0xffffffff in
  let notD := Z.lxor D 0xffffffff in
  let '(F, g) :=
    if i <? 16 then (Z.lor (Z.land B C) (Z.land notB D), i)
    else if i <? 32 then (Z.lor (Z.land D B) (Z.land notD C), (5 * i + 1) mod 16)
    else if i <? 48 then (Z.lxor B (Z.lxor C D), (3 * i + 5) mod 16)
    else (Z.lxor C (Z.lor B notD), (7 * i) mod 16) in
  let F := w32 (F + A + nth (Z.to_nat i) md5_sines 0 + nth (Z.to_nat g) M 0) in
  (D, w32 (B + rotl32 F (nth (Z.to_nat i) md5_shifts 0)), B, C).

Definition md5_block (h : Z * Z * Z * Z) (block : list Z) : Z * Z * Z * Z :=
  let M := md5_words 16 block in
  let '(a0, b0, c0, d0) := h in
  let '(A, B, C, D) :=
    fold_left (fun st i => md5_round M (Z.of_nat i) st) (seq 0 64) h in
  (w32 (a0 + A), w32 (b0 + B), w32 (c0 + C), w32 (d0 + D)).

Fixpoint md5_blocks (n : nat) (h : Z * Z * Z * Z) (bytes : list Z) : Z * Z * Z * Z :=
  match n with
  | O => h
  | S k => md5_blocks k (md5_block h (firstn 64 bytes)) (skipn 64 bytes)
  end.

Definition hex_digit (d : Z) : ascii :=
  if d <? 10 then digit_char d else ascii_of_N (Z.to_N (87 + d)).

Definition hex_of_bytes (bs : list Z) : string :=
  string_of_list_ascii
    (flat_map (fun b => [hex_digit (b / 16); hex_digit (b mod 16)]) bs).

Definition md5_hex (s : string) : string :=
  let bytes := md5_pad (bytes_of_string s) in
  let '(a, b, c, d) :=
    md5_blocks (List.length bytes / 64)
      (0x67452301, 0xefcdab89, 0x98badcfe, 0x10325476) bytes in
  hex_of_bytes (le_bytes 4 a ++ le_bytes 4 b ++ le_bytes 4 c ++ le_bytes 4 d).

(** *** [float(s)] *)

(** The nearest binary64 (ties to even) of [num / den], signed; [num >= 0],
    [den > 0].  The quotient is taken with 64 bits or more and the rest of
    the division kept as one more, sticky, bit. *)
Definition round_ratio (neg : bool) (num den : Z) : float :=
  if num =? 0 then (if neg then PrimFloat.neg_zero else PrimFloat.zero)
  else
    let s := Z.max 0 (Z.log2 den + 66 - Z.log2 num) in
    let q := Z.shiftl num s / den in
    let sticky := if Z.shiftl num s mod den =? 0 then 0 else 1 in
    let m := 2 * q + sticky in
    SF2Prim (binary_normalize prec emax (if neg then - m else m) (- (s + 1)) neg).

(** The nearest binary64 of [d * 10 ^ e], signed, [d >= 0] of [n] digits. *)
Definition float_of_decimal (neg : bool) (d n e : Z) : float :=
  if d =? 0 then (if neg then PrimFloat.neg_zero else PrimFloat.zero)
  else if 310 <? e + n then
    (if neg then PrimFloat.neg_infinity else PrimFloat.infinity)
  else if e + n <? -330 then
    (if neg then PrimFloat.neg_zero else PrimFloat.zero)
  else if 0 <=? e then round_ratio neg (d * 10 ^ e) 1
  else round_ratio neg d (10 ^ (- e)).

Definition lower (c : ascii) : ascii :=
  let n := N_of_ascii c in
  if ((65 <=? n) && (n <=? 90))%N then ascii_of_N (n + 32) else c.

Fixpoint lower_string (s : string) : string :=
  match s with
  | String c t => String (lower c) (lower_string t)
  | EmptyString => EmptyString
  end.

(** Digits with single underscores between them; [after_digit] says whether
    the character before was a digit.  The digits read and the rest. *)
Fixpoint digit_part (after_digit : bool) (s : string) : option (list Z * string) :=
  match s with
  | String c t =>
      if is_digit c then
        match digit_part true t with
        | Some (ds, r) => Some (digit_val c :: ds, r)
        | None => None
        end
      else if Ascii.eqb c "_" then
        if after_digit then
          match t with
          | String c' _ => if is_digit c' then digit_part false t else None
          | EmptyString => None
          end
        else None
      else Some ([], s)
  | EmptyString => Some ([], "")
  end.

Definition sign_of (s : string) : bool * string :=
  match s with
  | String "-" t => (true, t)
  | String "+" t => (false, t)
  | _ => (false, s)
  end.

(** The exponent of a literal: [e], a sign, digits; 0 when there is none. *)
Definition exponent_part (s : string) : option Z :=
  match s with
  | EmptyString => Some 0
  | String "e" t =>
      let '(neg, t) := sign_of t in
      match digit_part false t with
      | Some (d :: ds, EmptyString) =>
          let v := digits_value (d :: ds) in Some (if neg then - v else v)
      | _ => None
      end
  | _ => None
  end.

(** [float(s)] of a string: white space around, a sign, then [inf],
    [infinity], [nan] or a decimal literal. *)
Definition py_float_of_str (s : string) : option float :=
  let '(neg, s) := sign_of (lower_string (strip s)) in
  if String.eqb s "inf" || String.eqb s "infinity" then
    Some (if neg then PrimFloat.neg_infinity else PrimFloat.infinity)
  else if String.eqb s "nan" then Some PrimFloat.nan
  else
    match digit_part false s with
    | Some (ip, r) =>
        match
          match r with
          | String "." t => digit_part false t
          | _ => Some ([], r)
          end
        with
        | Some (fp, r') =>
            match (ip ++ fp)%list with
            | [] => None
            | ds =>
                match exponent_part r' with
                | Some e =>
                    Some (float_of_decimal neg (digits_value ds)
                            (Z.of_nat (List.length ds))
                            (e - Z.of_nat (List.length fp)))
                | None => None
                end
            end
        | None => None
        end
    | None => None
    end.

(** *** [str(x)] of a float: the shortest decimal that reads back as [x] *)

(** The floor and the ceiling of [a * 2 ^ e / 10 ^ k], and whether the
    quotient is exact. *)
Definition scaled (a e k : Z) : Z * bool :=
  let num := a * 2 ^ (Z.max e 0) * 10 ^ (Z.max (- k) 0) in
  let den := 2 ^ (Z.max (- e) 0) * 10 ^ (Z.max k 0) in
  (num / den, num mod den =? 0).

(** The digits [d] with [d * 10 ^ k] the decimal closest to [m * 2 ^ e] among
    those that round to it, if there is one at the scale [k].  The bounds of
    what rounds to [m * 2 ^ e] are [lo * 2 ^ (e - 2)] and [hi * 2 ^ (e - 2)],
    themselves included when [m] is even. *)
Definition digits_at (m e k : Z) : option Z :=
  let lo := if (m =? 2 ^ 52) && (-1074 <? e) then 4 * m - 1 else 4 * m - 2 in
  let hi := 4 * m + 2 in
  let closed := Z.even m in
  let '(ql, xl) := scaled lo (e - 2) k in
  let '(qh, xh) := scaled hi (e - 2) k in
  let dl := if xl then (if closed then ql else ql + 1) else ql + 1 in
  let dh := if xh then (if closed then qh else qh - 1) else qh in
  if dl <=? dh then
    let '(q2, x2) := scaled (8 * m) (e - 2) k in
    (* q2 is the floor of twice the value at this scale *)
    let near := if Z.even q2 then q2 / 2
                else if x2 && Z.even (q2 / 2) then q2 / 2
                else q2 / 2 + 1 in
    Some (Z.max dl (Z.min dh near))
  else None.

(** Try the scales from [k] downwards. *)
Fixpoint shortest_digits (fuel : nat) (m e k : Z) : Z * Z :=
  match fuel with
  | O => (m * 2 ^ (Z.max e 0), 0)
  | S f =>
      match digits_at m e k with
      | Some d => if 0 <? d then (d, k) else shortest_digits f m e (k - 1)
      | None => shortest_digits f m e (k - 1)
      end
  end.

Definition zeros (n : Z) : string := string_of_list_ascii (repeat "0"%char (Z.to_nat n)).

Definition take_string (n : Z) (s : string) : string := substring 0 (Z.to_nat n) s.
Definition drop_string (n : Z) (s : string) : string :=
  substring (Z.to_nat n) (String.length s - Z.to_nat n) s.

(** The layout of [repr]: [decpt] digits stand before the point. *)
Definition layout_repr (digits : string) (decpt : Z) : string :=
  let n := Z.of_nat (String.length digits) in
  if (decpt <=? -4) || (16 <? decpt) then
    let x := decpt - 1 in
    take_string 1 digits
      ++ (if 1 <? n then "." ++ drop_string 1 digits else "")
      ++ "e" ++ (if x <? 0 then "-" else "+")
      ++ (if Z.abs x <? 10 then "0" else "") ++ str_of_Z (Z.abs x)
  else if decpt <=? 0 then "0." ++ zeros (- decpt) ++ digits
  else if n <=? decpt then digits ++ zeros (decpt - n) ++ ".0"
  else take_string decpt digits ++ "." ++ drop_string decpt digits.

Definition py_str_of_float (f : float) : string :=
  match Prim2SF f with
  | S754_nan => "nan"
  | S754_infinity s => if s then "-inf" else "inf"
  | S754_zero s => if s then "-0.0" else "0.0"
  | S754_finite s m e =>
      let m := Z.pos m in
      (* a scale above the decimal exponent of the value *)
      let k0 := (Z.log2 m + e + 1) * 30103 / 100000 + 2 in
      let '(d, k) := shortest_digits 24 m e k0 in
      let digits := str_of_Z d in
      (if s then "-" else "")
        ++ layout_repr digits (Z.of_nat (String.length digits) + k)
  end.

(** [%B] in the C locale. *)
Definition english_month (m : Z) : string :=
  nth (Z.to_nat (m - 1))
    ["January"; "February"; "March"; "April"; "May"; "June"; "July";
     "August"; "September"; "October"; "November"; "December"] "".

#[export] Instance cpython : PyLib := {|
  md5_hexdigest := md5_hex;
  float_of_str := py_float_of_str;
  str_of_float := py_str_of_float;
  month_name := english_month;
  float_summation := LeftToRight
|}.

(** The same library with the summation of CPython 3.12 and later. *)
Definition cpython_compensated : PyLib := {|
  md5_hexdigest := md5_hex;
  float_of_str := py_float_of_str;
  str_of_float := py_str_of_float;
  month_name := english_month;
  float_summation := Compensated
|}.


(** MD5 tells the identity texts of two entries apart when they differ. *)
Definition no_collision {L : PyLib} (a b : record) : Prop :=
  hash_input a <> hash_input b ->
  md5_hexdigest (hash_input a) <> md5_hexdigest (hash_input b).

(** A state with a reachable service, nothing in memory and nobody waiting. *)
Definition empty_state : state :=
  {| gc := true;
     income_sheet := {| ws_rows := []; ws_up := true |};
     expense_sheet := {| ws_rows := []; ws_up := true |};
     balance_sheet :=
       {| bs_ranges := ∅; bs_outcome := fun _ => true; bs_calls := 0 |};
     records := [];
     pending_inputs := ∅;
     registered_users := ∅ |}.

(** The same with a service whose worksheets raise on every call. *)
Definition offline_state : state :=
  {| gc := true;
     income_sheet := {| ws_rows := []; ws_up := false |};
     expense_sheet := {| ws_rows := []; ws_up := false |};
     balance_sheet :=
       {| bs_ranges := ∅; bs_outcome := fun _ => false; bs_calls := 0 |};
     records := [];
     pending_inputs := ∅;
     registered_users := ∅ |}.

Definition mk_record (d t c : string) (a : float) (m : string) : record :=
  {| rec_date := d; rec_type := t; rec_category := c; rec_amount := a;
     rec_comment := m; rec_id := None |}.

(** The two entries of the scenario of the specification. *)
Definition business_1000 : record :=
  mk_record "2024-01-01 09:00:00" INCOME "Бизнес" 1000 "".
Definition products_300 : record :=
  mk_record "2024-01-01 18:00:00" EXPENSE "Продукты" 300 "groceries".

(** Two entries that differ in category and comment and have one identity
    text: the second is the first with the amount moved into the comment. *)
Definition hyphen_old : record :=
  mk_record "2024-01-01 09:00:00" EXPENSE "Жилье-5.0" 7 "x".
Definition hyphen_new : record :=
  mk_record "2024-01-01 09:00:00" EXPENSE "Жилье" 5 "7.0-x".


(** A user, 7, who has chosen the expense category "Жилье". *)
Definition housing_pending : pending :=
  {| pend_type := EXPENSE; pend_category := "Жилье" |}.

Definition waiting_state : state :=
  set_pending_inputs {[ 7 := housing_pending ]} empty_state.

(** The instants of the scenarios. *)
Definition at_ (y m d H M S : Z) : datetime :=
  {| year := y; month := m; day := d; hour := H; minute := M; second := S;
     microsecond := 0 |}.

Definition BAD_AMOUNT_REPLY : string :=
  "Неверный формат суммы. Введите число в начале сообщения.".


(** *** Exactness of a balance *)

(** The sum of finite amounts as rationals. *)
Fixpoint exact_total (xs : list float) : option Q :=
  match xs with
  | [] => Some 0%Q
  | x :: t =>
      match Q_of_float x, exact_total t with
      | Some q, Some s => Some (q + s)%Q
      | _, _ => None
      end
  end.

(** The addition [a + x] of the program does not round. *)
Definition exact_add (a : pynum) (x : float) : Prop :=
  match Q_of_pynum a, Q_of_float x, Q_of_pynum (py_add a (NFloat x)) with
  | Some qa, Some qx, Some qs => (qs == qa + qx)%Q
  | _, _, _ => False
  end.

(** No addition of the summation of [xs] from [acc] rounds. *)
Fixpoint sum_exact_from (acc : pynum) (xs : list float) : Prop :=
  match xs with
  | [] => True
  | x :: t => exact_add acc x /\ sum_exact_from (py_add acc (NFloat x)) t
  end.

(** The subtraction [a - b] of the program does not round. *)
Definition exact_sub (a b : pynum) : Prop :=
  match Q_of_pynum a, Q_of_pynum b, Q_of_pynum (py_sub a b) with
  | Some qa, Some qb, Some qd => (qd == qa - qb)%Q
  | _, _, _ => False
  end.

(** No operation of the compensated summation of [xs] rounds, from the
    running total and the compensation [fc] on: in each turn neither the
    addition to the total nor the three operations that update the
    compensation, and at the end not the addition of the compensation. *)
Fixpoint compensated_exact_from (fc : float * float) (xs : list float) : Prop :=
  match xs with
  | [] =>
      if negb (PrimFloat.eqb (snd fc) PrimFloat.zero) && is_finite (snd fc)
      then exact_add (NFloat (fst fc)) (snd fc)
      else True
  | x :: t =>
      let f := fst fc in
      let c := snd fc in
      let s := PrimFloat.add f x in
      exact_add (NFloat f) x /\
      (if PrimFloat.leb (PrimFloat.abs x) (PrimFloat.abs f)
       then exact_sub (NFloat f) (NFloat s) /\
            exact_add (NFloat (PrimFloat.sub f s)) x /\
            exact_add (NFloat c) (PrimFloat.add (PrimFloat.sub f s) x)
       else exact_sub (NFloat x) (NFloat s) /\
            exact_add (NFloat (PrimFloat.sub x s)) f /\
            exact_add (NFloat c) (PrimFloat.add (PrimFloat.sub x s) f)) /\
      compensated_exact_from (compensated_step fc x) t
  end.

(** No operation of [sum(xs)] rounds, by the summation of the
    interpreter. *)
Definition sum_exact {L : PyLib} (xs : list float) : Prop :=
  match float_summation with
  | LeftToRight => sum_exact_from (NInt 0) xs
  | Compensated =>
      match xs with
      | [] => True
      | x :: t =>
          exact_add (NInt 0) x /\
          compensated_exact_from
            (PrimFloat.add (float_of_int_operand 0) x, PrimFloat.zero) t
      end
  end.

(** The number [b] is the exact difference of the exact sums of [inc] and
    [exp]. *)
Definition exact_difference (b : pynum) (inc exp : list float) : Prop :=
  exists q i e,
    Q_of_pynum b = Some q /\ exact_total inc = Some i /\
    exact_total exp = Some e /\ (q == i - e)%Q.

(** The balance is exactly the income minus the expense of the records. *)
Definition balance_exact {L : PyLib} (st : state) : Prop :=
  exact_difference (get_current_balance st)
    (map rec_amount (List.filter is_income (records st)))
    (map rec_amount (List.filter is_expense (records st))).

(** Incomes of 0.1 and 0.2 and an expense of 0.3. *)
Definition drift_state : state :=
  set_records
    [mk_record "2024-01-01 09:00:00" INCOME "Бизнес" 0.1 "";
     mk_record "2024-01-01 10:00:00" INCOME "Бизнес" 0.2 "";
     mk_record "2024-01-01 11:00:00" EXPENSE "Продукты" 0.3 ""]
    empty_state.

(** An entry of both types, with amounts that binary64 holds and adds
    without rounding. *)
Definition round_state : state :=
  set_records
    [mk_record "2024-01-01 09:00:00" INCOME "Бизнес" 1000 "";
     mk_record "2024-01-01 10:00:00" EXPENSE "Продукты" 300 "";
     mk_record "2024-01-02 09:30:00" INCOME "Инвестиции" 250.5 "";
     mk_record "2024-01-02 12:00:00" EXPENSE "Транспорт" 0.25 "";
     mk_record "2024-01-03 08:00:00" EXPENSE "Жилье" 100 ""]
    empty_state.

(** The records of [round_state] with a summary worksheet on which two
    calls of [update] succeed and every later one raises. *)
Definition flaky_state : state :=
  set_balance_sheet
    {| bs_ranges := ∅; bs_outcome := fun n => (n <? 2)%nat; bs_calls := 0 |}
    round_state.

(** The next [n] calls of [update] on the worksheet succeed. *)
Definition calls_succeed (bs : summary_sheet) (n : nat) : Prop :=
  forall i, (i < n)%nat -> bs_outcome bs (bs_calls bs + i)%nat = true.

(** The records of a comprehension over [rs] with the condition [cond]. *)
Definition kept (cond : record -> option bool) (rs : list record) : list record :=
  List.filter (fun r => default false (cond r)) rs.


(** A summary row whose balance is income minus expense over the records of
    the window [w]. *)
Definition window_row {L : PyLib} (label : string) (w : record -> option bool)
    (rs : list record) : list cell :=
  let income := sum_amounts (kept (typed INCOME w) rs) in
  let expense := sum_amounts (kept (typed EXPENSE w) rs) in
  [CText label; CNum income; CNum expense; CNum (py_sub income expense)].


(** The amounts of the records of type [t] and category [c], in order. *)
Definition amounts_of (t c : string) (rs : list record) : list float :=
  map rec_amount
    (List.filter (fun r => String.eqb (rec_type r) t && String.eqb (rec_category r) c) rs).

(** Strictly ascending in the order of [str]. *)
Definition strictly_ascending (xs : list string) : Prop :=
  StronglySorted (fun a b => String.ltb a b = true) xs.

(** The value a dict holds for a key after the amounts [xs] were added to
    the value [v] it held. *)
Definition added (xs : list float) (v : option pynum) : option pynum :=
  fold_left (fun a x => py_add a (NFloat x)) xs <$> v.


(** *** Timestamps and days *)

(** Four digits: [%Y] for the years 1000 to 9999. *)
Definition fmt4 (y : Z) : string :=
  String (digit_char (y / 1000)) (String (digit_char (y / 100 mod 10))
    (String (digit_char (y / 10 mod 10)) (String (digit_char (y mod 10)) ""))).

(** An instant without its microseconds. *)
Definition whole_second (dt : datetime) : datetime :=
  at_ (year dt) (month dt) (day dt) (hour dt) (minute dt) (second dt).

Definition same_day (a b : datetime) : bool :=
  (year a =? year b) && (month a =? month b) && (day a =? day b).

(** The date of the record is written as the bot writes one: zero padded,
    one space, by [strftime] from an instant of the years 1000 to 9999. *)
Definition canonical_date (r : record) : Prop :=
  exists dt, datetime_ok dt = true /\ 1000 <= year dt /\
             rec_date r = strftime_full dt.

(** The timestamp of the record falls on the day of [now]. *)
Definition on_day (now : datetime) (r : record) : bool :=
  match record_key r with
  | Some dt => same_day dt now
  | None => false
  end.

(** *** The identity text, field by field *)

(** The text [x] is the text [y], a hyphen and more. *)
Definition runs_on (x y : string) : Prop := exists s, x = y ++ "-" ++ s.

(** Neither of two texts is the other followed by a hyphen and more: a
    hyphen after the one cannot be taken for a hyphen inside the other. *)
Definition apart (x y : string) : Prop := ~ runs_on x y /\ ~ runs_on y x.

Definition no_hyphen (s : string) : Prop :=
  forallb (fun c => negb (Ascii.eqb c "-")) (list_ascii_of_string s) = true.

(** The four fields that a hyphen follows in the identity text are apart,
    the amounts as they print. *)
Definition fields_apart {L : PyLib} (a b : record) : Prop :=
  apart (rec_date a) (rec_date b) /\ apart (rec_type a) (rec_type b) /\
  apart (rec_category a) (rec_category b) /\
  apart (str_of_float (rec_amount a)) (str_of_float (rec_amount b)).

(** The five fields of two entries agree, the amounts as they print. *)
Definition same_text_fields {L : PyLib} (a b : record) : Prop :=
  rec_date a = rec_date b /\ rec_type a = rec_type b /\
  rec_category a = rec_category b /\
  str_of_float (rec_amount a) = str_of_float (rec_amount b) /\
  rec_comment a = rec_comment b.

(** An entry as the handlers of the bot make one: the date written by
    [strftime], one of the two types, a category without a hyphen (as all
    the categories of the keyboards are). *)
Definition bot_entry (r : record) : Prop :=
  canonical_date r /\ (rec_type r = INCOME \/ rec_type r = EXPENSE) /\
  no_hyphen (rec_category r).

(** The expense worksheet holds one row, filled in by hand, and user 7 has
    chosen the expense category "Жилье". *)
Definition hyphen_sheet_state : state :=
  set_pending_inputs {[ 7 := housing_pending ]}
    (set_expense_sheet
       {| ws_rows := [{| row_date := CText "2024-01-01 09:00:00";
                         row_category := "Жилье-5.0";
                         row_amount := CNum (NInt 7);
                         row_comment := "x" |}];
          ws_up := true |}
       empty_state).

(** An income of the second of [business_1000] that differs from it in the
    amount and in the comment. *)
Definition bonus_250 : record :=
  mk_record "2024-01-01 09:00:00" INCOME "Бизнес" 250.5 "bonus".

(** A record as a refresh keeps it from a sheet filled in by hand: the date
    is not zero padded. *)
Definition unpadded_morning : record :=
  mk_record "2024-1-1 09:00:00" INCOME "Бизнес" 1000 "".
Definition new_years_eve : record :=
  mk_record "2023-12-31 10:00:00" EXPENSE "Продукты" 50 "".


(** ** The rest of the bot: period reports, menus, scheduler *)

Section Reports.
Context {L : PyLib}.

(** Income, expense and balance of the records of a period. *)
Definition period_totals (period : list record) : pynum * pynum * pynum :=
  let total_income := sum_amounts (List.filter is_income period) in
  let total_expense := sum_amounts (List.filter is_expense period) in
  (total_income, total_expense, py_sub total_income total_expense).

(** The three lines of totals of a period report; [icon] is the emoji of
    the balance line. *)
Definition totals_text (icon : string) (t : pynum * pynum * pynum) : string :=
  let '(total_income, total_expense, balance) := t in
  "✅ Доход: " ++ str_of_pynum total_income ++ " руб." ++ nl
    ++ "❌ Расход: " ++ str_of_pynum total_expense ++ " руб." ++ nl
    ++ icon ++ " Баланс: " ++ sign_prefix balance ++ str_of_pynum balance
    ++ " руб.".

(** The records of the three windows; [None] when the subtraction of the
    seven days or the date of a record raises. *)
Definition weekly_records (now : datetime) (rs : list record)
  : option (list record) :=
  week_ago ← minus_days 7 now; filter_try (in_week week_ago) rs.

Definition monthly_records (now : datetime) (rs : list record)
  : option (list record) := filter_try (in_month now) rs.

Definition yearly_records (now : datetime) (rs : list record)
  : option (list record) := filter_try (in_year now) rs.

(** ["({week_ago:%d.%m}–{now:%d.%m})"]. *)
Definition week_span (week_ago now : datetime) : string :=
  "(" ++ strftime_dm week_ago ++ "–" ++ strftime_dm now ++ ")".

(** ["%B %Y"]. *)
Definition strftime_BY (now : datetime) : string :=
  month_name (month now) ++ " " ++ str_of_Z (year now).

Definition generate_weekly_summary (now : datetime) (st : state) : option string :=
  week_ago ← minus_days 7 now;
  weekly ← filter_try (in_week week_ago) (records st);
  Some ("📆 Недельный отчёт " ++ week_span week_ago now ++ ":" ++ nl ++ nl
          ++ totals_text "💰" (period_totals weekly)).

Definition generate_monthly_summary (now : datetime) (st : state) : option string :=
  monthly ← filter_try (in_month now) (records st);
  Some ("📈 Месячный отчёт за " ++ strftime_BY now ++ ":" ++ nl ++ nl
          ++ totals_text "💳" (period_totals monthly)).

Definition generate_yearly_summary (now : datetime) (st : state) : option string :=
  yearly ← filter_try (in_year now) (records st);
  Some ("📊 Годовой отчёт за " ++ str_of_Z (year now) ++ ":" ++ nl ++ nl
          ++ totals_text "💵" (period_totals yearly)).

Definition generate_weekly_chart (now : datetime) (st : state) : option chart :=
  week_ago ← minus_days 7 now;
  period_records ← filter_try (in_week week_ago) (records st);
  generate_chart period_records ("Недельный отчёт " ++ week_span week_ago now).

Definition generate_monthly_chart (now : datetime) (st : state) : option chart :=
  period_records ← filter_try (in_month now) (records st);
  generate_chart period_records ("Месячный отчёт за " ++ strftime_BY now).

Definition generate_yearly_chart (now : datetime) (st : state) : option chart :=
  period_records ← filter_try (in_year now) (records st);
  generate_chart period_records ("Годовой отчёт за " ++ str_of_Z (year now)).

(** *** The inline keyboards: rows of buttons, a button being its text and
    its callback data *)

Definition get_income_keyboard : list (list (string * string)) :=
  [[("Бизнес", "income_business")];
   [("Инвестиции", "income_investments")];
   [("Пассивный Доход", "income_passive")];
   [("Дополнительный Доход", "income_additional")]].

Definition get_expense_keyboard : list (list (string * string)) :=
  [[("Жилье", "expense_housing"); ("Продукты", "expense_products");
    ("Кафе и Рестораны", "expense_restaurants")];
   [("Развитие", "expense_development"); ("Транспорт", "expense_transport");
    ("Развлечения", "expense_entertainment")];
   [("Здоровье", "expense_health"); ("Стиль", "expense_style");
    ("Непредвиденные Расходы", "expense_unexpected")]].

Definition get_reports_menu_keyboard : list (list (string * string)) :=
  [[("🗓️ Ежедневный", "report_daily")];
   [("📆 Недельный", "report_weekly")];
   [("📈 Месячный", "report_monthly")];
   [("📊 Годовой", "report_yearly")];
   [("🔙 Назад", "back_to_main")]].

(** *** The callback handlers *)

(** What a callback handler does towards the chat service, in order. *)
Inductive action :=
| Answer
| Send (chat : Z) (text : string)
| SendPhoto (chat : Z) (file : string) (caption : string).

(** [mapping.get(k, default)] for a dict literal. *)
Fixpoint dict_get (mapping : list (string * string)) (k default : string) : string :=
  match mapping with
  | [] => default
  | (k', v) :: t => if String.eqb k k' then v else dict_get t k default
  end.

(** [s\[n:\]]. *)
Fixpoint from_index (n : nat) (s : string) : string :=
  match n, s with
  | O, _ => s
  | S k, String _ t => from_index k t
  | S _, EmptyString => EmptyString
  end.

Definition income_mapping : list (string * string) :=
  [("business", "Бизнес"); ("investments", "Инвестиции");
   ("passive", "Пассивный Доход"); ("additional", "Дополнительный Доход")].

Definition expense_mapping : list (string * string) :=
  [("housing", "Жилье"); ("products", "Продукты");
   ("restaurants", "Кафе и Рестораны"); ("development", "Развитие");
   ("transport", "Транспорт"); ("entertainment", "Развлечения");
   ("health", "Здоровье"); ("style", "Стиль");
   ("unexpected", "Непредвиденные Расходы")].

Definition UNKNOWN_CATEGORY : string := "Неизвестная категория".

Definition chosen_text (chosen : string) : string :=
  "Вы выбрали: " ++ chosen ++ nl ++ "Введите сумму и опциональный комментарий".

Definition process_income_category (user_id : Z) (callback_data : string)
    (st : state) : list action * state :=
  let data := from_index (String.length "income_") callback_data in
  let chosen := dict_get income_mapping data UNKNOWN_CATEGORY in
  ([Answer; Send user_id (chosen_text chosen)],
   set_pending_inputs
     (<[user_id := {| pend_type := INCOME; pend_category := chosen |}]>
        (pending_inputs st)) st).

Definition process_expense_category (user_id : Z) (callback_data : string)
    (st : state) : list action * state :=
  let data := from_index (String.length "expense_") callback_data in
  let chosen := dict_get expense_mapping data UNKNOWN_CATEGORY in
  ([Answer; Send user_id (chosen_text chosen)],
   set_pending_inputs
     (<[user_id := {| pend_type := EXPENSE; pend_category := chosen |}]>
        (pending_inputs st)) st).

Definition MAIN_MENU : string := "Главное меню:".

Definition process_report_daily (now : datetime) (user_id : Z) (st : state)
  : list action :=
  [Answer; Send user_id (generate_daily_summary now st); Send user_id MAIN_MENU].

(** A report with a chart: when the summary or the chart raises, the handler
    ends after the answer to the callback. *)
Definition report_with_chart (user_id : Z) (text_report : option string)
    (chart_of : option chart) : list action :=
  match text_report, chart_of with
  | Some text, Some ch =>
      [Answer; SendPhoto user_id (chart_file ch) text; Send user_id MAIN_MENU]
  | _, _ => [Answer]
  end.

Definition process_report_weekly (now : datetime) (user_id : Z) (st : state)
  : list action :=
  report_with_chart user_id (generate_weekly_summary now st)
    (generate_weekly_chart now st).

Definition process_report_monthly (now : datetime) (user_id : Z) (st : state)
  : list action :=
  report_with_chart user_id (generate_monthly_summary now st)
    (generate_monthly_chart now st).

Definition process_report_yearly (now : datetime) (user_id : Z) (st : state)
  : list action :=
  report_with_chart user_id (generate_yearly_summary now st)
    (generate_yearly_chart now st).

(** The callback handlers with their filters, in the order of registration;
    the dispatcher calls the first whose filter holds, and none when none
    holds. *)
Definition on_callback_query (now : datetime) (user_id : Z) (data : string)
    (st : state) : list action * state :=
  if startswith data "income_" then process_income_category user_id data st
  else if startswith data "expense_" && negb (startswith data "expense_group_")
  then process_expense_category user_id data st
  else if String.eqb data "report_daily"
  then (process_report_daily now user_id st, st)
  else if String.eqb data "report_weekly"
  then (process_report_weekly now user_id st, st)
  else if String.eqb data "report_monthly"
  then (process_report_monthly now user_id st, st)
  else if String.eqb data "report_yearly"
  then (process_report_yearly now user_id st, st)
  else ([], st).

(** [cmd_start]: the user is registered for the pushes. *)
Definition cmd_start (user_id : Z) (st : state) : state :=
  {| gc := gc st; income_sheet := income_sheet st;
     expense_sheet := expense_sheet st; balance_sheet := balance_sheet st;
     records := records st; pending_inputs := pending_inputs st;
     registered_users := {[user_id]} ∪ registered_users st |}.

(** [show_balance_handler]: the text of the answer. *)
Definition show_balance_handler (st : state) : string :=
  let balance := get_current_balance st in
  "Твой текущий баланс: " ++ sign_prefix balance ++ str_of_pynum balance ++ " руб.".

(** One turn of [update_balance_task]: refresh, then write the summary. *)
Definition update_balance_task_turn (now : datetime) (st : state) : state :=
  update_balance_sheet now (load_records st).

End Reports.

(** *** The calendar of the scheduler *)

(** The day after, [None] after 9999-12-31 ([OverflowError]). *)
Definition next_day (d : datetime) : option datetime :=
  if day d <? days_in_month (year d) (month d) then
    Some {| year := year d; month := month d; day := day d + 1;
            hour := hour d; minute := minute d; second := second d;
            microsecond := microsecond d |}
  else if month d <? 12 then
    Some {| year := year d; month := month d + 1; day := 1;
            hour := hour d; minute := minute d; second := second d;
            microsecond := microsecond d |}
  else if year d <? 9999 then
    Some {| year := year d + 1; month := 1; day := 1;
            hour := hour d; minute := minute d; second := second d;
            microsecond := microsecond d |}
  else None.

(** [dt + datetime.timedelta(days=n)]. *)
Fixpoint plus_days (n : nat) (d : datetime) : option datetime :=
  match n with
  | O => Some d
  | S k => match next_day d with
           | Some d' => plus_days k d'
           | None => None
           end
  end.

(** The proleptic Gregorian ordinal of the date: 0001-01-01 is day 1. *)
Definition days_before_year (y : Z) : Z :=
  let y' := y - 1 in y' * 365 + y' / 4 - y' / 100 + y' / 400.

Definition days_before_month (y m : Z) : Z :=
  nth (Z.to_nat (m - 1)) [0; 31; 59; 90; 120; 151; 181; 212; 243; 273; 304; 334] 0
  + (if (2 <? m) && is_leap y then 1 else 0).

Definition toordinal (d : datetime) : Z :=
  days_before_year (year d) + days_before_month (year d) (month d) + day d.

(** [dt.weekday()]: Monday is 0, Sunday is 6. *)
Definition weekday (d : datetime) : Z := (toordinal d + 6) mod 7.

(** [a < b]. *)
Definition datetime_ltb (a b : datetime) : bool := negb (datetime_leb b a).

(** [daily_summary_task]: the target of one turn of the loop. *)
Definition daily_summary_task_target (now : datetime) : option datetime :=
  let target := replace_hms0 now 20 in
  if datetime_leb target now then plus_days 1 target else Some target.

(** [weekly_summary_task]: the target of one turn of the loop. *)
Definition weekly_summary_task_target (now : datetime) : option datetime :=
  let days_ahead := 6 - weekday now in
  target ← plus_days (Z.to_nat days_ahead) (replace_hms0 now 20);
  if datetime_leb target now then plus_days 7 target else Some target.


(** *** Notions for the properties of the rest *)

(** Two instants are the same when each is before or at the other. *)
Definition same_instant (a b : datetime) : bool :=
  datetime_leb a b && datetime_leb b a.

(** The record has the timestamp [dt]. *)
Definition at_instant (dt : datetime) (r : record) : bool :=
  match record_key r with
  | Some k => same_instant k dt
  | None => false
  end.

(** The rows a refresh reads from a worksheet. *)
Definition readable_rows (ws : worksheet) : list row :=
  if ws_up ws then ws_rows ws else [].

(** The entry [process_manual_input] makes of a parsed text. *)
Definition manual_record (now : datetime) (p : pending) (amount : float)
    (rest : list string) : record :=
  mk_record (strftime_full now) (pend_type p) (pend_category p) amount
    (match rest with c :: _ => c | [] => "" end).


(** The buttons of a keyboard, row after row. *)
Definition buttons (keyboard : list (list (string * string))) : list (string * string) :=
  concat keyboard.


(** The date of [b] is after the date of [a]. *)
Definition date_before (a b : datetime) : Prop :=
  year a < year b \/
  (year a = year b /\ month a < month b) \/
  (year a = year b /\ month a = month b /\ day a < day b).

(** The two instants are on one day. *)
Definition same_date (a b : datetime) : Prop :=
  year a = year b /\ month a = month b /\ day a = day b.

(** The instant is at [H]:00:00 sharp. *)
Definition at_hour (H : Z) (t : datetime) : Prop :=
  hour t = H /\ minute t = 0 /\ second t = 0 /\ microsecond t = 0.

(** The ordinal of 9999-12-31, the last day of [datetime]. *)
Definition MAX_ORDINAL : Z := 3652059.


(** A state whose income sheet holds one row and whose memory is empty. *)
Definition one_row_state : state :=
  set_income_sheet
    {| ws_rows := [row_of_record business_1000]; ws_up := true |} empty_state.

(** The two entries of the scenario in memory. *)
Definition scenario_state : state :=
  set_records [business_1000; products_300] empty_state.

(** * Properties *)

(** ** The order on [datetime] *)

Lemma lex_leb_refl (a : list Z) : lex_leb a a = true.
Proof.
  induction a as [|x a IH]; simpl; trivial.
  rewrite Z.eqb_refl, IH. apply orb_true_r.
Qed.

Lemma lex_leb_total (a b : list Z) : lex_leb a b = true \/ lex_leb b a = true.
Proof.
  revert b. induction a as [|x a IH]; intros [|y b]; simpl; auto.
  destruct (Z.ltb_spec x y) as [Hxy|Hxy]; [now left|].
  destruct (Z.ltb_spec y x) as [Hyx|Hyx]; [now right|].
  assert (x = y) as -> by lia. rewrite Z.eqb_refl. simpl. apply IH.
Qed.

Lemma lex_leb_trans (a b c : list Z) :
  lex_leb a b = true -> lex_leb b c = true -> lex_leb a c = true.
Proof.
  revert b c. induction a as [|x a IH]; intros [|y b] [|z c]; simpl; trivial;
    try discriminate.
  intros H1 H2.
  apply orb_true_iff in H1 as [H1|H1]; apply orb_true_iff in H2 as [H2|H2];
    apply orb_true_iff;
    try apply andb_true_iff in H1 as [H1 H1'];
    try apply andb_true_iff in H2 as [H2 H2'];
    try apply Z.ltb_lt in H1; try apply Z.ltb_lt in H2;
    try apply Z.eqb_eq in H1; try apply Z.eqb_eq in H2.
  - left. apply Z.ltb_lt. lia.
  - left. apply Z.ltb_lt. lia.
  - left. apply Z.ltb_lt. lia.
  - right. apply andb_true_iff. split; [apply Z.eqb_eq; lia|]. eapply IH; eauto.
Qed.

Lemma datetime_leb_total (a b : datetime) :
  datetime_leb a b = true \/ datetime_leb b a = true.
Proof. apply lex_leb_total. Qed.

Lemma datetime_leb_trans (a b c : datetime) :
  datetime_leb a b = true -> datetime_leb b c = true -> datetime_leb a c = true.
Proof. apply lex_leb_trans. Qed.

(** ** [list.sort]: a sorted permutation *)

Section SortFacts.
Context {A K : Type} (leb : K -> K -> bool).
Hypothesis leb_total : forall a b, leb a b = true \/ leb b a = true.
Hypothesis leb_trans :
  forall a b c, leb a b = true -> leb b c = true -> leb a c = true.

Lemma insert_keyed_perm (x : K * A) l :
  Permutation (insert_keyed leb x l) (x :: l).
Proof.
  induction l as [|y t IH]; simpl; [reflexivity|].
  destruct (leb (fst x) (fst y)); [reflexivity|].
  rewrite IH. apply perm_swap.
Qed.

Lemma sort_keyed_perm (l : list (K * A)) : Permutation (sort_keyed leb l) l.
Proof.
  induction l as [|x t IH]; simpl; [reflexivity|].
  rewrite insert_keyed_perm. now constructor.
Qed.

Lemma insert_keyed_sorted (x : K * A) l :
  StronglySorted (keyed_le leb) l -> StronglySorted (keyed_le leb) (insert_keyed leb x l).
Proof.
  induction l as [|y t IH]; simpl; intros Hs.
  - repeat constructor.
  - destruct (leb (fst x) (fst y)) eqn:Hxy.
    + constructor; [assumption|]. constructor; [exact Hxy|].
      inversion Hs as [|? ? _ Hall]; subst.
      eapply List.Forall_impl; [|exact Hall].
      intros z Hz. unfold keyed_le in *. eapply leb_trans; eauto.
    + inversion Hs as [|? ? Hst Hall]; subst.
      constructor; [auto|].
      assert (Hyx : keyed_le leb y x).
      { unfold keyed_le. destruct (leb_total (fst x) (fst y)); congruence. }
      rewrite List.Forall_forall. intros z Hz.
      apply (Permutation_in _ (insert_keyed_perm x t)) in Hz.
      destruct Hz as [<-|Hz]; [exact Hyx|].
      rewrite List.Forall_forall in Hall. now apply Hall.
Qed.

Lemma sort_keyed_sorted (l : list (K * A)) :
  StronglySorted (keyed_le leb) (sort_keyed leb l).
Proof.
  induction l as [|x t IH]; simpl; [constructor|].
  now apply insert_keyed_sorted.
Qed.

Lemma decorate_spec (key : A -> option K) l kl :
  decorate key l = Some kl ->
  map snd kl = l /\ Forall (fun p => key (snd p) = Some (fst p)) kl.
Proof.
  revert kl. induction l as [|x t IH]; simpl; intros kl H.
  - inversion H; subst. split; constructor.
  - destruct (key x) as [k|] eqn:Hk; [|discriminate].
    destruct (decorate key t) as [kt|]; [|discriminate].
    inversion H; subst. destruct (IH kt eq_refl) as [Hm Hf].
    simpl. split; [now rewrite Hm|]. constructor; auto.
Qed.

Lemma decorate_total (key : A -> option K) l :
  Forall (fun x => key x <> None) l -> exists kl, decorate key l = Some kl.
Proof.
  induction 1 as [|x t Hx _ [kt IH]]; simpl; [eauto|].
  destruct (key x); [|congruence]. rewrite IH. eauto.
Qed.

Lemma sort_by_key_spec (key : A -> option K) l l' :
  sort_by_key leb key l = Some l' ->
  Permutation l' l /\ StronglySorted (key_le leb key) l'.
Proof.
  unfold sort_by_key. destruct (decorate key l) as [kl|] eqn:Hd; [|discriminate].
  intros H. inversion H; subst; clear H.
  destruct (decorate_spec _ _ _ Hd) as [Hm Hf]. split.
  - rewrite <- Hm. apply Permutation_map, sort_keyed_perm.
  - assert (Hf' : Forall (fun p => key (snd p) = Some (fst p)) (sort_keyed leb kl)).
    { rewrite List.Forall_forall in *. intros p Hp. apply Hf.
      eapply Permutation_in; [apply sort_keyed_perm|exact Hp]. }
    pose proof (sort_keyed_sorted kl) as Hs.
    induction Hs as [|p t Hst IH Hall]; simpl; constructor.
    + apply IH. now inversion Hf'.
    + inversion Hf' as [|? ? Hp Ht]; subst.
      rewrite List.Forall_forall in *. intros y Hy.
      apply in_map_iff in Hy as [q [<- Hq]].
      unfold key_le. rewrite Hp, (Ht q Hq). now apply Hall.
Qed.

Lemma sort_by_key_total (key : A -> option K) l :
  Forall (fun x => key x <> None) l -> exists l', sort_by_key leb key l = Some l'.
Proof.
  intros H. destruct (decorate_total key l H) as [kl Hkl].
  unfold sort_by_key. rewrite Hkl. eauto.
Qed.
End SortFacts.

(** ** The record store *)

Section StoreFacts.
Context {L : PyLib}.

Lemma records_set_records rs st : records (set_records rs st) = rs.
Proof. reflexivity. Qed.

Lemma parse_row_key trans_type rw r :
  parse_row trans_type rw = Some r -> record_key r <> None.
Proof.
  unfold parse_row, strptime_cell, record_key.
  destruct (negb _ || negb _); [discriminate|].
  destruct (row_date rw) as [|s|n]; simpl; try discriminate.
  destruct (strptime s) as [dt|] eqn:Hs; simpl; [|discriminate].
  destruct (float_of_cell (row_amount rw)); simpl; [|discriminate].
  intros H. inversion H; subst; simpl. congruence.
Qed.

Lemma load_sheet_dates ws trans_type : dates_parse (load_sheet ws trans_type).
Proof.
  unfold dates_parse, load_sheet. destruct (get_all_records ws) as [data|];
    [|constructor].
  apply List.Forall_forall. intros r Hr.
  apply list_elem_of_In, list_elem_of_omap in Hr as (rw & _ & Hrw).
  eapply parse_row_key; eauto.
Qed.

Lemma sort_records_spec rs :
  dates_parse rs ->
  Permutation (sort_records rs) rs /\ sorted_by_timestamp (sort_records rs).
Proof.
  intros Hd. unfold sort_records.
  destruct (sort_by_key_total datetime_leb record_key rs Hd) as [rs' Hrs'].
  rewrite Hrs'.
  apply (sort_by_key_spec datetime_leb datetime_leb_total datetime_leb_trans)
    in Hrs'.
  exact Hrs'.
Qed.

Lemma sort_records_perm rs : Permutation (sort_records rs) rs.
Proof.
  unfold sort_records.
  destruct (sort_by_key datetime_leb record_key rs) as [rs'|] eqn:Hs;
    [|reflexivity].
  now apply (sort_by_key_spec datetime_leb datetime_leb_total datetime_leb_trans)
    in Hs.
Qed.

Lemma dates_parse_perm rs rs' :
  Permutation rs rs' -> dates_parse rs' -> dates_parse rs.
Proof.
  unfold dates_parse. intros Hp Hd. rewrite List.Forall_forall in *.
  intros r Hr. apply Hd. eapply Permutation_in; eauto.
Qed.

Lemma save_record_to_sheet_records r st st' :
  save_record_to_sheet r st = Some st' -> records st' = records st.
Proof.
  unfold save_record_to_sheet, save_record_to_sheet_try.
  destruct (gc st); [|now intros [= <-]].
  destruct (String.eqb (rec_type r) INCOME).
  - destruct (append_row (income_sheet st) _); simpl; now intros [= <-].
  - destruct (append_row (expense_sheet st) _); simpl; now intros [= <-].
Qed.

Lemma save_record_to_sheet_returns r st :
  exists st', save_record_to_sheet r st = Some st'.
Proof.
  unfold save_record_to_sheet.
  destruct (save_record_to_sheet_try r st); eauto.
Qed.

Lemma record_key_with_id r : record_key (with_id r) = record_key r.
Proof. reflexivity. Qed.

(** What an accepted entry leaves in memory. *)
Lemma save_record_accepted r st :
  fst (save_record r st) = true ->
  records (snd (save_record r st)) = sort_records (records st ++ [with_id r]).
Proof.
  unfold save_record.
  destruct (existsb _ (records st)); [discriminate|].
  destruct (save_record_to_sheet_returns (with_id r) st) as [st1 H1].
  rewrite H1. simpl. intros _.
  now rewrite (save_record_to_sheet_records _ _ _ H1).
Qed.

(** C9. After a full refresh the records are in ascending timestamp order
    and every one of them has a timestamp; an accepted append to records
    that all have a timestamp, of an entry that has one, leaves them in
    ascending timestamp order again, each with its timestamp. *)
Theorem store_sorted_after_mutation (st : state) :
  (sorted_by_timestamp (records (load_records st)) /\
   dates_parse (records (load_records st))) /\
  (forall r : record,
     dates_parse (records st) -> record_key r <> None ->
     fst (save_record r st) = true ->
     sorted_by_timestamp (records (snd (save_record r st))) /\
     dates_parse (records (snd (save_record r st)))).
Proof.
  split.
  - unfold load_records. destruct (gc st); simpl.
    + assert (Hd : dates_parse (load_sheet (income_sheet st) INCOME
                                  ++ load_sheet (expense_sheet st) EXPENSE)).
      { apply List.Forall_app. split; apply load_sheet_dates. }
      destruct (sort_records_spec _ Hd) as [Hp Hs]. split; [exact Hs|].
      eapply dates_parse_perm; eauto.
    + split; constructor.
  - intros r Hd Hr Hok. rewrite (save_record_accepted _ _ Hok).
    assert (Hd' : dates_parse (records st ++ [with_id r])).
    { apply List.Forall_app. split; [exact Hd|]. constructor; [|constructor].
      now rewrite record_key_with_id. }
    destruct (sort_records_spec _ Hd') as [Hp Hs]. split; [exact Hs|].
    eapply dates_parse_perm; eauto.
Qed.

End StoreFacts.

(** ** Strings: cancellation for [++] *)

Lemma list_ascii_of_string_app (a b : string) :
  list_ascii_of_string (a ++ b) = (list_ascii_of_string a ++ list_ascii_of_string b)%list.
Proof. induction a as [|c a IH]; simpl; [reflexivity|]. now rewrite IH. Qed.

Lemma list_ascii_of_string_inj (a b : string) :
  list_ascii_of_string a = list_ascii_of_string b -> a = b.
Proof.
  intros H. rewrite <- (string_of_list_ascii_of_string a),
    <- (string_of_list_ascii_of_string b). now rewrite H.
Qed.

Lemma append_inv_head (s a b : string) : s ++ a = s ++ b -> a = b.
Proof. induction s as [|c s IH]; simpl; [trivial|]. intros [= H]. auto. Qed.

Lemma append_inv_tail (a b s : string) : a ++ s = b ++ s -> a = b.
Proof.
  intros H. apply list_ascii_of_string_inj.
  apply (f_equal list_ascii_of_string) in H.
  rewrite !list_ascii_of_string_app in H. now apply List.app_inv_tail in H.
Qed.

Lemma append_assoc (a b c : string) : (a ++ b) ++ c = a ++ (b ++ c).
Proof.
  induction a as [|x a IH]; [reflexivity|].
  change (String x ((a ++ b) ++ c) = String x (a ++ (b ++ c))). now f_equal.
Qed.

(** ** Identity and deduplication *)

Section IdentityFacts.
Context {L : PyLib}.

Lemma same_fields_hash_input a b : same_fields a b -> hash_input a = hash_input b.
Proof.
  intros (Hd & Ht & Hc & Ha & Hm). unfold hash_input.
  now rewrite Hd, Ht, Hc, Ha, Hm.
Qed.

Lemma same_fields_id a b : same_fields a b -> get_record_id a = get_record_id b.
Proof. intros H. unfold get_record_id. now rewrite (same_fields_hash_input a b H). Qed.

Lemma duplicate_test_false r rs :
  existsb (fun x => String.eqb (get_record_id x) (get_record_id r)) rs = false <->
  (forall x, In x rs -> get_record_id x <> get_record_id r).
Proof.
  split.
  - intros H x Hx E.
    assert (existsb (fun x => String.eqb (get_record_id x) (get_record_id r)) rs = true).
    { apply existsb_exists. exists x. split; [exact Hx|]. now apply String.eqb_eq. }
    congruence.
  - intros H. apply not_true_is_false. intros E.
    apply existsb_exists in E as (x & Hx & E). apply String.eqb_eq in E.
    exact (H x Hx E).
Qed.

(** An entry is accepted exactly when its identity is new. *)
Lemma save_record_true_iff r st :
  fst (save_record r st) = true <->
  (forall x, In x (records st) -> get_record_id x <> get_record_id r).
Proof.
  rewrite <- duplicate_test_false. unfold save_record.
  destruct (existsb _ (records st)).
  - simpl. split; discriminate.
  - destruct (save_record_to_sheet_returns (with_id r) st) as [st1 H1].
    rewrite H1. simpl. tauto.
Qed.

Lemma append_raises_try r st :
  append_raises r st -> save_record_to_sheet_try (with_id r) st = None.
Proof.
  unfold append_raises, save_record_to_sheet_try, append_row. simpl.
  intros [H|[[Ht H]|[Ht H]]].
  - now rewrite H.
  - destruct (gc st); [|reflexivity]. rewrite Ht, String.eqb_refl, H. reflexivity.
  - destruct (gc st); [|reflexivity].
    apply String.eqb_neq in Ht. rewrite Ht, H. reflexivity.
Qed.

(** C1 (what the code does). When the write to the worksheet raises and the
    identity of the entry is new, [save_record] still answers [True] and the
    entry is in memory: nothing was written and the sheets are as before. *)
Theorem save_record_swallows_failed_write r st :
  append_raises r st ->
  (forall x, In x (records st) -> get_record_id x <> get_record_id r) ->
  save_record r st
  = (true, set_records (sort_records (records st ++ [with_id r])) st).
Proof.
  intros Hraise Hnew. unfold save_record.
  apply duplicate_test_false in Hnew. rewrite Hnew.
  unfold save_record_to_sheet. now rewrite (append_raises_try r st Hraise).
Qed.

End IdentityFacts.

(** ** The conversation *)

Section ConversationFacts.
Context {L : PyLib}.

(** C2 (as amended). For a user with a pending input, a text whose first
    token is not a number is answered with the format error and changes
    nothing: no entry is made, nothing is written, and the pending input
    stays, so that the next text of the user is read as an amount again. *)
Theorem bad_amount_keeps_pending now user_id text st p tok rest :
  pending_inputs st !! user_id = Some p ->
  split_maxsplit1 (strip text) = tok :: rest ->
  float_of_str tok = None ->
  process_manual_input now user_id text st = ([Reply BAD_AMOUNT_REPLY], st) /\
  pending_inputs (snd (process_manual_input now user_id text st)) !! user_id = Some p.
Proof.
  intros Hp Hs Hf. unfold process_manual_input. rewrite Hp, Hs, Hf.
  split; [reflexivity|exact Hp].
Qed.

End ConversationFacts.

(** ** Witnesses and counterexamples on the reference library *)

(** C1: the failing input.  The service raises on every call, the entry is
    answered with [True] and is in memory. *)
Lemma save_record_swallows_failed_write_witness :
  save_record (L := cpython) business_1000 offline_state
  = (true, set_records
             (sort_records (records offline_state ++ [with_id business_1000]))
             offline_state).
Proof.
  apply (save_record_swallows_failed_write (L := cpython)).
  - right. left. split; reflexivity.
  - intros x [].
Defined.

(** C2: the claim fails.  After "abc" the pending input of the user is still
    there. *)
Lemma pending_survives_bad_amount :
  pending_inputs
    (snd (process_manual_input (L := cpython) (at_ 2024 1 1 12 0 0) 7 "abc"
            waiting_state)) !! 7
  = Some housing_pending.
Proof. vm_compute. reflexivity. Qed.

Lemma bad_amount_keeps_pending_witness :
  process_manual_input (L := cpython) (at_ 2024 1 1 12 0 0) 7 "abc" waiting_state
  = ([Reply BAD_AMOUNT_REPLY], waiting_state) /\
  pending_inputs
    (snd (process_manual_input (L := cpython) (at_ 2024 1 1 12 0 0) 7 "abc"
            waiting_state)) !! 7
  = Some housing_pending.
Proof.
  apply (bad_amount_keeps_pending (L := cpython) _ 7 "abc" waiting_state
           housing_pending "abc" []); reflexivity.
Defined.

(** C9: an accepted append to one record. *)
Lemma store_sorted_after_mutation_witness :
  sorted_by_timestamp
    (records (snd (save_record (L := cpython) business_1000
                     (set_records [products_300] empty_state)))) /\
  dates_parse
    (records (snd (save_record (L := cpython) business_1000
                     (set_records [products_300] empty_state)))).
Proof.
  apply (store_sorted_after_mutation (L := cpython)
           (set_records [products_300] empty_state)).
  - repeat constructor; discriminate.
  - discriminate.
  - vm_compute. reflexivity.
Defined.

(** ** The monthly scheduler *)

Lemma days_in_month_ge_28 y m : 28 <= days_in_month y m.
Proof.
  unfold days_in_month.
  destruct (m =? 2); [destruct (is_leap y); lia|].
  destruct ((m =? 4) || (m =? 6) || (m =? 9) || (m =? 11)); lia.
Qed.

Lemma datetime_ok_fields d :
  datetime_ok d = true ->
  1 <= year d <= 9999 /\ 1 <= month d <= 12 /\
  1 <= day d <= days_in_month (year d) (month d) /\
  0 <= hour d <= 23 /\ 0 <= minute d <= 59 /\ 0 <= second d <= 59 /\
  0 <= microsecond d <= 999999.
Proof.
  unfold datetime_ok. rewrite !andb_true_iff, !Z.leb_le. tauto.
Qed.

Lemma mk_datetime_first y m :
  1 <= y <= 9999 -> 1 <= m <= 12 -> mk_datetime y m 1 10 0 0 = Some (at_ y m 1 10 0 0).
Proof.
  intros Hy Hm. unfold mk_datetime, datetime_ok. simpl.
  pose proof (days_in_month_ge_28 y m).
  repeat match goal with
         | |- context [?a <=? ?b] =>
             let H := fresh in
             destruct (Z.leb_spec a b) as [H|H]; [|lia]
         end.
  reflexivity.
Qed.

(** C8. From a valid instant before the year 9999: on the 1st of a month
    before 10:00 the target is 10:00:00 of the same day; at any other
    instant it is 10:00:00 of the 1st of the next month, which is January of
    the next year after December.  The two instants of the scenario give
    2024-03-01 10:00:00 and 2024-04-01 10:00:00. *)
Theorem monthly_target_spec (now : datetime) :
  datetime_ok now = true -> year now < 9999 ->
  (day now = 1 /\ hour now < 10 ->
   monthly_summary_task_target now
   = Some (at_ (year now) (month now) (day now) 10 0 0)) /\
  (~ (day now = 1 /\ hour now < 10) -> month now = 12 ->
   monthly_summary_task_target now = Some (at_ (year now + 1) 1 1 10 0 0)) /\
  (~ (day now = 1 /\ hour now < 10) -> month now <> 12 ->
   monthly_summary_task_target now
   = Some (at_ (year now) (month now + 1) 1 10 0 0)) /\
  monthly_summary_task_target (at_ 2024 3 1 9 0 0) = Some (at_ 2024 3 1 10 0 0) /\
  monthly_summary_task_target (at_ 2024 3 1 11 0 0) = Some (at_ 2024 4 1 10 0 0).
Proof.
  intros Hok Hy. apply datetime_ok_fields in Hok.
  unfold monthly_summary_task_target.
  repeat split; try reflexivity.
  - intros [Hd Hh].
    assert (E : (day now =? 1) && (hour now <? 10) = true).
    { apply andb_true_iff. split; [now apply Z.eqb_eq|now apply Z.ltb_lt]. }
    rewrite E. reflexivity.
  - intros Hn Hm.
    assert (E : (day now =? 1) && (hour now <? 10) = false).
    { apply not_true_is_false. intros E. apply andb_true_iff in E as [E1 E2].
      apply Z.eqb_eq in E1. apply Z.ltb_lt in E2. tauto. }
    rewrite E. apply Z.eqb_eq in Hm. rewrite Hm.
    apply mk_datetime_first; lia.
  - intros Hn Hm.
    assert (E : (day now =? 1) && (hour now <? 10) = false).
    { apply not_true_is_false. intros E. apply andb_true_iff in E as [E1 E2].
      apply Z.eqb_eq in E1. apply Z.ltb_lt in E2. tauto. }
    rewrite E. apply Z.eqb_neq in Hm. rewrite Hm.
    apply mk_datetime_first; lia.
Qed.

Lemma monthly_target_spec_witness :
  monthly_summary_task_target (at_ 2024 12 31 23 59 59)
  = Some (at_ (2024 + 1) 1 1 10 0 0).
Proof.
  refine (proj1 (proj2 (monthly_target_spec (at_ 2024 12 31 23 59 59) _ _)) _ _).
  - reflexivity.
  - simpl. lia.
  - simpl. lia.
  - reflexivity.
Defined.

(** ** Refresh after an append *)

Section RefreshFacts.
Context {L : PyLib}.

(** A refresh reads the client and the two worksheets only. *)
Lemma load_records_reads st st' :
  gc st' = gc st -> income_sheet st' = income_sheet st ->
  expense_sheet st' = expense_sheet st ->
  records (load_records st') = records (load_records st).
Proof.
  intros Hg Hi He. unfold load_records. rewrite Hg, Hi, He.
  destruct (gc st); reflexivity.
Qed.

Lemma load_sheet_append ws trans_type rw ws' :
  append_row ws rw = Some ws' ->
  load_sheet ws' trans_type
  = (load_sheet ws trans_type ++ match parse_row trans_type rw with
                                 | Some r => [r]
                                 | None => []
                                 end)%list.
Proof.
  unfold append_row, load_sheet, get_all_records.
  destruct (ws_up ws); [|discriminate]. intros [= <-]. simpl.
  rewrite omap_app. simpl. now destruct (parse_row trans_type rw).
Qed.

(** The state after the write of [save_record_to_sheet]: one worksheet has
    one more row, or nothing has changed. *)
Lemma save_record_to_sheet_cases r st st' :
  save_record_to_sheet r st = Some st' ->
  st' = st \/
  (rec_type r = INCOME /\ gc st = true /\
   exists ws, append_row (income_sheet st) (row_of_record r) = Some ws /\
              st' = set_income_sheet ws st) \/
  (rec_type r <> INCOME /\ gc st = true /\
   exists ws, append_row (expense_sheet st) (row_of_record r) = Some ws /\
              st' = set_expense_sheet ws st).
Proof.
  unfold save_record_to_sheet, save_record_to_sheet_try.
  destruct (gc st); [|intros [= <-]; now left].
  destruct (String.eqb_spec (rec_type r) INCOME) as [Ht|Ht].
  - destruct (append_row (income_sheet st) (row_of_record r)) as [ws|] eqn:Hw;
      simpl; intros [= <-]; [|now left].
    right. left. eauto.
  - destruct (append_row (expense_sheet st) (row_of_record r)) as [ws|] eqn:Hw;
      simpl; intros [= <-]; [|now left].
    right. right. eauto.
Qed.

Lemma falsy_amount_skipped trans_type rw :
  cell_truthy (row_amount rw) = false -> parse_row trans_type rw = None.
Proof.
  intros H. unfold parse_row. rewrite H. simpl. now rewrite orb_true_r.
Qed.

(** C10. A row whose amount is falsy is skipped, whatever else it holds, as
    a row without an amount is; the numbers 0 and 0.0 are falsy.  Hence a
    refresh after [save_record] of an entry with amount zero gives the
    records a refresh without it would have given. *)
Theorem zero_amount_lost_on_refresh :
  (forall trans_type rw,
     cell_truthy (row_amount rw) = false ->
     parse_row trans_type rw = None /\
     parse_row trans_type rw
     = parse_row trans_type
         {| row_date := row_date rw; row_category := row_category rw;
            row_amount := CMissing; row_comment := row_comment rw |}) /\
  cell_truthy (CNum (NInt 0)) = false /\
  cell_truthy (CNum (NFloat 0)) = false /\
  (forall r st,
     PrimFloat.eqb (rec_amount r) PrimFloat.zero = true ->
     records (load_records (snd (save_record r st))) = records (load_records st)).
Proof.
  split; [|split; [reflexivity|split; [reflexivity|]]].
  - intros trans_type rw H. split; [now apply falsy_amount_skipped|].
    rewrite falsy_amount_skipped by exact H.
    symmetry. now apply falsy_amount_skipped.
  - intros r st Hz. unfold save_record.
    destruct (existsb _ (records st)); [reflexivity|].
    destruct (save_record_to_sheet (with_id r) st) as [st1|] eqn:H1;
      [|reflexivity].
    simpl.
    assert (Hrow : forall t, parse_row t (row_of_record (with_id r)) = None).
    { intros t. apply falsy_amount_skipped. simpl. now rewrite Hz. }
    apply save_record_to_sheet_cases in H1 as [->|[H1|H1]].
    + now apply load_records_reads.
    + destruct H1 as (_ & Hg & ws & Hws & ->).
      unfold load_records. simpl. rewrite Hg.
      rewrite (load_sheet_append _ _ _ _ Hws), Hrow. simpl.
      now rewrite List.app_nil_r.
    + destruct H1 as (_ & Hg & ws & Hws & ->).
      unfold load_records. simpl. rewrite Hg.
      rewrite (load_sheet_append _ _ _ _ Hws), Hrow. simpl.
      now rewrite List.app_nil_r.
Qed.

(** The record a row written by [save_record_to_sheet] is read back as. *)
Lemma parse_row_of_record trans_type r dt :
  strptime (rec_date r) = Some dt ->
  PrimFloat.eqb (rec_amount r) PrimFloat.zero = false ->
  parse_row trans_type (row_of_record r)
  = Some (mk_record (rec_date r) trans_type (rec_category r) (rec_amount r)
            (rec_comment r)).
Proof.
  intros Hd Ha. unfold parse_row. simpl. rewrite Ha. simpl.
  destruct (rec_date r) as [|c s] eqn:E; [discriminate Hd|].
  simpl. rewrite Hd. reflexivity.
Qed.


End RefreshFacts.


(** ** Balances *)

Lemma Q_of_pynum_zero : Q_of_pynum (NInt 0) = Some 0%Q.
Proof. reflexivity. Qed.

Lemma exact_add_elim a x :
  exact_add a x ->
  exists qa qx qs,
    Q_of_pynum a = Some qa /\ Q_of_float x = Some qx /\
    Q_of_pynum (py_add a (NFloat x)) = Some qs /\ (qs == qa + qx)%Q.
Proof.
  unfold exact_add.
  destruct (Q_of_pynum a) as [qa|]; [|contradiction].
  destruct (Q_of_float x) as [qx|]; [|contradiction].
  destruct (Q_of_pynum (py_add a (NFloat x))) as [qs|]; [|contradiction].
  intros H. now exists qa, qx, qs.
Qed.

Lemma exact_sub_elim a b :
  exact_sub a b ->
  exists qa qb qd,
    Q_of_pynum a = Some qa /\ Q_of_pynum b = Some qb /\
    Q_of_pynum (py_sub a b) = Some qd /\ (qd == qa - qb)%Q.
Proof.
  unfold exact_sub.
  destruct (Q_of_pynum a) as [qa|]; [|contradiction].
  destruct (Q_of_pynum b) as [qb|]; [|contradiction].
  destruct (Q_of_pynum (py_sub a b)) as [qd|]; [|contradiction].
  intros H. now exists qa, qb, qd.
Qed.

(** A summation that never rounds gives the exact sum. *)
Lemma sum_exact_from_total xs : forall acc qa,
  Q_of_pynum acc = Some qa -> sum_exact_from acc xs ->
  exists qs tot,
    Q_of_pynum (fold_left (fun a x => py_add a (NFloat x)) xs acc) = Some qs /\
    exact_total xs = Some tot /\ (qs == qa + tot)%Q.
Proof.
  induction xs as [|x t IH]; intros acc qa Hacc Hex; simpl.
  - exists qa, 0%Q. repeat split; trivial. ring.
  - destruct Hex as [Hadd Hrest]. unfold exact_add in Hadd. rewrite Hacc in Hadd.
    destruct (Q_of_float x) as [qx|] eqn:Hx; [|contradiction].
    destruct (Q_of_pynum (py_add acc (NFloat x))) as [q1|] eqn:H1; [|contradiction].
    destruct (IH _ _ H1 Hrest) as (qs & tot & Hqs & Htot & Heq).
    exists qs, (qx + tot)%Q. rewrite Htot. repeat split; trivial.
    rewrite Heq, Hadd. ring.
Qed.

(** A float that compares equal to zero is a zero. *)
Lemma eqb_zero_Q c : PrimFloat.eqb c PrimFloat.zero = true -> Q_of_float c = Some 0%Q.
Proof.
  rewrite FloatAxioms.eqb_spec. unfold Q_of_float.
  replace (Prim2SF PrimFloat.zero) with (S754_zero false) by reflexivity.
  destruct (Prim2SF c) as [[]|[]| |[] m e]; cbn; intros H; try reflexivity; discriminate H.
Qed.

Lemma Q_of_float_finite c q : Q_of_float c = Some q -> is_finite c = true.
Proof.
  unfold Q_of_float, is_finite. destruct (Prim2SF c); congruence.
Qed.

(** The compensated summation, when none of its operations rounds: the
    total and the compensation together hold the exact sum. *)
Lemma compensated_exact_total xs : forall f c qf qc,
  Q_of_float f = Some qf -> Q_of_float c = Some qc ->
  compensated_exact_from (f, c) xs ->
  exists qs tot,
    Q_of_float (compensated_result (fold_left compensated_step xs (f, c))) = Some qs /\
    exact_total xs = Some tot /\ (qs == qf + qc + tot)%Q.
Proof.
  induction xs as [|x t IH]; intros f c qf qc Hf Hc Hex.
  - cbn [fold_left compensated_result exact_total]. cbn [compensated_exact_from fst snd] in Hex.
    destruct (negb (PrimFloat.eqb c PrimFloat.zero) && is_finite c) eqn:E.
    + apply exact_add_elim in Hex as (qa & qx & qs & Ha & Hx & Hs & Heq).
      cbn [Q_of_pynum py_add] in Ha, Hs. rewrite Hf in Ha. rewrite Hc in Hx.
      injection Ha as <-. injection Hx as <-.
      exists qs, 0%Q. repeat split; trivial. rewrite Heq. ring.
    + rewrite (Q_of_float_finite c qc Hc), andb_true_r in E.
      apply negb_false_iff in E. apply eqb_zero_Q in E. rewrite Hc in E.
      injection E as ->.
      exists qf, 0%Q. repeat split; trivial. ring.
  - cbn [compensated_exact_from fst snd] in Hex. destruct Hex as (Hadd & Hcomp & Hrest).
    apply exact_add_elim in Hadd as (qa & qx & qs & Ha & Hx & Hs & Heq).
    cbn [Q_of_pynum py_add] in Ha, Hs. rewrite Hf in Ha. injection Ha as <-.
    cbn [fold_left exact_total]. rewrite Hx.
    unfold compensated_step in Hrest |- *.
    destruct (PrimFloat.leb (PrimFloat.abs x) (PrimFloat.abs f)).
    + destruct Hcomp as (Hd & He & Hc').
      apply exact_sub_elim in Hd as (q1 & q2 & qd & H1 & H2 & Hqd & Hdeq).
      cbn [Q_of_pynum py_sub] in H1, H2, Hqd. rewrite Hf in H1. rewrite Hs in H2.
      injection H1 as <-. injection H2 as <-.
      apply exact_add_elim in He as (q3 & q4 & qe & H3 & H4 & Hqe & Heeq).
      cbn [Q_of_pynum py_add] in H3, Hqe. rewrite Hqd in H3. rewrite Hx in H4.
      injection H3 as <-. injection H4 as <-.
      apply exact_add_elim in Hc' as (q5 & q6 & qc' & H5 & H6 & Hqc' & Hceq).
      cbn [Q_of_pynum py_add] in H5, Hqc'. rewrite Hc in H5. rewrite Hqe in H6.
      injection H5 as <-. injection H6 as <-.
      destruct (IH _ _ _ _ Hs Hqc' Hrest) as (qr & tot & Hr & Htot & Hreq).
      exists qr, (qx + tot)%Q. rewrite Htot. repeat split; trivial.
      rewrite Hreq, Hceq, Heeq, Hdeq, Heq. ring.
    + destruct Hcomp as (Hd & He & Hc').
      apply exact_sub_elim in Hd as (q1 & q2 & qd & H1 & H2 & Hqd & Hdeq).
      cbn [Q_of_pynum py_sub] in H1, H2, Hqd. rewrite Hx in H1. rewrite Hs in H2.
      injection H1 as <-. injection H2 as <-.
      apply exact_add_elim in He as (q3 & q4 & qe & H3 & H4 & Hqe & Heeq).
      cbn [Q_of_pynum py_add] in H3, Hqe. rewrite Hqd in H3. rewrite Hf in H4.
      injection H3 as <-. injection H4 as <-.
      apply exact_add_elim in Hc' as (q5 & q6 & qc' & H5 & H6 & Hqc' & Hceq).
      cbn [Q_of_pynum py_add] in H5, Hqc'. rewrite Hc in H5. rewrite Hqe in H6.
      injection H5 as <-. injection H6 as <-.
      destruct (IH _ _ _ _ Hs Hqc' Hrest) as (qr & tot & Hr & Htot & Hreq).
      exists qr, (qx + tot)%Q. rewrite Htot. repeat split; trivial.
      rewrite Hreq, Hceq, Heeq, Hdeq, Heq. ring.
Qed.

Lemma Q_of_float_zero : Q_of_float PrimFloat.zero = Some 0%Q.
Proof. reflexivity. Qed.

Section BalanceFacts.
Context {L : PyLib}.

(** [sum], when none of its operations rounds, is the exact sum, by either
    summation. *)
Lemma builtin_sum_exact xs :
  sum_exact xs ->
  exists q tot,
    Q_of_pynum (builtin_sum xs) = Some q /\ exact_total xs = Some tot /\ (q == tot)%Q.
Proof.
  unfold sum_exact, builtin_sum. destruct float_summation.
  - intros H.
    destruct (sum_exact_from_total xs _ _ Q_of_pynum_zero H) as (q & tot & Hq & Ht & E).
    exists q, tot. repeat split; trivial. rewrite E. ring.
  - destruct xs as [|x t]; intros H.
    + exists 0%Q, 0%Q. repeat split; reflexivity.
    + destruct H as [Hadd Hrest].
      apply exact_add_elim in Hadd as (qa & qx & qs & Ha & Hx & Hs & Heq).
      cbn [Q_of_pynum py_add] in Ha, Hs. injection Ha as <-.
      destruct (compensated_exact_total t _ _ _ _ Hs Q_of_float_zero Hrest)
        as (qr & tot & Hr & Htot & Hreq).
      cbn [py_sum_compensated Q_of_pynum exact_total]. rewrite Hx, Htot.
      exists qr, (qx + tot)%Q. repeat split; trivial.
      rewrite Hreq, Heq. unfold inject_Z. ring.
Qed.

Lemma exact_steps_exact_difference inc exp :
  sum_exact inc -> sum_exact exp ->
  exact_sub (builtin_sum inc) (builtin_sum exp) ->
  exact_difference (py_sub (builtin_sum inc) (builtin_sum exp)) inc exp.
Proof.
  intros Hi He Hs.
  destruct (builtin_sum_exact inc Hi) as (qi & ti & Hqi & Hti & Ei).
  destruct (builtin_sum_exact exp He) as (qe & te & Hqe & Hte & Ee).
  apply exact_sub_elim in Hs as (qa & qb & qd & Ha & Hb & Hd & Heq).
  rewrite Hqi in Ha. rewrite Hqe in Hb. injection Ha as <-. injection Hb as <-.
  exists qd, ti, te. repeat split; trivial.
  rewrite Heq, Ei, Ee. ring.
Qed.

Lemma filter_try_kept cond rs l :
  filter_try cond rs = Some l -> l = kept cond rs.
Proof.
  revert l. induction rs as [|r t IH]; simpl; intros l H.
  - now inversion H.
  - destruct (cond r) as [b|]; [|discriminate].
    destruct (filter_try cond t) as [t'|]; [|discriminate].
    inversion H; subst. simpl. rewrite (IH t' eq_refl). now destruct b.
Qed.

(** Income, expense and balance of a window. *)
Lemma window_totals_spec w rs i e b :
  window_totals w rs = Some (i, e, b) ->
  i = sum_amounts (kept (typed INCOME w) rs) /\
  e = sum_amounts (kept (typed EXPENSE w) rs) /\
  b = py_sub i e.
Proof.
  unfold window_totals.
  destruct (filter_try (typed INCOME w) rs) as [inc|] eqn:Hi; [|discriminate].
  destruct (filter_try (typed EXPENSE w) rs) as [exp|] eqn:He; [|discriminate].
  simpl. intros [= <- <- <-].
  now rewrite (filter_try_kept _ _ _ Hi), (filter_try_kept _ _ _ He).
Qed.

Lemma summary_row_window label w rs t :
  window_totals w rs = Some t -> summary_row label t = window_row label w rs.
Proof.
  destruct t as [[i e] b]. intros H.
  apply window_totals_spec in H as (-> & -> & ->). reflexivity.
Qed.

(** The four rows [update_balance_sheet] computes. *)
Lemma summary_rows_spec now st rows :
  summary_rows now st = Some rows ->
  exists week_ago,
    minus_days 7 now = Some week_ago /\
    rows =
    [("A1:D1", [CText "Общий баланс"; CNum (get_current_balance st);
                CText ""; CText ""]);
     ("A2:D2", window_row "Данные недели" (in_week week_ago) (records st));
     ("A3:D3", window_row "Данные месяца" (in_month now) (records st));
     ("A4:D4", window_row "Данные года" (in_year now) (records st))].
Proof.
  unfold summary_rows.
  destruct (minus_days 7 now) as [week_ago|]; [|discriminate]. simpl.
  destruct (window_totals (in_week week_ago) (records st)) as [wk|] eqn:Hwk;
    [|discriminate].
  destruct (window_totals (in_month now) (records st)) as [mo|] eqn:Hmo;
    [|discriminate].
  destruct (window_totals (in_year now) (records st)) as [yr|] eqn:Hyr;
    [|discriminate].
  simpl. intros [= <-]. exists week_ago. split; [reflexivity|].
  now rewrite (summary_row_window _ _ _ _ Hwk), (summary_row_window _ _ _ _ Hmo),
    (summary_row_window _ _ _ _ Hyr).
Qed.

Lemma calls_succeed_next bs range values n :
  calls_succeed bs (S n) ->
  fst (sheet_update bs range values) = true /\
  calls_succeed (snd (sheet_update bs range values)) n.
Proof.
  intros H. unfold sheet_update. cbn [fst snd]. split.
  - specialize (H 0%nat). rewrite Nat.add_0_r in H. apply H. lia.
  - intros i Hi. cbn [bs_outcome bs_calls].
    replace (S (bs_calls bs) + i)%nat with (bs_calls bs + S i)%nat by lia.
    apply H. lia.
Qed.

(** What a run of [update] calls leaves when the first [k] succeed and the
    next one, if there is one, raises: the first [k] rows written in order,
    nothing else touched. *)
Lemma update_all_spec rows : forall bs k,
  (k <= length rows)%nat -> calls_succeed bs k ->
  ((k < length rows)%nat -> bs_outcome bs (bs_calls bs + k)%nat = false) ->
  bs_ranges (update_all bs rows)
  = fold_left (fun m rv => <[fst rv := snd rv]> m) (firstn k rows) (bs_ranges bs) /\
  bs_calls (update_all bs rows) = (bs_calls bs + Nat.min (S k) (length rows))%nat /\
  bs_outcome (update_all bs rows) = bs_outcome bs.
Proof.
  induction rows as [|[range values] rest IH]; intros bs k Hk Hok Hfail.
  - cbn in Hk. assert (k = 0%nat) as -> by lia. cbn. repeat split; trivial; lia.
  - cbn [update_all length] in *.
    destruct k as [|k].
    + assert (E : bs_outcome bs (bs_calls bs) = false).
      { rewrite <- (Nat.add_0_r (bs_calls bs)). apply Hfail. lia. }
      unfold sheet_update. rewrite E. cbn. repeat split; trivial; lia.
    + destruct (calls_succeed_next bs range values k Hok) as [H1 H2].
      destruct (sheet_update bs range values) as [ok bs'] eqn:Eu.
      cbn [fst snd] in H1, H2. subst ok.
      assert (Hbs' : bs_ranges bs' = <[range := values]> (bs_ranges bs) /\
                     bs_calls bs' = S (bs_calls bs) /\
                     bs_outcome bs' = bs_outcome bs).
      { unfold sheet_update in Eu. injection Eu as Eo <-. rewrite Eo. now cbn. }
      destruct Hbs' as (Hr & Hc & Ho).
      destruct (IH bs' k) as (I1 & I2 & I3); [lia|exact H2| |].
      { intros Hlt. rewrite Ho, Hc.
        replace (S (bs_calls bs) + k)%nat with (bs_calls bs + S k)%nat by lia.
        apply Hfail. lia. }
      cbn [firstn fold_left fst snd]. rewrite I1, I2, I3, Hr, Hc, Ho.
      repeat split; trivial.
      destruct (length rest); cbn; lia.
Qed.

(** C4 (as amended). The balance is a binary64 number, the difference of two
    sums of the builtin [sum].  Whichever of its two summations the
    interpreter has, the overall balance and the balance of every window are
    the exact difference of the exact sums of the income and of the expense
    amounts when none of the floating-point operations of the two sums, and
    not the subtraction, rounds.  The rows [update_balance_sheet] writes when
    its four calls succeed hold these balances: of all records in the first
    row, of the records of the week, the month and the year in the others. *)
Theorem balance_is_float_difference (st : state) :
  (sum_exact (map rec_amount (List.filter is_income (records st))) ->
   sum_exact (map rec_amount (List.filter is_expense (records st))) ->
   exact_sub (sum_amounts (List.filter is_income (records st)))
             (sum_amounts (List.filter is_expense (records st))) ->
   balance_exact st) /\
  (forall w i e b,
     window_totals w (records st) = Some (i, e, b) ->
     sum_exact (map rec_amount (kept (typed INCOME w) (records st))) ->
     sum_exact (map rec_amount (kept (typed EXPENSE w) (records st))) ->
     exact_sub i e ->
     exact_difference b
       (map rec_amount (kept (typed INCOME w) (records st)))
       (map rec_amount (kept (typed EXPENSE w) (records st)))) /\
  (forall now rows,
     gc st = true -> summary_rows now st = Some rows ->
     calls_succeed (balance_sheet st) 4 ->
     exists week_ago,
       minus_days 7 now = Some week_ago /\
       bs_ranges (balance_sheet (update_balance_sheet now st)) !! "A1:D1"
       = Some [CText "Общий баланс"; CNum (get_current_balance st);
               CText ""; CText ""] /\
       bs_ranges (balance_sheet (update_balance_sheet now st)) !! "A2:D2"
       = Some (window_row "Данные недели" (in_week week_ago) (records st)) /\
       bs_ranges (balance_sheet (update_balance_sheet now st)) !! "A3:D3"
       = Some (window_row "Данные месяца" (in_month now) (records st)) /\
       bs_ranges (balance_sheet (update_balance_sheet now st)) !! "A4:D4"
       = Some (window_row "Данные года" (in_year now) (records st))).
Proof.
  split; [|split].
  - intros Hi He Hs. unfold balance_exact, get_current_balance.
    now apply exact_steps_exact_difference.
  - intros w i e b Hw Hi He Hs.
    apply window_totals_spec in Hw as (-> & -> & ->).
    now apply exact_steps_exact_difference.
  - intros now rows Hg Hrows Hok.
    destruct (summary_rows_spec now st rows Hrows) as (week_ago & Hw & ->).
    exists week_ago. split; [exact Hw|].
    unfold update_balance_sheet. rewrite Hg, Hrows. cbn [balance_sheet set_balance_sheet].
    match goal with |- context [update_all ?bs ?rows] =>
      destruct (update_all_spec rows bs 4) as (Hr & _ & _);
        [cbn; lia|exact Hok|cbn; lia|rewrite Hr]
    end.
    cbn [firstn fold_left fst snd].
    repeat split.
    + rewrite !lookup_insert_ne by discriminate. now rewrite lookup_insert_eq.
    + rewrite !lookup_insert_ne by discriminate. now rewrite lookup_insert_eq.
    + rewrite !lookup_insert_ne by discriminate. now rewrite lookup_insert_eq.
    + now rewrite lookup_insert_eq.
Qed.

End BalanceFacts.

(** C4: the claim fails, by either summation.  With incomes 0.1 and 0.2 and
    an expense 0.3 the balance is 5.551115123125783e-17, which is not the
    difference of the sums of these three amounts. *)
Lemma balance_drifts :
  ~ balance_exact (L := cpython) drift_state /\
  ~ balance_exact (L := cpython_compensated) drift_state.
Proof.
  split.
  - intros (q & i & e & Hq & Hi & He & H).
    vm_compute in Hq, Hi, He.
    injection Hq as <-. injection Hi as <-. injection He as <-.
    vm_compute in H. discriminate H.
  - intros (q & i & e & Hq & Hi & He & H).
    vm_compute in Hq, Hi, He.
    injection Hq as <-. injection Hi as <-. injection He as <-.
    vm_compute in H. discriminate H.
Qed.

Lemma balance_is_float_difference_witness :
  balance_exact (L := cpython) round_state /\
  balance_exact (L := cpython_compensated) round_state.
Proof.
  split.
  - apply (proj1 (balance_is_float_difference (L := cpython) round_state)).
    + vm_compute. repeat split; reflexivity.
    + vm_compute. repeat split; reflexivity.
    + vm_compute. reflexivity.
  - apply (proj1 (balance_is_float_difference (L := cpython_compensated) round_state)).
    + vm_compute. repeat split; reflexivity.
    + vm_compute. repeat split; reflexivity.
    + vm_compute. reflexivity.
Defined.

(** C10: an entry with amount zero. *)
Lemma zero_amount_lost_on_refresh_witness :
  records (load_records (L := cpython)
             (snd (save_record (L := cpython)
                     (mk_record "2024-01-01 09:00:00" INCOME "Бизнес" 0 "")
                     empty_state)))
  = records (load_records (L := cpython) empty_state).
Proof.
  apply (proj2 (proj2 (proj2 (zero_amount_lost_on_refresh (L := cpython))))).
  reflexivity.
Defined.

(** ** The order of strings *)

Lemma ascii_compare_spec (x y : ascii) :
  CompareSpec (x = y) (N_of_ascii x < N_of_ascii y)%N (N_of_ascii y < N_of_ascii x)%N
    (Ascii.compare x y).
Proof.
  unfold Ascii.compare.
  destruct (N.compare_spec (N_of_ascii x) (N_of_ascii y)) as [H|H|H];
    constructor; trivial.
  rewrite <- (ascii_N_embedding x), <- (ascii_N_embedding y). now rewrite H.
Qed.

Lemma string_leb_trans (a b c : string) :
  String.leb a b = true -> String.leb b c = true -> String.leb a c = true.
Proof.
  unfold String.leb. revert b c.
  induction a as [|x a IH]; intros [|y b] [|z c]; simpl; trivial; try discriminate.
  destruct (ascii_compare_spec x y) as [->|Hxy|Hxy];
    destruct (ascii_compare_spec y z) as [->|Hyz|Hyz]; try discriminate;
    intros H1 H2.
  - destruct (ascii_compare_spec z z) as [_|H|H]; try lia. eapply IH; eauto.
  - destruct (ascii_compare_spec y z) as [->|H|H]; trivial; lia.
  - destruct (ascii_compare_spec x z) as [->|H|H]; trivial; lia.
  - destruct (ascii_compare_spec x z) as [->|H|H]; trivial; lia.
Qed.

Lemma string_leb_neq_ltb (a b : string) :
  String.leb a b = true -> a <> b -> String.ltb a b = true.
Proof.
  unfold String.leb, String.ltb. intros H N.
  destruct (String.compare a b) eqn:E; trivial; try discriminate.
  apply String.compare_eq_iff in E. contradiction.
Qed.

Lemma sorted_strings_perm xs : Permutation (sorted_strings xs) xs.
Proof.
  unfold sorted_strings.
  rewrite (Permutation_map snd (sort_keyed_perm String.leb (map (fun s => (s, s)) xs))).
  rewrite List.map_map. simpl. now rewrite List.map_id.
Qed.

Lemma sorted_strings_ascending xs :
  NoDup xs -> strictly_ascending (sorted_strings xs).
Proof.
  intros Hnd.
  assert (Hnd' : NoDup (sorted_strings xs)).
  { now rewrite sorted_strings_perm. }
  unfold strictly_ascending, sorted_strings in *.
  pose proof (sort_keyed_sorted String.leb String.leb_total string_leb_trans
                (map (fun s => (s, s)) xs)) as Hs.
  assert (Hdiag : List.Forall (fun p : string * string => fst p = snd p)
                    (sort_keyed String.leb (map (fun s => (s, s)) xs))).
  { rewrite List.Forall_forall. intros p Hp.
    apply (Permutation_in _ (sort_keyed_perm String.leb _)) in Hp.
    apply in_map_iff in Hp as (s & <- & _). reflexivity. }
  induction Hs as [|p t Hst IH Hall]; simpl in *; constructor.
  - apply IH; [now apply NoDup_cons in Hnd'|now inversion Hdiag].
  - apply NoDup_cons in Hnd' as [Hnotin _].
    inversion Hdiag as [|? ? Hp Ht]; subst.
    rewrite List.Forall_forall in *. intros y Hy.
    apply in_map_iff in Hy as (q & <- & Hq).
    apply string_leb_neq_ltb.
    + rewrite <- Hp, <- (Ht q Hq). now apply Hall.
    + intros E. apply Hnotin. rewrite E. now apply list_elem_of_In, in_map.
Qed.

(** ** The breakdown by category *)

Section ChartFacts.
Context {L : PyLib}.

Lemma zero_by_cat_In cats c :
  In c cats -> zero_by_cat cats !! c = Some (NInt 0).
Proof.
  unfold zero_by_cat. induction cats as [|x t IH]; [intros []|].
  intros Hin.
  change (<[x := NInt 0]> (list_to_map (map (fun cat => (cat, NInt 0)) t)
                            : gmap string pynum) !! c = Some (NInt 0)).
  destruct (decide (x = c)) as [E|N].
  - rewrite E. apply lookup_insert_eq.
  - rewrite lookup_insert_ne by exact N. apply IH.
    destruct Hin as [E|Hin]; [contradiction|exact Hin].
Qed.

Lemma INCOME_neq_EXPENSE : INCOME <> EXPENSE.
Proof. discriminate. Qed.

Lemma amounts_of_cons t c r rs :
  amounts_of t c (r :: rs)
  = if String.eqb (rec_type r) t && String.eqb (rec_category r) c
    then rec_amount r :: amounts_of t c rs else amounts_of t c rs.
Proof.
  unfold amounts_of. simpl.
  now destruct (String.eqb (rec_type r) t && String.eqb (rec_category r) c).
Qed.

Lemma dict_add_lookup d k a d' c t r rs :
  dict_add d k a = Some d' -> rec_type r = t -> rec_category r = k ->
  rec_amount r = a ->
  added (amounts_of t c rs) (d' !! c) = added (amounts_of t c (r :: rs)) (d !! c).
Proof.
  unfold dict_add. destruct (d !! k) as [v|] eqn:Hk; [|discriminate].
  intros [= <-] Ht Hc Ha. rewrite amounts_of_cons, Ht, Hc, Ha, String.eqb_refl.
  simpl. destruct (String.eqb_spec k c) as [->|N].
  - rewrite lookup_insert_eq, Hk. reflexivity.
  - now rewrite lookup_insert_ne.
Qed.

Lemma dict_add_keys d k a d' c :
  dict_add d k a = Some d' -> is_Some (d !! c) -> is_Some (d' !! c).
Proof.
  unfold dict_add. destruct (d !! k) as [v|] eqn:Hk; [|discriminate].
  intros [= <-] Hc. destruct (decide (k = c)) as [->|N].
  - rewrite lookup_insert_eq. eauto.
  - now rewrite lookup_insert_ne.
Qed.

Lemma amounts_of_other t c r rs :
  rec_type r <> t -> amounts_of t c (r :: rs) = amounts_of t c rs.
Proof.
  intros H. rewrite amounts_of_cons.
  apply String.eqb_neq in H. now rewrite H.
Qed.

Lemma amounts_of_none t c rs :
  (forall r, In r rs -> rec_category r = c -> rec_type r <> t) ->
  amounts_of t c rs = [].
Proof.
  induction rs as [|r rs IH]; intros Hnone; [reflexivity|].
  rewrite amounts_of_cons.
  destruct (String.eqb_spec (rec_type r) t) as [Ht|Ht];
    destruct (String.eqb_spec (rec_category r) c) as [Hc|Hc]; simpl;
    try (apply IH; intros x Hx; apply Hnone; now right).
  exfalso. exact (Hnone r (or_introl eq_refl) Hc Ht).
Qed.

(** The loop of [generate_chart]: started on dicts that have every category
    of the records as a key it ends, and every key holds its first value
    plus the amounts of its type and category, in the order of the records. *)
Lemma chart_loop rs : forall di de,
  (forall r, In r rs ->
     is_Some (di !! rec_category r) /\ is_Some (de !! rec_category r)) ->
  exists di' de',
    fold_left chart_step rs (Some (di, de)) = Some (di', de') /\
    forall c, di' !! c = added (amounts_of INCOME c rs) (di !! c) /\
              de' !! c = added (amounts_of EXPENSE c rs) (de !! c).
Proof.
  induction rs as [|r t IH]; intros di de Hkeys.
  - exists di, de. split; [reflexivity|]. intros c. unfold added. simpl.
    now destruct (di !! c), (de !! c).
  - destruct (Hkeys r (or_introl eq_refl)) as [[vi Hvi] [ve Hve]].
    simpl. destruct (String.eqb_spec (rec_type r) INCOME) as [Ht|Ht].
    + destruct (dict_add di (rec_category r) (rec_amount r)) as [d1|] eqn:Hd;
        [|unfold dict_add in Hd; now rewrite Hvi in Hd].
      destruct (IH d1 de) as (di' & de' & Hf & Hl).
      { intros x Hx. destruct (Hkeys x (or_intror Hx)) as [H1 H2]. split; trivial.
        eapply dict_add_keys; eauto. }
      exists di', de'. split; [exact Hf|]. intros c.
      destruct (Hl c) as [Hi He]. split.
      * rewrite Hi. eapply dict_add_lookup; eauto.
      * rewrite He, amounts_of_other; trivial.
        rewrite Ht. exact INCOME_neq_EXPENSE.
    + destruct (String.eqb_spec (rec_type r) EXPENSE) as [Ht'|Ht'].
      * destruct (dict_add de (rec_category r) (rec_amount r)) as [d1|] eqn:Hd;
          [|unfold dict_add in Hd; now rewrite Hve in Hd].
        destruct (IH di d1) as (di' & de' & Hf & Hl).
        { intros x Hx. destruct (Hkeys x (or_intror Hx)) as [H1 H2]. split; trivial.
          eapply dict_add_keys; eauto. }
        exists di', de'. split; [exact Hf|]. intros c.
        destruct (Hl c) as [Hi He]. split.
        -- rewrite Hi, amounts_of_other; trivial.
        -- rewrite He. eapply dict_add_lookup; eauto.
      * destruct (IH di de) as (di' & de' & Hf & Hl).
        { intros x Hx. apply Hkeys. now right. }
        exists di', de'. split; [exact Hf|]. intros c.
        destruct (Hl c) as [Hi He].
        rewrite Hi, He, !amounts_of_other; trivial. now split.
Qed.

Lemma chart_categories_spec rs c :
  In c (sorted_strings (elements (list_to_set (map rec_category rs) : gset string)))
  <-> exists r, In r rs /\ rec_category r = c.
Proof.
  split.
  - intros H. apply (Permutation_in _ (sorted_strings_perm _)) in H.
    apply list_elem_of_In, elem_of_elements, elem_of_list_to_set, list_elem_of_In in H.
    apply in_map_iff in H as (r & Hr & Hin). eauto.
  - intros (r & Hin & Hr).
    apply (Permutation_in _ (Permutation_sym (sorted_strings_perm _))).
    apply list_elem_of_In, elem_of_elements, elem_of_list_to_set, list_elem_of_In.
    apply in_map_iff. eauto.
Qed.

(** C7. [generate_chart] always produces its data.  The categories are those
    of the records, of either type, each once and in ascending order; the
    income (expense) value of a category is the sum, in the order of the
    records, of the income (expense) amounts of that category, which is the
    [int] 0 for a category without income (expense). *)
Theorem chart_breakdown (period_records : list record) (title : string) :
  exists ch,
    generate_chart period_records title = Some ch /\
    strictly_ascending (chart_categories ch) /\
    (forall c, In c (chart_categories ch) <->
               exists r, In r period_records /\ rec_category r = c) /\
    chart_incomes ch
    = map (fun c => py_sum (amounts_of INCOME c period_records)) (chart_categories ch) /\
    chart_expenses ch
    = map (fun c => py_sum (amounts_of EXPENSE c period_records)) (chart_categories ch) /\
    (forall t c,
       (forall r, In r period_records -> rec_category r = c -> rec_type r <> t) ->
       py_sum (amounts_of t c period_records) = NInt 0).
Proof.
  unfold generate_chart.
  set (cats := sorted_strings
                 (elements (list_to_set (map rec_category period_records) : gset string))).
  assert (Hcats : forall c, In c cats <->
                            exists r, In r period_records /\ rec_category r = c)
    by apply chart_categories_spec.
  destruct (chart_loop period_records (zero_by_cat cats) (zero_by_cat cats))
    as (di & de & Hf & Hl).
  { intros r Hr.
    assert (Hin : In (rec_category r) cats) by (apply Hcats; eauto).
    rewrite (zero_by_cat_In _ _ Hin). eauto. }
  rewrite Hf. eexists. split; [reflexivity|]. simpl.
  split; [|split; [exact Hcats|split; [|split]]].
  - apply sorted_strings_ascending, NoDup_elements.
  - apply map_ext_in. intros c Hc. destruct (Hl c) as [-> _].
    now rewrite (zero_by_cat_In _ _ Hc).
  - apply map_ext_in. intros c Hc. destruct (Hl c) as [_ ->].
    now rewrite (zero_by_cat_In _ _ Hc).
  - intros t c Hnone. now rewrite amounts_of_none.
Qed.

End ChartFacts.

(** ** Dates as text *)

Lemma is_digit_not_space c : is_digit c = true -> is_space c = false.
Proof.
  unfold is_digit, is_space. intros H.
  apply andb_true_iff in H as [H1 H2].
  apply N.leb_le in H1. apply N.leb_le in H2.
  apply orb_false_iff. split; apply andb_false_iff.
  - right. apply N.leb_gt. lia.
  - right. apply N.leb_gt. lia.
Qed.

Lemma is_digit_not_blank c : is_digit c = true -> Ascii.eqb c " " = false.
Proof.
  intros H. apply Ascii.eqb_neq. intros ->. discriminate H.
Qed.

Lemma day_field_digit c s :
  is_digit c = true ->
  day_field (String c s)
  = let '(ds, r) := span_digits (String c s) in
    match field12 1 31 ds with Some v => Some (v, r) | None => None end.
Proof.
  intros H. unfold day_field.
  destruct c as [[] [] [] [] [] [] [] []]; try discriminate H; reflexivity.
Qed.

Lemma lstrip_digit c s : is_digit c = true -> lstrip (String c s) = String c s.
Proof. intros H. simpl. now rewrite (is_digit_not_space c H). Qed.


Lemma span_digits_digit c s :
  is_digit c = true ->
  span_digits (String c s) = (digit_val c :: fst (span_digits s), snd (span_digits s)).
Proof. intros H. simpl. rewrite H. now destruct (span_digits s). Qed.

Lemma span_digits_stop c s :
  is_digit c = false -> span_digits (String c s) = ([], String c s).
Proof. intros H. simpl. now rewrite H. Qed.

Lemma span2 c1 c2 x s :
  is_digit c1 = true -> is_digit c2 = true -> is_digit x = false ->
  span_digits (String c1 (String c2 (String x s))) = ([digit_val c1; digit_val c2], String x s).
Proof.
  intros H1 H2 Hx.
  now rewrite !span_digits_digit, span_digits_stop by trivial.
Qed.

Lemma span2_end c1 c2 :
  is_digit c1 = true -> is_digit c2 = true ->
  span_digits (String c1 (String c2 "")) = ([digit_val c1; digit_val c2], "").
Proof. intros H1 H2. now rewrite !span_digits_digit by trivial. Qed.

Lemma span4 c1 c2 c3 c4 x s :
  is_digit c1 = true -> is_digit c2 = true -> is_digit c3 = true ->
  is_digit c4 = true -> is_digit x = false ->
  span_digits (String c1 (String c2 (String c3 (String c4 (String x s)))))
  = ([digit_val c1; digit_val c2; digit_val c3; digit_val c4], String x s).
Proof.
  intros H1 H2 H3 H4 Hx.
  now rewrite !span_digits_digit, span_digits_stop by trivial.
Qed.


Lemma strptime_chars (y1 y2 y3 y4 m1 m2 d1 d2 h1 h2 i1 i2 s1 s2 : ascii) :
  is_digit y1 = true -> is_digit y2 = true -> is_digit y3 = true -> is_digit y4 = true ->
  is_digit m1 = true -> is_digit m2 = true -> is_digit d1 = true -> is_digit d2 = true ->
  is_digit h1 = true -> is_digit h2 = true -> is_digit i1 = true -> is_digit i2 = true ->
  is_digit s1 = true -> is_digit s2 = true ->
  strptime (String y1 (String y2 (String y3 (String y4 (String "-" (String m1 (String m2 (String "-" (String d1 (String d2 (String " " (String h1 (String h2 (String ":" (String i1 (String i2 (String ":" (String s1 (String s2 "")))))))))))))))))))
  = (m ← field12 1 12 [digit_val m1; digit_val m2];
     d ← field12 1 31 [digit_val d1; digit_val d2];
     H ← field12 0 23 [digit_val h1; digit_val h2];
     M ← field12 0 59 [digit_val i1; digit_val i2];
     S ← field12 0 61 [digit_val s1; digit_val s2];
     mk_datetime (digits_value [digit_val y1; digit_val y2; digit_val y3; digit_val y4]) m d H M S).
Proof.
  intros Hy1 Hy2 Hy3 Hy4 Hm1 Hm2 Hd1 Hd2 Hh1 Hh2 Hi1 Hi2 Hs1 Hs2.
  unfold strptime.
  rewrite (span4 y1 y2 y3 y4 "-") by (trivial; reflexivity).
  cbn [expect Ascii.eqb Bool.eqb mbind option_bind].
  rewrite (span2 m1 m2 "-") by (trivial; reflexivity).
  cbn [expect Ascii.eqb Bool.eqb mbind option_bind].
  destruct (field12 1 12 [digit_val m1; digit_val m2]) as [m|]; [|reflexivity].
  cbn [expect Ascii.eqb Bool.eqb mbind option_bind].
  rewrite day_field_digit by trivial.
  rewrite (span2 d1 d2 " ") by (trivial; reflexivity).
  destruct (field12 1 31 [digit_val d1; digit_val d2]) as [d|]; [|reflexivity].
  cbn [spaces1 mbind option_bind]. 
  replace (is_space " ") with true by reflexivity.
  rewrite lstrip_digit by trivial.
  cbn [expect Ascii.eqb Bool.eqb mbind option_bind].
  rewrite (span2 h1 h2 ":") by (trivial; reflexivity).
  destruct (field12 0 23 [digit_val h1; digit_val h2]) as [H|]; [|reflexivity].
  cbn [expect Ascii.eqb Bool.eqb mbind option_bind].
  rewrite (span2 i1 i2 ":") by (trivial; reflexivity).
  destruct (field12 0 59 [digit_val i1; digit_val i2]) as [M|]; [|reflexivity].
  cbn [expect Ascii.eqb Bool.eqb mbind option_bind].
  rewrite span2_end by trivial.
  destruct (field12 0 61 [digit_val s1; digit_val s2]) as [S|]; reflexivity.
Qed.

Lemma str_of_Z_year_table :
  forallb (fun n => String.eqb (str_of_Z (Z.of_nat n)) (fmt4 (Z.of_nat n)))
    (seq (Z.to_nat 1000) (Z.to_nat 9000)) = true.
Proof. vm_compute. reflexivity. Qed.

Lemma str_of_Z_year y : 1000 <= y <= 9999 -> str_of_Z y = fmt4 y.
Proof.
  intros Hy. pose proof str_of_Z_year_table as H.
  rewrite forallb_forall in H.
  specialize (H (Z.to_nat y)). rewrite Z2Nat.id in H by lia.
  apply String.eqb_eq, H, in_seq. lia.
Qed.

Lemma digit_cases d : 0 <= d <= 9 ->
  d = 0 \/ d = 1 \/ d = 2 \/ d = 3 \/ d = 4 \/ d = 5 \/ d = 6 \/ d = 7 \/ d = 8 \/ d = 9.
Proof. lia. Qed.

Lemma is_digit_digit_char d : 0 <= d <= 9 -> is_digit (digit_char d) = true.
Proof. intros H. destruct (digit_cases d H) as [->|[->|[->|[->|[->|[->|[->|[->|[->| ->]]]]]]]]]; reflexivity. Qed.

Lemma digit_val_digit_char d : 0 <= d <= 9 -> digit_val (digit_char d) = d.
Proof. intros H. destruct (digit_cases d H) as [->|[->|[->|[->|[->|[->|[->|[->|[->| ->]]]]]]]]]; reflexivity. Qed.

Ltac digit_range := Z.div_mod_to_equations; lia.

Lemma field12_fmt lo hi n :
  0 <= n <= 99 -> lo <= n <= hi ->
  field12 lo hi [digit_val (digit_char (n / 10)); digit_val (digit_char (n mod 10))] = Some n.
Proof.
  intros Hn Hr. unfold field12.
  rewrite !digit_val_digit_char by digit_range.
  unfold digits_value. cbn [fold_left].
  replace ((0 * 10 + n / 10) * 10 + n mod 10) with n by digit_range.
  destruct (Z.leb_spec lo n); [|lia]. destruct (Z.leb_spec n hi); [|lia]. reflexivity.
Qed.

Lemma strptime_strftime dt :
  datetime_ok dt = true -> 1000 <= year dt ->
  strptime (strftime_full dt) = Some (whole_second dt).
Proof.
  intros Hok Hy. pose proof (datetime_ok_fields dt Hok) as (Hyr & Hmo & Hda & Hho & Hmi & Hse & Hus).
  pose proof (days_in_month_ge_28 (year dt) (month dt)) as H28.
  assert (Hda' : day dt <= 31).
  { unfold days_in_month in Hda.
    destruct (month dt =? 2); [destruct (is_leap (year dt)); lia|].
    destruct ((month dt =? 4) || (month dt =? 6) || (month dt =? 9) || (month dt =? 11)); lia. }
  unfold strftime_full, strftime_ymd. rewrite str_of_Z_year by lia.
  unfold fmt4, fmt2. cbv [String.append].
  rewrite strptime_chars by (apply is_digit_digit_char; digit_range).
  rewrite !field12_fmt by lia. cbn [mbind option_bind].
  rewrite !digit_val_digit_char by digit_range.
  unfold digits_value. cbn [fold_left].
  replace ((((0 * 10 + year dt / 1000) * 10 + year dt / 100 mod 10) * 10
            + year dt / 10 mod 10) * 10 + year dt mod 10) with (year dt) by digit_range.
  unfold mk_datetime, whole_second, at_.
  replace (datetime_ok _) with true; [reflexivity|].
  symmetry. unfold datetime_ok in *. cbn [year month day hour minute second microsecond] in *.
  rewrite !andb_true_iff in *. rewrite !Z.leb_le in *. lia.
Qed.

Lemma prefix_nil s : String.prefix "" s = true.
Proof. now destruct s. Qed.

Lemma prefix_cons a s1 b s2 :
  String.prefix (String a s1) (String b s2) = Ascii.eqb a b && String.prefix s1 s2.
Proof.
  simpl. destruct (ascii_dec a b) as [->|N].
  - now rewrite Ascii.eqb_refl.
  - apply Ascii.eqb_neq in N. now rewrite N.
Qed.

Lemma digit_char_eqb a b :
  0 <= a <= 9 -> 0 <= b <= 9 -> Ascii.eqb (digit_char a) (digit_char b) = (a =? b).
Proof.
  intros Ha Hb. destruct (Z.eqb_spec a b) as [->|N].
  - apply Ascii.eqb_refl.
  - apply Ascii.eqb_neq. intros E. apply N.
    rewrite <- (digit_val_digit_char a Ha), <- (digit_val_digit_char b Hb).
    now rewrite E.
Qed.

Lemma startswith_day dt now :
  datetime_ok dt = true -> 1000 <= year dt ->
  datetime_ok now = true -> 1000 <= year now ->
  startswith (strftime_full dt) (strftime_ymd now) = same_day dt now.
Proof.
  intros Hok Hy Hok' Hy'.
  apply datetime_ok_fields in Hok as (Hyr & Hmo & Hda & _).
  apply datetime_ok_fields in Hok' as (Hyr' & Hmo' & Hda' & _).
  assert (Hd31 : forall y m, days_in_month y m <= 31).
  { intros y m. unfold days_in_month.
    destruct (m =? 2); [destruct (is_leap y); lia|].
    destruct ((m =? 4) || (m =? 6) || (m =? 9) || (m =? 11)); lia. }
  pose proof (Hd31 (year dt) (month dt)). pose proof (Hd31 (year now) (month now)).
  unfold startswith, strftime_full, strftime_ymd.
  rewrite !str_of_Z_year by lia. unfold fmt4, fmt2. cbv [String.append].
  rewrite !prefix_cons, prefix_nil.
  rewrite !digit_char_eqb by digit_range.
  replace (Ascii.eqb "-" "-") with true by reflexivity.
  unfold same_day. apply eq_true_iff_eq.
  rewrite !andb_true_iff, !Z.eqb_eq. split.
  - intros (E1 & E2 & E3 & E4 & _ & E5 & E6 & _ & E7 & E8 & _).
    repeat split; digit_range.
  - intros [[E1 E2] E3]. rewrite E1, E2, E3. tauto.
Qed.

(** ** The identity text *)

Section IdentityText.
Context {L : PyLib}.

Lemma append_cons c a b : String c a ++ b = String c (a ++ b).
Proof. reflexivity. Qed.

Lemma append_nil b : "" ++ b = b.
Proof. reflexivity. Qed.

Lemma length_app (a b : string) :
  String.length (a ++ b) = (String.length a + String.length b)%nat.
Proof.
  induction a as [|c a IH]; [reflexivity|].
  rewrite append_cons. simpl. now rewrite IH.
Qed.

(** Two texts that are apart are told apart by the hyphen that follows
    them. *)
Lemma join_apart a1 : forall a2 b1 b2,
  apart a1 a2 -> a1 ++ "-" ++ b1 = a2 ++ "-" ++ b2 -> a1 = a2 /\ b1 = b2.
Proof.
  induction a1 as [|c a1 IH]; intros [|c2 a2] b1 b2 [H1 H2];
    rewrite ?append_cons, ?append_nil; intros E.
  - injection E as E. now split.
  - injection E as E1 E2. exfalso. apply H2. exists a2.
    rewrite <- E1. now rewrite append_cons, !append_nil.
  - injection E as E1 E2. exfalso. apply H1. exists a1.
    rewrite E1. now rewrite append_cons, !append_nil.
  - injection E as E1 E.
    destruct (IH a2 b1 b2) as [E2 E3]; [|exact E|subst; now split].
    split; intros [s Hs]; [apply H1|apply H2]; exists s;
      rewrite append_cons; now rewrite Hs, E1.
Qed.

Lemma no_hyphen_runs_on x y : no_hyphen x -> ~ runs_on x y.
Proof.
  unfold no_hyphen. intros H [s ->].
  rewrite !list_ascii_of_string_app, forallb_app in H.
  apply andb_true_iff in H as [_ H]. simpl in H. discriminate H.
Qed.

Lemma no_hyphen_apart x y : no_hyphen x -> no_hyphen y -> apart x y.
Proof. intros Hx Hy. split; now apply no_hyphen_runs_on. Qed.

Lemma length_runs_on x y : runs_on x y -> (String.length y < String.length x)%nat.
Proof. intros [s ->]. rewrite !length_app. simpl. lia. Qed.

Lemma same_length_apart x y : String.length x = String.length y -> apart x y.
Proof.
  intros E. split; intros H; apply length_runs_on in H; lia.
Qed.

Lemma strftime_full_length dt :
  datetime_ok dt = true -> 1000 <= year dt ->
  String.length (strftime_full dt) = 19%nat.
Proof.
  intros Hok Hy. pose proof (datetime_ok_fields dt Hok) as (? & _).
  unfold strftime_full, strftime_ymd. rewrite str_of_Z_year by lia.
  reflexivity.
Qed.

(** The identity texts of two entries whose fields are apart agree only
    when the entries agree field by field. *)
Lemma fields_apart_hash_input a b :
  fields_apart a b -> (hash_input a = hash_input b <-> same_text_fields a b).
Proof.
  intros (Hd & Ht & Hc & Ha). unfold hash_input, same_text_fields. split.
  - intros E.
    apply join_apart in E as [Ed E]; [|exact Hd].
    apply join_apart in E as [Et E]; [|exact Ht].
    apply join_apart in E as [Ec E]; [|exact Hc].
    apply join_apart in E as [Ea E]; [|exact Ha].
    now repeat split.
  - intros (-> & -> & -> & -> & ->). reflexivity.
Qed.

(** C3. An entry whose five fields are those of a record in memory is
    rejected, nothing is written and nothing changes.  An entry that differs
    in a field, or in several, from every record in memory is accepted, and
    is then in memory, when the identity text keeps the fields apart (of no
    two fields before a hyphen is one the other followed by a hyphen and
    more) and MD5 tells the two texts apart; the fields are apart for the
    entries the handlers make, whose dates have one width and whose
    categories hold no hyphen, if the printed amounts are.  But the identity
    text can run one field into the next: an entry in memory whose category
    ends with a hyphen and a printed amount has the identity of the entry
    with that amount and the rest moved on into the comment, and that
    entry, which differs from it in category and comment, is rejected as a
    duplicate. *)
Theorem dedup_by_identity (r : record) (st : state) :
  (forall x, In x (records st) -> same_fields r x -> save_record r st = (false, st)) /\
  (forall x, fields_apart r x ->
     (hash_input r = hash_input x <-> same_text_fields r x)) /\
  ((forall x, In x (records st) ->
      fields_apart r x /\ ~ same_text_fields r x /\ no_collision r x) ->
   fst (save_record r st) = true /\
   In (with_id r) (records (snd (save_record r st)))) /\
  (forall x, bot_entry r -> bot_entry x ->
     apart (str_of_float (rec_amount r)) (str_of_float (rec_amount x)) ->
     fields_apart r x) /\
  (forall d t c a b m,
     r = mk_record d t c a (str_of_float b ++ "-" ++ m) ->
     In (mk_record d t (c ++ "-" ++ str_of_float a) b m) (records st) ->
     ~ same_fields r (mk_record d t (c ++ "-" ++ str_of_float a) b m) /\
     hash_input r = hash_input (mk_record d t (c ++ "-" ++ str_of_float a) b m) /\
     save_record r st = (false, st)).
Proof.
  split; [|split; [|split; [|split]]].
  - intros x Hx Hsame. unfold save_record.
    assert (E : existsb (fun y => String.eqb (get_record_id y) (get_record_id r))
                  (records st) = true).
    { apply existsb_exists. exists x. split; [exact Hx|].
      apply String.eqb_eq. symmetry. now apply same_fields_id. }
    now rewrite E.
  - intros x. apply fields_apart_hash_input.
  - intros H.
    assert (Hok : fst (save_record r st) = true).
    { apply save_record_true_iff. intros x Hx E.
      destruct (H x Hx) as (Hap & Hdiff & Hnc).
      apply Hnc; [|symmetry; exact E].
      intros Et. apply Hdiff. now apply fields_apart_hash_input. }
    split; [exact Hok|].
    rewrite (save_record_accepted _ _ Hok).
    eapply Permutation_in; [symmetry; apply sort_records_perm|].
    apply in_or_app. right. now left.
  - intros x ((dr & Hdr & Hyr & Er) & Htr & Hcr) ((dx & Hdx & Hyx & Ex) & Htx & Hcx) Ha.
    repeat split; try apply Ha.
    + apply same_length_apart. rewrite Er, Ex, !strftime_full_length; trivial.
    + apply same_length_apart. rewrite Er, Ex, !strftime_full_length; trivial.
    + apply no_hyphen_runs_on. destruct Htr as [->| ->]; reflexivity.
    + apply no_hyphen_runs_on. destruct Htx as [->| ->]; reflexivity.
    + now apply no_hyphen_runs_on.
    + now apply no_hyphen_runs_on.
  - intros d t c a b m -> Hin.
    assert (Ehash : hash_input (mk_record d t c a (str_of_float b ++ "-" ++ m))
                    = hash_input (mk_record d t (c ++ "-" ++ str_of_float a) b m)).
    { unfold hash_input, mk_record. cbn [rec_date rec_type rec_category rec_amount rec_comment].
      now rewrite !append_assoc. }
    split; [|split; [exact Ehash|]].
    + intros (_ & _ & Hc & _). cbn [rec_category mk_record] in Hc.
      apply (f_equal String.length) in Hc.
      assert (Hl : runs_on (c ++ "-" ++ str_of_float a) c) by now eexists.
      apply length_runs_on in Hl. lia.
    + unfold save_record.
      replace (existsb _ (records st)) with true; [reflexivity|].
      symmetry. apply existsb_exists. eexists. split; [exact Hin|].
      apply String.eqb_eq. unfold get_record_id. now rewrite Ehash.
Qed.

End IdentityText.

(** C3: the failing input.  The expense worksheet holds a row, filled in by
    hand, of the category "Жилье-5.0" with the amount 7 and the comment "x";
    a refresh keeps it.  The user who has chosen "Жилье" sends "5 7.0-x" in
    the second of that row: the entry differs from the record in category,
    amount and comment, and is answered as an entry that exists.  An entry
    of the handlers that differs from the only record in amount and comment
    is accepted. *)
Lemma dedup_by_identity_witness :
  records (load_records (L := cpython) hyphen_sheet_state) = [hyphen_old] /\
  fst (process_manual_input (L := cpython) (at_ 2024 1 1 9 0 0) 7 "5 7.0-x"
         (load_records (L := cpython) hyphen_sheet_state))
  = [Reply "Такая запись уже существует."; SendMessage 7 "Главное меню:"] /\
  (~ same_fields hyphen_new hyphen_old /\
   hash_input (L := cpython) hyphen_new = hash_input (L := cpython) hyphen_old /\
   save_record (L := cpython) hyphen_new
     (load_records (L := cpython) hyphen_sheet_state)
   = (false, load_records (L := cpython) hyphen_sheet_state)) /\
  (fst (save_record (L := cpython) bonus_250 (set_records [business_1000] empty_state))
   = true /\
   In (with_id (L := cpython) bonus_250)
      (records (snd (save_record (L := cpython) bonus_250
                       (set_records [business_1000] empty_state))))).
Proof.
  split; [vm_compute; reflexivity|]. split; [vm_compute; reflexivity|]. split.
  - apply (proj2 (proj2 (proj2 (proj2
             (dedup_by_identity (L := cpython) hyphen_new
                (load_records (L := cpython) hyphen_sheet_state)))))
             "2024-01-01 09:00:00" EXPENSE "Жилье" 5%float 7%float "x").
    + vm_compute. reflexivity.
    + vm_compute. left. reflexivity.
  - pose proof (dedup_by_identity (L := cpython) bonus_250
                  (set_records [business_1000] empty_state))
      as (_ & _ & Haccept & Hapart & _).
    apply Haccept. intros x [<-|[]]. split; [|split].
    + apply Hapart.
      * split; [|split; [left; reflexivity|reflexivity]].
        exists (at_ 2024 1 1 9 0 0).
        split; [reflexivity|split; [simpl; lia|reflexivity]].
      * split; [|split; [left; reflexivity|reflexivity]].
        exists (at_ 2024 1 1 9 0 0).
        split; [reflexivity|split; [simpl; lia|reflexivity]].
      * apply no_hyphen_apart; vm_compute; reflexivity.
    + intros (_ & _ & _ & _ & Hm). discriminate Hm.
    + intros _. vm_compute. discriminate.
Defined.

(** ** The daily window *)

Lemma date_before_leb a b : date_before a b -> datetime_leb a b = true.
Proof.
  unfold date_before, datetime_leb, datetime_fields. intros H. cbn [lex_leb].
  destruct (Z.ltb_spec (year a) (year b)); [reflexivity|].
  destruct (Z.eqb_spec (year a) (year b)); [|lia].
  destruct (Z.ltb_spec (month a) (month b)); [reflexivity|].
  destruct (Z.eqb_spec (month a) (month b)); [|lia].
  destruct (Z.ltb_spec (day a) (day b)); [reflexivity|lia].
Qed.

Lemma date_before_trans a b c : date_before a b -> date_before b c -> date_before a c.
Proof. unfold date_before. lia. Qed.

Lemma prev_day_before d d' : prev_day d = Some d' -> date_before d' d.
Proof.
  unfold prev_day, date_before.
  destruct (Z.ltb_spec 1 (day d)); [intros [= <-]; simpl; lia|].
  destruct (Z.ltb_spec 1 (month d)); [intros [= <-]; simpl; lia|].
  destruct (Z.ltb_spec 1 (year d)); [intros [= <-]; simpl; lia|discriminate].
Qed.

Lemma minus_days_before n : forall d d',
  minus_days (S n) d = Some d' -> date_before d' d.
Proof.
  induction n as [|n IH]; intros d d'; cbn [minus_days].
  - destruct (prev_day d) as [p|] eqn:E; [|discriminate].
    intros [= <-]. now apply prev_day_before.
  - destruct (prev_day d) as [p|] eqn:E; [|discriminate].
    intros H. apply (date_before_trans _ p); [|now apply prev_day_before].
    apply IH. exact H.
Qed.

Section DailyFacts.
Context {L : PyLib}.

Lemma canonical_on_day now r :
  datetime_ok now = true -> 1000 <= year now -> canonical_date r ->
  startswith (rec_date r) (strftime_ymd now) = on_day now r.
Proof.
  intros Hok Hy (dt & Hdt & Hydt & Hr). unfold on_day, record_key.
  rewrite Hr, (strptime_strftime dt Hdt Hydt), (startswith_day dt now) by trivial.
  reflexivity.
Qed.

(** C6. The daily window compares text where every other window reads the
    timestamp.  On records whose dates are written as the bot writes them
    (and at a valid instant of the years 1000 to 9999) it keeps exactly the
    records whose timestamp is on the day of the instant, a record at
    00:00:00 of that day among them.  But a record whose timestamp is on the
    day and whose date does not begin with the text of the day is left out
    of the daily window, which then is not the set of the records of the
    day, while the windows of the week, the month and the year count that
    record.  On the two entries of the scenario at 2024-01-01 23:59:59 the
    totals are 1000.0, 300.0 and 700.0, and the report lists each entry on
    a line of its own. *)
Theorem daily_window_compares_text (now : datetime) (rs : list record) :
  (datetime_ok now = true -> 1000 <= year now ->
   (forall r, In r rs -> canonical_date r) ->
   daily_records now rs = List.filter (on_day now) rs /\
   (forall r, In r rs ->
      rec_date r = strftime_full (at_ (year now) (month now) (day now) 0 0 0) ->
      In r (daily_records now rs))) /\
  (forall r, In r rs -> on_day now r = true ->
     startswith (rec_date r) (strftime_ymd now) = false ->
     ~ In r (daily_records now rs) /\
     daily_records now rs <> List.filter (on_day now) rs /\
     in_month now r = Some true /\ in_year now r = Some true /\
     (forall week_ago, minus_days 7 now = Some week_ago ->
        in_week week_ago r = Some true)) /\
  daily_totals (at_ 2024 1 1 23 59 59) [business_1000; products_300]
  = (NFloat 1000, NFloat 300, NFloat 700) /\
  generate_daily_summary (at_ 2024 1 1 23 59 59)
    (set_records [business_1000; products_300] empty_state)
  = "🗓️ Отчёт за 01 " ++ month_name 1 ++ " 2024:" ++ nl ++ nl
      ++ "✅ Доходы:" ++ nl ++ item_line business_1000 ++ nl ++ nl
      ++ "❌ Расходы:" ++ nl ++ item_line products_300 ++ nl ++ nl
      ++ "📌 Итого:" ++ nl ++ "Доходы: " ++ str_of_float 1000 ++ " руб." ++ nl
      ++ "Расходы: " ++ str_of_float 300 ++ " руб." ++ nl
      ++ "Баланс за день: +" ++ str_of_float 700 ++ " руб." /\
  item_line business_1000 = "- Бизнес: " ++ str_of_float 1000 ++ " руб. " /\
  item_line products_300 = "- Продукты: " ++ str_of_float 300 ++ " руб. groceries".
Proof.
  split; [|split; [|split; [|split; [|split]]]].
  - intros Hok Hy Hcan.
    assert (Hfilter : daily_records now rs = List.filter (on_day now) rs).
    { unfold daily_records. apply List.filter_ext_in. intros r Hr.
      now apply canonical_on_day, Hcan. }
    split; [exact Hfilter|].
    intros r Hr Hdate. unfold daily_records. apply List.filter_In.
    split; [exact Hr|]. rewrite Hdate.
    pose proof (datetime_ok_fields now Hok) as (? & ? & ? & _).
    rewrite startswith_day; trivial.
    + unfold same_day, at_. simpl. now rewrite !Z.eqb_refl.
    + unfold datetime_ok in *. simpl.
      rewrite !andb_true_iff in *. rewrite !Z.leb_le in *. lia.
  - intros r Hr Hday Htext.
    assert (Hout : ~ In r (daily_records now rs)).
    { unfold daily_records. intros Hin. apply List.filter_In in Hin as [_ Hin].
      congruence. }
    split; [exact Hout|]. split.
    { intros E. apply Hout. rewrite E. apply List.filter_In. now split. }
    unfold on_day, record_key in Hday. unfold in_month, in_year, in_week.
    destruct (strptime (rec_date r)) as [dt|]; [|discriminate]. cbn [mbind option_bind].
    unfold same_day in Hday. apply andb_true_iff in Hday as [Hday Hd].
    apply andb_true_iff in Hday as [Hy Hm]. rewrite Hy. cbn [mbind option_bind].
    rewrite Hm. repeat split.
    intros week_ago Hw. f_equal. apply date_before_leb.
    apply minus_days_before in Hw. unfold date_before in *.
    apply Z.eqb_eq in Hy, Hm, Hd. lia.
  - unfold daily_totals, sum_amounts, builtin_sum.
    destruct float_summation; vm_compute; reflexivity.
  - unfold generate_daily_summary, sum_amounts, builtin_sum.
    destruct float_summation; vm_compute; reflexivity.
  - vm_compute. reflexivity.
  - vm_compute. reflexivity.
Qed.

End DailyFacts.

(** C6 on a record of a sheet filled in by hand.  A refresh keeps the row
    dated 2024-1-1 09:00:00, whose timestamp is 09:00 on 2024-01-01; at
    2024-01-01 23:59:59 the daily window leaves it out and reports an income
    of 0, although it is a record of the day and the windows of the week,
    the month and the year count it. *)
Lemma daily_window_compares_text_witness :
  parse_row (L := cpython) INCOME
    {| row_date := CText "2024-1-1 09:00:00"; row_category := "Бизнес";
       row_amount := CNum (NInt 1000); row_comment := "" |}
  = Some unpadded_morning /\
  daily_totals (L := cpython) (at_ 2024 1 1 23 59 59)
    [unpadded_morning; new_years_eve; products_300]
  = (NInt 0, NFloat 300, NFloat (-300)) /\
  (~ In unpadded_morning
       (daily_records (at_ 2024 1 1 23 59 59)
          [unpadded_morning; new_years_eve; products_300]) /\
   daily_records (at_ 2024 1 1 23 59 59)
     [unpadded_morning; new_years_eve; products_300]
   <> List.filter (on_day (at_ 2024 1 1 23 59 59))
        [unpadded_morning; new_years_eve; products_300] /\
   in_month (at_ 2024 1 1 23 59 59) unpadded_morning = Some true /\
   in_year (at_ 2024 1 1 23 59 59) unpadded_morning = Some true /\
   (forall week_ago, minus_days 7 (at_ 2024 1 1 23 59 59) = Some week_ago ->
      in_week week_ago unpadded_morning = Some true)).
Proof.
  split; [vm_compute; reflexivity|]. split; [vm_compute; reflexivity|].
  apply (proj1 (proj2 (daily_window_compares_text (L := cpython)
                         (at_ 2024 1 1 23 59 59)
                         [unpadded_morning; new_years_eve; products_300]))).
  - left. reflexivity.
  - reflexivity.
  - reflexivity.
Defined.

(** * Further properties of the code *)

(** ** [list.sort] is stable *)

Section SortStable.
Context {A K : Type} (leb : K -> K -> bool).
Hypothesis leb_trans :
  forall a b c, leb a b = true -> leb b c = true -> leb a c = true.

Lemma insert_keyed_split (x : K * A) l :
  exists l1 l2,
    l = (l1 ++ l2)%list /\ insert_keyed leb x l = (l1 ++ x :: l2)%list /\
    List.Forall (fun y => leb (fst x) (fst y) = false) l1.
Proof.
  induction l as [|y t (l1 & l2 & Ht & Hi & Hf)]; simpl.
  - exists [], []. repeat split; constructor.
  - destruct (leb (fst x) (fst y)) eqn:E.
    + exists [], (y :: t). repeat split; constructor.
    + exists (y :: l1), l2. rewrite Ht at 1. rewrite Hi.
      repeat split. now constructor.
Qed.

(** The elements whose key is equivalent to [k] keep their order. *)
Lemma sort_keyed_stable (k : K) l :
  List.filter (fun p : K * A => leb (fst p) k && leb k (fst p)) (sort_keyed leb l)
  = List.filter (fun p : K * A => leb (fst p) k && leb k (fst p)) l.
Proof.
  induction l as [|x t IH]; [reflexivity|].
  cbn [sort_keyed].
  destruct (insert_keyed_split x (sort_keyed leb t)) as (l1 & l2 & Ht & Hi & Hf).
  rewrite Hi, List.filter_app. cbn [List.filter].
  rewrite <- IH, Ht, List.filter_app.
  destruct (leb (fst x) k && leb k (fst x)) eqn:Hx; [|reflexivity].
  apply andb_true_iff in Hx as [Hxk Hkx].
  replace (List.filter (fun p : K * A => leb (fst p) k && leb k (fst p)) l1)
    with (@nil (K * A)); [reflexivity|].
  symmetry. clear Hi Ht IH. induction Hf as [|y l1' Hy _ IH']; [reflexivity|].
  simpl. destruct (leb (fst y) k && leb k (fst y)) eqn:Hyk; [|exact IH'].
  apply andb_true_iff in Hyk as [_ Hky].
  rewrite (leb_trans _ _ _ Hxk Hky) in Hy. discriminate.
Qed.
End SortStable.

Lemma lex_leb_antisym (a b : list Z) :
  lex_leb a b = true -> lex_leb b a = true -> a = b.
Proof.
  revert b. induction a as [|x a IH]; intros [|y b]; simpl; trivial;
    try discriminate.
  intros H1 H2.
  apply orb_true_iff in H1 as [H1|H1]; apply orb_true_iff in H2 as [H2|H2];
    try apply andb_true_iff in H1 as [H1 H1'];
    try apply andb_true_iff in H2 as [H2 H2'];
    try apply Z.ltb_lt in H1; try apply Z.ltb_lt in H2;
    try apply Z.eqb_eq in H1; try apply Z.eqb_eq in H2; try lia.
  subst. f_equal. now apply IH.
Qed.

Lemma same_instant_eq (k dt : datetime) : same_instant k dt = true <-> k = dt.
Proof.
  unfold same_instant, datetime_leb. split.
  - intros H. apply andb_true_iff in H as [H1 H2].
    pose proof (lex_leb_antisym _ _ H1 H2) as E.
    destruct k, dt. unfold datetime_fields in E. simpl in E.
    now inversion E.
  - intros ->. now rewrite lex_leb_refl.
Qed.

Section StoreExtras.
Context {L : PyLib}.

Lemma filter_map_snd {A K} (P : A -> bool) (Q : K * A -> bool) (l : list (K * A)) :
  (forall p, In p l -> Q p = P (snd p)) ->
  List.filter P (map snd l) = map snd (List.filter Q l).
Proof.
  induction l as [|p t IH]; intros H; [reflexivity|]. simpl.
  rewrite (H p (or_introl eq_refl)).
  destruct (P (snd p)); simpl; rewrite IH; trivial; intros q Hq; apply H; now right.
Qed.

(** X1. Sorting the records keeps the order of the records that have the
    same timestamp, whatever the other records are. *)
Theorem sort_records_stable (rs : list record) (dt : datetime) :
  List.filter (at_instant dt) (sort_records rs) = List.filter (at_instant dt) rs /\
  (forall k, same_instant k dt = true <-> k = dt).
Proof.
  split; [|intros k; apply same_instant_eq].
  unfold sort_records, sort_by_key.
  destruct (decorate record_key rs) as [kl|] eqn:Hd; [|reflexivity].
  destruct (decorate_spec record_key rs kl Hd) as [Hm Hf].
  assert (Hq : forall l, List.Forall (fun p => record_key (snd p) = Some (fst p)) l ->
            List.filter (at_instant dt) (map snd l)
            = map snd (List.filter
                         (fun p => datetime_leb (fst p) dt && datetime_leb dt (fst p)) l)).
  { intros l Hl. apply filter_map_snd. intros p Hp.
    rewrite List.Forall_forall in Hl. unfold at_instant. now rewrite (Hl p Hp). }
  rewrite Hq.
  - rewrite (sort_keyed_stable datetime_leb datetime_leb_trans).
    rewrite <- Hq by exact Hf. now rewrite Hm.
  - rewrite List.Forall_forall in *. intros p Hp. apply Hf.
    eapply Permutation_in; [apply sort_keyed_perm|exact Hp].
Qed.

(** The parsed rows of a worksheet. *)
Lemma load_sheet_readable ws trans_type :
  load_sheet ws trans_type = omap (parse_row trans_type) (readable_rows ws).
Proof.
  unfold load_sheet, get_all_records, readable_rows. now destruct (ws_up ws).
Qed.

(** X2. With a client, the records after a refresh are, in some order,
    the rows of the reachable worksheets that parse: a record is in memory
    exactly when a row of the income sheet parses to it as income or a row
    of the expense sheet parses to it as expense, whatever was in memory
    before; a worksheet that raises contributes no record and does not keep
    the other from loading. *)
Theorem refresh_is_the_parsed_rows (st : state) :
  gc st = true ->
  Permutation (records (load_records st))
    (omap (parse_row INCOME) (readable_rows (income_sheet st))
       ++ omap (parse_row EXPENSE) (readable_rows (expense_sheet st))) /\
  (forall r, In r (records (load_records st)) <->
     (exists rw, In rw (readable_rows (income_sheet st)) /\
                 parse_row INCOME rw = Some r) \/
     (exists rw, In rw (readable_rows (expense_sheet st)) /\
                 parse_row EXPENSE rw = Some r)).
Proof.
  intros Hg.
  assert (Hp : Permutation (records (load_records st))
                 (omap (parse_row INCOME) (readable_rows (income_sheet st))
                    ++ omap (parse_row EXPENSE) (readable_rows (expense_sheet st)))).
  { unfold load_records. rewrite Hg. simpl.
    rewrite <- !load_sheet_readable. apply sort_records_perm. }
  split; [exact Hp|]. intros r. split.
  - intros Hr. apply (Permutation_in _ Hp), in_app_or in Hr as [Hr|Hr];
      apply list_elem_of_In, list_elem_of_omap in Hr as (rw & Hin & Hrw);
      apply list_elem_of_In in Hin; eauto.
  - intros H. apply (Permutation_in _ (Permutation_sym Hp)), in_or_app.
    destruct H as [(rw & Hin & Hrw)|(rw & Hin & Hrw)]; [left|right];
      apply list_elem_of_In, list_elem_of_omap; exists rw;
      (split; [now apply list_elem_of_In|exact Hrw]).
Qed.

Lemma load_records_set_records rs st :
  load_records (set_records rs st) = load_records st.
Proof. unfold load_records. simpl. now destruct (gc st). Qed.

(** X3. A refresh forgets what was in memory and is idempotent: it gives
    the same state whatever the records before it were, a second refresh
    changes nothing, and without a client it leaves no record at all. *)
Theorem refresh_replaces_memory (st : state) (rs : list record) :
  load_records (set_records rs st) = load_records st /\
  load_records (load_records st) = load_records st /\
  (gc st = false -> records (load_records st) = []).
Proof.
  unfold load_records. simpl. destruct (gc st) eqn:Hg; simpl; rewrite ?Hg.
  - repeat split; trivial. discriminate.
  - repeat split; trivial.
Qed.

Lemma id_with_id r : get_record_id (with_id r) = get_record_id r.
Proof. reflexivity. Qed.

(** X4. An entry that was accepted is rejected when it is saved again, and
    the second call changes nothing: no row is written and the records
    stay. *)
Theorem save_record_twice (r : record) (st : state) :
  fst (save_record r st) = true ->
  save_record r (snd (save_record r st)) = (false, snd (save_record r st)).
Proof.
  intros Hok.
  assert (Hin : In (with_id r) (records (snd (save_record r st)))).
  { rewrite (save_record_accepted _ _ Hok).
    eapply Permutation_in; [symmetry; apply sort_records_perm|].
    apply in_or_app. right. now left. }
  set (st' := snd (save_record r st)) in *.
  unfold save_record at 1.
  replace (existsb _ (records st')) with true; [reflexivity|].
  symmetry. apply existsb_exists. exists (with_id r).
  split; [exact Hin|]. apply String.eqb_eq, id_with_id.
Qed.

(** X5. An entry whose write raised is acknowledged and held in memory, but
    the worksheets are as before: the next refresh gives the records a
    refresh before the entry would have given, so the entry is gone unless
    a row for it was already there. *)
Theorem unwritten_entry_lost_on_refresh (r : record) (st : state) :
  append_raises r st ->
  (forall x, In x (records st) -> get_record_id x <> get_record_id r) ->
  fst (save_record r st) = true /\
  In (with_id r) (records (snd (save_record r st))) /\
  income_sheet (snd (save_record r st)) = income_sheet st /\
  expense_sheet (snd (save_record r st)) = expense_sheet st /\
  load_records (snd (save_record r st)) = load_records st.
Proof.
  intros Hraise Hnew.
  assert (E : save_record r st
              = (true, set_records (sort_records (records st ++ [with_id r])) st)).
  { unfold save_record. apply duplicate_test_false in Hnew. rewrite Hnew.
    unfold save_record_to_sheet. now rewrite (append_raises_try r st Hraise). }
  rewrite E. cbn [fst snd]. split; [reflexivity|]. split; [|split; [|split]].
  - rewrite records_set_records.
    eapply Permutation_in; [symmetry; apply sort_records_perm|].
    apply in_or_app. right. now left.
  - reflexivity.
  - reflexivity.
  - apply load_records_set_records.
Qed.

End StoreExtras.

(** ** The conversation, continued *)

Lemma lstrip_all_space s :
  forallb is_space (list_ascii_of_string s) = true -> lstrip s = "".
Proof.
  induction s as [|c s IH]; simpl; [reflexivity|].
  intros H. apply andb_true_iff in H as [Hc Hs]. rewrite Hc. auto.
Qed.

Section ConversationExtras.
Context {L : PyLib}.

(** X6. For a user with a pending input, a text of white space only (or an
    empty one) is answered with the request for an amount and changes
    nothing; the pending input stays. *)
Theorem blank_text_keeps_pending now user_id text st p :
  pending_inputs st !! user_id = Some p ->
  forallb is_space (list_ascii_of_string text) = true ->
  process_manual_input now user_id text st
  = ([Reply "Пожалуйста, введите сумму и комментарий."], st).
Proof.
  intros Hp Hs. unfold process_manual_input. rewrite Hp.
  unfold strip. rewrite (lstrip_all_space text Hs). reflexivity.
Qed.

Lemma process_manual_input_parsed now user_id text st p tok rest amount :
  pending_inputs st !! user_id = Some p ->
  split_maxsplit1 (strip text) = tok :: rest ->
  float_of_str tok = Some amount ->
  process_manual_input now user_id text st
  = ([if fst (save_record (manual_record now p amount rest) st)
      then Reply (saved_text (manual_record now p amount rest))
      else Reply "Такая запись уже существует.";
      SendMessage user_id "Главное меню:"],
     set_pending_inputs
       (delete user_id
          (pending_inputs (snd (save_record (manual_record now p amount rest) st))))
       (snd (save_record (manual_record now p amount rest) st))).
Proof.
  intros Hp Hs Hf. unfold process_manual_input. rewrite Hp, Hs, Hf.
  change (mk_record (strftime_full now) (pend_type p) (pend_category p) amount
            (match rest with c :: _ => c | [] => "" end))
    with (manual_record now p amount rest).
  unfold manual_record, mk_record.
  now destruct (save_record _ st).
Qed.

Lemma save_record_pending r st :
  pending_inputs (snd (save_record r st)) = pending_inputs st.
Proof.
  unfold save_record. destruct (existsb _ (records st)); [reflexivity|].
  destruct (save_record_to_sheet (with_id r) st) as [st1|] eqn:H1; [|reflexivity].
  simpl. apply save_record_to_sheet_cases in H1 as [->|[H1|H1]]; trivial;
    destruct H1 as (_ & _ & ws & _ & ->); reflexivity.
Qed.

(** X7. For a user with a pending input, a text whose first token is a
    number ends the input whether the entry is new or a duplicate: the
    pending input of this user is deleted and those of the others stay, the
    user gets one reply (the saved entry, or the duplicate notice) and the
    main menu, and the state is otherwise the one [save_record] leaves. *)
Theorem parsed_amount_ends_input now user_id text st p tok rest amount :
  pending_inputs st !! user_id = Some p ->
  split_maxsplit1 (strip text) = tok :: rest ->
  float_of_str tok = Some amount ->
  let r := manual_record now p amount rest in
  let st' := snd (process_manual_input now user_id text st) in
  fst (process_manual_input now user_id text st)
  = [if fst (save_record r st) then Reply (saved_text r)
     else Reply "Такая запись уже существует.";
     SendMessage user_id "Главное меню:"] /\
  pending_inputs st' !! user_id = None /\
  (forall other, other <> user_id ->
     pending_inputs st' !! other = pending_inputs st !! other) /\
  records st' = records (snd (save_record r st)) /\
  income_sheet st' = income_sheet (snd (save_record r st)) /\
  expense_sheet st' = expense_sheet (snd (save_record r st)).
Proof.
  intros Hp Hs Hf r st'. subst st' r.
  rewrite (process_manual_input_parsed now user_id text st p tok rest amount Hp Hs Hf).
  cbn [fst snd]. repeat split; trivial.
  - apply lookup_delete_eq.
  - intros other Ho. simpl. rewrite lookup_delete_ne by congruence.
    now rewrite save_record_pending.
Qed.

End ConversationExtras.

Section FlowExtras.
Context {L : PyLib}.

Lemma strptime_nonempty_key now :
  datetime_ok now = true -> 1000 <= year now ->
  forall p amount rest, record_key (manual_record now p amount rest) <> None.
Proof.
  intros Hok Hy p amount rest. unfold record_key, manual_record. simpl.
  now rewrite (strptime_strftime now Hok Hy).
Qed.

(** X8. The dates the bot writes parse back: at a valid instant of the years
    1000 to 9999 the date of a new entry is read by [strptime] as that
    instant without its microseconds.  Hence a text message never breaks the
    order of the store: if every record has a timestamp before
    [process_manual_input], every record has one after it, and the records
    are as before or in ascending timestamp order. *)
Theorem manual_input_keeps_store_sorted now user_id text st :
  datetime_ok now = true -> 1000 <= year now ->
  dates_parse (records st) ->
  strptime (strftime_full now) = Some (whole_second now) /\
  dates_parse (records (snd (process_manual_input now user_id text st))) /\
  (records (snd (process_manual_input now user_id text st)) = records st \/
   sorted_by_timestamp (records (snd (process_manual_input now user_id text st)))).
Proof.
  intros Hok Hy Hd. split; [now apply strptime_strftime|].
  destruct (pending_inputs st !! user_id) as [p|] eqn:Hp;
    [|unfold process_manual_input; rewrite Hp; simpl; auto].
  destruct (split_maxsplit1 (strip text)) as [|tok rest] eqn:Hs;
    [unfold process_manual_input; rewrite Hp, Hs; simpl; auto|].
  destruct (float_of_str tok) as [amount|] eqn:Hf;
    [|unfold process_manual_input; rewrite Hp, Hs, Hf; simpl; auto].
  rewrite (process_manual_input_parsed now user_id text st p tok rest amount Hp Hs Hf).
  cbn [snd]. set (r := manual_record now p amount rest).
  change (records (set_pending_inputs _ (snd (save_record r st))))
    with (records (snd (save_record r st))).
  destruct (fst (save_record r st)) eqn:Hok'.
  - rewrite (save_record_accepted _ _ Hok').
    assert (Hd' : dates_parse (records st ++ [with_id r])).
    { apply List.Forall_app. split; [exact Hd|]. constructor; [|constructor].
      rewrite record_key_with_id. now apply strptime_nonempty_key. }
    destruct (sort_records_spec _ Hd') as [Hperm Hsorted]. split; [|now right].
    eapply dates_parse_perm; eauto.
  - assert (E : snd (save_record r st) = st).
    { revert Hok'. unfold save_record.
      destruct (existsb _ (records st)); [reflexivity|].
      destruct (save_record_to_sheet_returns (with_id r) st) as [st1 H1].
      rewrite H1. discriminate. }
    rewrite E. auto.
Qed.

Lemma save_record_frame_pending r p st :
  save_record r (set_pending_inputs p st)
  = (fst (save_record r st), set_pending_inputs p (snd (save_record r st))).
Proof.
  unfold save_record. change (records (set_pending_inputs p st)) with (records st).
  destruct (existsb _ (records st)); [reflexivity|].
  unfold save_record_to_sheet, save_record_to_sheet_try.
  change (gc (set_pending_inputs p st)) with (gc st).
  change (income_sheet (set_pending_inputs p st)) with (income_sheet st).
  change (expense_sheet (set_pending_inputs p st)) with (expense_sheet st).
  destruct (gc st); [|reflexivity].
  destruct (String.eqb (rec_type (with_id r)) INCOME).
  - destruct (append_row (income_sheet st) _); reflexivity.
  - destruct (append_row (expense_sheet st) _); reflexivity.
Qed.

(** X9. The menus and the handlers agree.  A button of the income
    (expense) keyboard is handled by [process_income_category]
    ([process_expense_category]) and leaves the user with a pending input of
    that type whose category is the text of the button, whatever pending
    input the user had; four of the five buttons of the reports menu are
    handled, and the callback of the fifth, "Назад", has no handler: nothing
    is sent and nothing changes. *)
Theorem menus_and_handlers_agree now user_id st :
  (forall text data, In (text, data) (buttons get_income_keyboard) ->
     on_callback_query now user_id data st = process_income_category user_id data st /\
     pending_inputs (snd (on_callback_query now user_id data st)) !! user_id
     = Some {| pend_type := INCOME; pend_category := text |}) /\
  (forall text data, In (text, data) (buttons get_expense_keyboard) ->
     on_callback_query now user_id data st = process_expense_category user_id data st /\
     pending_inputs (snd (on_callback_query now user_id data st)) !! user_id
     = Some {| pend_type := EXPENSE; pend_category := text |}) /\
  (forall text data, In (text, data) (buttons get_reports_menu_keyboard) ->
     data <> "back_to_main" ->
     exists rest, on_callback_query now user_id data st = (Answer :: rest, st)) /\
  In ("🔙 Назад", "back_to_main") (buttons get_reports_menu_keyboard) /\
  on_callback_query now user_id "back_to_main" st = ([], st).
Proof.
  split; [|split; [|split; [|split]]].
  - intros text data H. simpl in H.
    repeat (destruct H as [[= <- <-]|H];
            [split; [reflexivity|apply lookup_insert_eq]|]).
    destruct H.
  - intros text data H. simpl in H.
    repeat (destruct H as [[= <- <-]|H];
            [split; [reflexivity|apply lookup_insert_eq]|]).
    destruct H.
  - intros text data H Hback. simpl in H.
    destruct H as [[= <- <-]|H]; [eexists; reflexivity|].
    destruct H as [[= <- <-]|H].
    { unfold on_callback_query. simpl. unfold process_report_weekly, report_with_chart.
      destruct (generate_weekly_summary now st), (generate_weekly_chart now st);
        eexists; reflexivity. }
    destruct H as [[= <- <-]|H].
    { unfold on_callback_query. simpl. unfold process_report_monthly, report_with_chart.
      destruct (generate_monthly_summary now st), (generate_monthly_chart now st);
        eexists; reflexivity. }
    destruct H as [[= <- <-]|H].
    { unfold on_callback_query. simpl. unfold process_report_yearly, report_with_chart.
      destruct (generate_yearly_summary now st), (generate_yearly_chart now st);
        eexists; reflexivity. }
    destruct H as [[= <- <-]|[]]. contradiction.
  - simpl. tauto.
  - reflexivity.
Qed.

(** X10. A whole round of the conversation.  A user who taps a button of the
    income or of the expense keyboard and then sends a text whose first
    token is a number has no pending input left, and the entry handed to
    [save_record] has the type of the keyboard, the text of the button as
    its category, the number as its amount, the rest of the text as its
    comment and the instant of the message as its date. *)
Theorem category_then_amount now0 now user_id st text data msg tok rest amount kind :
  (In (text, data) (buttons get_income_keyboard) /\ kind = INCOME) \/
  (In (text, data) (buttons get_expense_keyboard) /\ kind = EXPENSE) ->
  split_maxsplit1 (strip msg) = tok :: rest ->
  float_of_str tok = Some amount ->
  let r := mk_record (strftime_full now) kind text amount
             (match rest with c :: _ => c | [] => "" end) in
  let st1 := snd (on_callback_query now0 user_id data st) in
  let st2 := snd (process_manual_input now user_id msg st1) in
  pending_inputs st2 !! user_id = None /\
  records st2 = records (snd (save_record r st)) /\
  income_sheet st2 = income_sheet (snd (save_record r st)) /\
  expense_sheet st2 = expense_sheet (snd (save_record r st)) /\
  fst (process_manual_input now user_id msg st1)
  = [if fst (save_record r st) then Reply (saved_text r)
     else Reply "Такая запись уже существует.";
     SendMessage user_id "Главное меню:"].
Proof.
  intros Hbutton Hs Hf r st1 st2.
  assert (Hst1 : exists pm, st1 = set_pending_inputs pm st /\
            pm !! user_id = Some {| pend_type := kind; pend_category := text |}).
  { subst st1. destruct Hbutton as [[H ->]|[H ->]]; simpl in H.
    - repeat (destruct H as [[= <- <-]|H];
              [eexists; split; [reflexivity|apply lookup_insert_eq]|]).
      destruct H.
    - repeat (destruct H as [[= <- <-]|H];
              [eexists; split; [reflexivity|apply lookup_insert_eq]|]).
      destruct H. }
  destruct Hst1 as (pm & E1 & Hpm). subst st2. rewrite E1 in *.
  rewrite (process_manual_input_parsed now user_id msg (set_pending_inputs pm st)
             {| pend_type := kind; pend_category := text |} tok rest amount Hpm Hs Hf).
  change (manual_record now {| pend_type := kind; pend_category := text |} amount rest)
    with r.
  rewrite save_record_frame_pending. cbn [fst snd].
  repeat split; trivial. apply lookup_delete_eq.
Qed.

End FlowExtras.

(** ** The scheduler, continued *)

Lemma date_before_ltb a b : date_before a b -> datetime_ltb a b = true.
Proof.
  unfold date_before, datetime_ltb, datetime_leb, datetime_fields. intros H.
  cbn [lex_leb].
  destruct (Z.ltb_spec (year b) (year a)); [lia|].
  destruct (Z.eqb_spec (year b) (year a)); [|reflexivity].
  destruct (Z.ltb_spec (month b) (month a)); [lia|].
  destruct (Z.eqb_spec (month b) (month a)); [|reflexivity].
  destruct (Z.ltb_spec (day b) (day a)); [lia|].
  destruct (Z.eqb_spec (day b) (day a)); [lia|reflexivity].
Qed.

Lemma datetime_leb_ltb_trans a b c :
  datetime_leb a b = true -> datetime_ltb b c = true -> datetime_ltb a c = true.
Proof.
  unfold datetime_ltb. intros Hab Hbc.
  destruct (datetime_leb c a) eqn:Hca; [|reflexivity].
  now rewrite (datetime_leb_trans c a b Hca Hab) in Hbc.
Qed.

Lemma datetime_ltb_leb a b : datetime_ltb a b = true -> datetime_leb a b = true.
Proof.
  unfold datetime_ltb. intros H.
  destruct (datetime_leb_total a b) as [E|E]; [exact E|].
  now rewrite E in H.
Qed.

Lemma days_in_month_le_31 y m : days_in_month y m <= 31.
Proof.
  unfold days_in_month.
  destruct (m =? 2); [destruct (is_leap y); lia|].
  destruct ((m =? 4) || (m =? 6) || (m =? 9) || (m =? 11)); lia.
Qed.

Lemma datetime_ok_intro d :
  1 <= year d <= 9999 -> 1 <= month d <= 12 ->
  1 <= day d <= days_in_month (year d) (month d) ->
  0 <= hour d <= 23 -> 0 <= minute d <= 59 -> 0 <= second d <= 59 ->
  0 <= microsecond d <= 999999 -> datetime_ok d = true.
Proof.
  intros. unfold datetime_ok. rewrite !andb_true_iff, !Z.leb_le. tauto.
Qed.

Lemma days_before_month_succ y m :
  1 <= m <= 11 ->
  days_before_month y (m + 1) = days_before_month y m + days_in_month y m.
Proof.
  intros Hm. unfold days_before_month, days_in_month.
  assert (Hc : m = 1 \/ m = 2 \/ m = 3 \/ m = 4 \/ m = 5 \/ m = 6 \/ m = 7 \/
               m = 8 \/ m = 9 \/ m = 10 \/ m = 11) by lia.
  destruct Hc as [->|[->|[->|[->|[->|[->|[->|[->|[->|[->| ->]]]]]]]]]];
    simpl; destruct (is_leap y); reflexivity.
Qed.

Lemma days_before_year_succ y :
  1 <= y ->
  days_before_year (y + 1) = days_before_year y + (if is_leap y then 366 else 365).
Proof.
  intros Hy. unfold days_before_year, is_leap.
  replace (y + 1 - 1) with y by lia.
  destruct (Z.eqb_spec (y mod 4) 0) as [H4|H4];
    destruct (Z.eqb_spec (y mod 100) 0) as [H100|H100];
    destruct (Z.eqb_spec (y mod 400) 0) as [H400|H400];
    cbn [andb orb negb]; Z.div_mod_to_equations; lia.
Qed.

(** The day after a valid day that is not the last one: it exists, is valid,
    is one ordinal later, leaves the time as it is, and its date is after. *)
Lemma next_day_spec d :
  datetime_ok d = true -> toordinal d < MAX_ORDINAL ->
  exists d', next_day d = Some d' /\ datetime_ok d' = true /\
             toordinal d' = toordinal d + 1 /\ date_before d d' /\
             hour d' = hour d /\ minute d' = minute d /\
             second d' = second d /\ microsecond d' = microsecond d.
Proof.
  intros Hok Hmax.
  pose proof (datetime_ok_fields d Hok) as (Hy & Hm & Hd & Hh & Hmi & Hs & Hu).
  pose proof (days_in_month_ge_28 (year d) (month d)).
  unfold next_day.
  destruct (Z.ltb_spec (day d) (days_in_month (year d) (month d))) as [Hlt|Hge].
  - eexists. split; [reflexivity|]. unfold toordinal, date_before. simpl.
    repeat split; try lia. apply datetime_ok_intro; simpl; lia.
  - assert (Hday : day d = days_in_month (year d) (month d)) by lia.
    destruct (Z.ltb_spec (month d) 12) as [Hm12|Hm12].
    + eexists. split; [reflexivity|]. unfold toordinal, date_before. simpl.
      pose proof (days_in_month_ge_28 (year d) (month d + 1)).
      rewrite days_before_month_succ by lia.
      repeat split; try lia. apply datetime_ok_intro; simpl; lia.
    + assert (Hmonth : month d = 12) by lia.
      assert (Hd31 : day d = 31).
      { rewrite Hday, Hmonth. reflexivity. }
      assert (Hy9 : year d < 9999).
      { destruct (Z.eq_dec (year d) 9999) as [E|E]; [|lia].
        exfalso. revert Hmax. unfold toordinal, MAX_ORDINAL.
        rewrite E, Hmonth, Hd31. vm_compute. discriminate. }
      destruct (Z.ltb_spec (year d) 9999); [|lia].
      eexists. split; [reflexivity|]. unfold toordinal, date_before. simpl.
      rewrite days_before_year_succ by lia.
      rewrite Hmonth, Hd31. unfold days_before_month. simpl.
      repeat split; try lia.
      * apply datetime_ok_intro; simpl; try lia.
        unfold days_in_month. simpl. lia.
      * destruct (is_leap (year d)); lia.
Qed.

(** [n] days after a valid day, while the last day is not passed. *)
Lemma plus_days_spec n : forall d,
  datetime_ok d = true -> toordinal d + Z.of_nat n <= MAX_ORDINAL ->
  exists t, plus_days n d = Some t /\ datetime_ok t = true /\
            toordinal t = toordinal d + Z.of_nat n /\
            (n = O /\ t = d \/ (0 < n)%nat /\ date_before d t) /\
            hour t = hour d /\ minute t = minute d /\
            second t = second d /\ microsecond t = microsecond d.
Proof.
  induction n as [|n IH]; intros d Hok Hmax.
  - exists d. simpl. repeat split; trivial; try lia. now left.
  - destruct (next_day_spec d Hok ltac:(lia))
      as (d' & Hn & Hok' & Hord & Hbefore & Hh & Hmi & Hs & Hu).
    destruct (IH d' Hok' ltac:(lia))
      as (t & Ht & Hokt & Hordt & Hcase & Hh' & Hmi' & Hs' & Hu').
    exists t. cbn [plus_days]. rewrite Hn.
    repeat split; trivial; try lia; try congruence.
    right. split; [lia|].
    destruct Hcase as [[_ ->]|[_ Hb]]; [exact Hbefore|].
    unfold date_before in *. lia.
Qed.

Lemma toordinal_bound d :
  datetime_ok d = true -> year d < 9999 -> toordinal d + 14 <= MAX_ORDINAL.
Proof.
  intros Hok Hy.
  pose proof (datetime_ok_fields d Hok) as (Hyr & Hm & Hd & _).
  pose proof (days_in_month_le_31 (year d) (month d)).
  unfold toordinal, MAX_ORDINAL, days_before_year, days_before_month.
  assert (Hc : month d = 1 \/ month d = 2 \/ month d = 3 \/ month d = 4 \/
               month d = 5 \/ month d = 6 \/ month d = 7 \/ month d = 8 \/
               month d = 9 \/ month d = 10 \/ month d = 11 \/ month d = 12) by lia.
  assert (Hleap : (if (2 <? month d) && is_leap (year d) then 1 else 0) <= 1)
    by (destruct ((2 <? month d) && is_leap (year d)); lia).
  revert Hleap. generalize (if (2 <? month d) && is_leap (year d) then 1 else 0).
  intros z Hz.
  assert (Hn : nth (Z.to_nat (month d - 1))
                 [0; 31; 59; 90; 120; 151; 181; 212; 243; 273; 304; 334] 0 <= 334).
  { destruct Hc as [->|[->|[->|[->|[->|[->|[->|[->|[->|[->|[->| ->]]]]]]]]]]];
      simpl; lia. }
  Z.div_mod_to_equations. lia.
Qed.

Lemma replace_hms0_ok now H :
  datetime_ok now = true -> 0 <= H <= 23 -> datetime_ok (replace_hms0 now H) = true.
Proof.
  intros Hok HH.
  pose proof (datetime_ok_fields now Hok) as (Hy & Hm & Hd & _).
  apply datetime_ok_intro; simpl; lia.
Qed.

(** At or after the sharp hour of its own day, an instant is before every
    instant of a later date. *)
Lemma same_date_before_ltb now t H :
  date_before (replace_hms0 now H) t -> datetime_ltb now t = true.
Proof. intros Hb. apply date_before_ltb. exact Hb. Qed.

Lemma same_date_hour_ltb a b :
  year a = year b -> month a = month b -> day a = day b -> hour a < hour b ->
  datetime_ltb a b = true.
Proof.
  intros Hy Hm Hd Hh. unfold datetime_ltb, datetime_leb, datetime_fields.
  cbn [lex_leb].
  destruct (Z.ltb_spec (year b) (year a)); [lia|].
  destruct (Z.eqb_spec (year b) (year a)); [|reflexivity].
  destruct (Z.ltb_spec (month b) (month a)); [lia|].
  destruct (Z.eqb_spec (month b) (month a)); [|reflexivity].
  destruct (Z.ltb_spec (day b) (day a)); [lia|].
  destruct (Z.eqb_spec (day b) (day a)); [|reflexivity].
  destruct (Z.ltb_spec (hour b) (hour a)); [lia|].
  destruct (Z.eqb_spec (hour b) (hour a)); [lia|reflexivity].
Qed.

(** X11. The daily push.  At a valid instant before 9999-12-31 the target of
    [daily_summary_task] exists, is a valid instant at 20:00:00 sharp and is
    strictly after the instant: on the same day when the instant is before
    20:00:00, on the next day otherwise. *)
Theorem daily_target_in_future (now : datetime) :
  datetime_ok now = true -> toordinal now < MAX_ORDINAL ->
  exists t,
    daily_summary_task_target now = Some t /\
    datetime_ok t = true /\ at_hour 20 t /\ datetime_ltb now t = true /\
    (datetime_ltb now (replace_hms0 now 20) = true /\ same_date now t \/
     datetime_leb (replace_hms0 now 20) now = true /\
     toordinal t = toordinal now + 1).
Proof.
  intros Hok Hmax. unfold daily_summary_task_target.
  pose proof (replace_hms0_ok now 20 Hok ltac:(lia)) as Hok20.
  destruct (datetime_leb (replace_hms0 now 20) now) eqn:Hcmp.
  - destruct (plus_days_spec 1 (replace_hms0 now 20) Hok20)
      as (t & Ht & Hokt & Hord & Hcase & Hh & Hmi & Hs & Hu).
    { change (toordinal (replace_hms0 now 20)) with (toordinal now). lia. }
    exists t. split; [exact Ht|]. split; [exact Hokt|].
    split; [now repeat split|].
    destruct Hcase as [[Hz _]|[_ Hb]]; [discriminate|].
    split; [now apply (same_date_before_ltb now t 20)|].
    right. split; [reflexivity|]. rewrite Hord. reflexivity.
  - exists (replace_hms0 now 20). split; [reflexivity|]. split; [exact Hok20|].
    split; [now repeat split|].
    assert (Hlt : datetime_ltb now (replace_hms0 now 20) = true)
      by (unfold datetime_ltb; now rewrite Hcmp).
    split; [exact Hlt|]. left. split; [exact Hlt|]. now repeat split.
Qed.

(** X12. The weekly push.  At a valid instant before the year 9999 the target
    of [weekly_summary_task] exists, is a valid instant at 20:00:00 sharp on
    a Sunday, is strictly after the instant and at most seven days after its
    day. *)
Theorem weekly_target_is_a_sunday (now : datetime) :
  datetime_ok now = true -> year now < 9999 ->
  exists t,
    weekly_summary_task_target now = Some t /\
    datetime_ok t = true /\ at_hour 20 t /\ weekday t = 6 /\
    datetime_ltb now t = true /\
    toordinal now <= toordinal t <= toordinal now + 7.
Proof.
  intros Hok Hy. unfold weekly_summary_task_target.
  pose proof (replace_hms0_ok now 20 Hok ltac:(lia)) as Hok20.
  pose proof (toordinal_bound now Hok Hy) as Hbound.
  assert (Hw : 0 <= weekday now <= 6).
  { unfold weekday. pose proof (Z.mod_pos_bound (toordinal now + 6) 7). lia. }
  destruct (plus_days_spec (Z.to_nat (6 - weekday now)) (replace_hms0 now 20) Hok20)
    as (target & Ht & Hokt & Hord & Hcase & Hh & Hmi & Hs & Hu).
  { change (toordinal (replace_hms0 now 20)) with (toordinal now). lia. }
  change (toordinal (replace_hms0 now 20)) with (toordinal now) in Hord.
  cbn [replace_hms0 hour minute second microsecond] in Hh, Hmi, Hs, Hu.
  rewrite Z2Nat.id in Hord by lia.
  rewrite Ht. cbn [mbind option_bind].
  assert (Hsun : weekday target = 6).
  { unfold weekday in *. rewrite Hord. Z.div_mod_to_equations. lia. }
  destruct (datetime_leb target now) eqn:Hcmp.
  - destruct (plus_days_spec 7 target Hokt ltac:(lia))
      as (t & Ht7 & Hokt7 & Hord7 & Hcase7 & Hh7 & Hmi7 & Hs7 & Hu7).
    assert (Hzero : Z.to_nat (6 - weekday now) = O).
    { destruct Hcase as [[Hz _]|[Hpos Hb]]; [exact Hz|].
      exfalso. apply (same_date_before_ltb now target 20) in Hb.
      unfold datetime_ltb in Hb. now rewrite Hcmp in Hb. }
    destruct Hcase as [[_ Htarget]|[Hpos _]]; [|lia].
    exists t. split; [exact Ht7|]. split; [exact Hokt7|].
    split; [repeat split; congruence|]. split.
    { unfold weekday in *. rewrite Hord7. Z.div_mod_to_equations. lia. }
    split.
    + destruct Hcase7 as [[Hz _]|[_ Hb]]; [discriminate|].
      rewrite Htarget in Hb. now apply (same_date_before_ltb now t 20).
    + lia.
  - exists target. split; [reflexivity|]. split; [exact Hokt|].
    split; [now repeat split|]. split; [exact Hsun|]. split.
    + unfold datetime_ltb. now rewrite Hcmp.
    + lia.
Qed.

Lemma at_first_ok y m :
  1 <= y <= 9999 -> 1 <= m <= 12 -> datetime_ok (at_ y m 1 10 0 0) = true.
Proof.
  intros Hy Hm. pose proof (days_in_month_ge_28 y m).
  apply datetime_ok_intro; cbn [at_ year month day hour minute second microsecond];
    lia.
Qed.

(** X13. The monthly push.  At a valid instant before the year 9999 the
    target of [monthly_summary_task] exists, is a valid instant at 10:00:00
    sharp on the first day of a month and is strictly after the instant. *)
Theorem monthly_target_in_future (now : datetime) :
  datetime_ok now = true -> year now < 9999 ->
  exists t,
    monthly_summary_task_target now = Some t /\
    datetime_ok t = true /\ at_hour 10 t /\ day t = 1 /\
    datetime_ltb now t = true.
Proof.
  intros Hok Hy.
  pose proof (datetime_ok_fields now Hok) as (Hyr & Hm & Hd & Hh & Hmi & Hs & Hu).
  unfold monthly_summary_task_target.
  destruct (Z.eqb_spec (day now) 1) as [Hd1|Hd1];
    [destruct (Z.ltb_spec (hour now) 10) as [Hh10|Hh10]|]; cbn [andb].
  - exists (replace_hms0 now 10). split; [reflexivity|].
    split; [apply replace_hms0_ok; trivial; lia|].
    split; [now repeat split|]. split; [exact Hd1|].
    apply same_date_hour_ltb; simpl; trivial.
  - destruct (Z.eqb_spec (month now) 12) as [Hm12|Hm12].
    + rewrite mk_datetime_first by lia. eexists. split; [reflexivity|].
      split; [apply at_first_ok; lia|].
      split; [now repeat split|]. split; [reflexivity|].
      apply date_before_ltb. left. simpl. lia.
    + rewrite mk_datetime_first by lia. eexists. split; [reflexivity|].
      split; [apply at_first_ok; lia|].
      split; [now repeat split|]. split; [reflexivity|].
      apply date_before_ltb. right. left. simpl. lia.
  - destruct (Z.eqb_spec (month now) 12) as [Hm12|Hm12].
    + rewrite mk_datetime_first by lia. eexists. split; [reflexivity|].
      split; [apply at_first_ok; lia|].
      split; [now repeat split|]. split; [reflexivity|].
      apply date_before_ltb. left. simpl. lia.
    + rewrite mk_datetime_first by lia. eexists. split; [reflexivity|].
      split; [apply at_first_ok; lia|].
      split; [now repeat split|]. split; [reflexivity|].
      apply date_before_ltb. right. left. simpl. lia.
Qed.

(** ** Period reports and the summary sheet *)

Section ReportExtras.
Context {L : PyLib}.

Lemma filter_try_total cond rs :
  (forall r, In r rs -> cond r <> None) -> filter_try cond rs = Some (kept cond rs).
Proof.
  induction rs as [|r t IH]; intros H; [reflexivity|].
  unfold kept. cbn [filter_try List.filter].
  destruct (cond r) as [b|] eqn:Hc; [|now destruct (H r (or_introl eq_refl))].
  rewrite IH by (intros x Hx; apply H; now right).
  reflexivity.
Qed.

Lemma filter_try_raises cond rs r :
  In r rs -> cond r = None -> filter_try cond rs = None.
Proof.
  induction rs as [|x t IH]; [intros []|].
  intros [->|Hin] Hc; simpl.
  - now rewrite Hc.
  - destruct (cond x); [|reflexivity]. now rewrite (IH Hin Hc).
Qed.

Lemma window_defined (w : record -> option bool) (rs : list record) :
  (forall r, record_key r <> None -> w r <> None) ->
  dates_parse rs ->
  forall t r, In r rs -> w r <> None /\ typed t w r <> None.
Proof.
  intros Hw Hd t r Hr. unfold dates_parse in Hd. rewrite List.Forall_forall in Hd.
  split; [now apply Hw, Hd|]. unfold typed.
  destruct (String.eqb (rec_type r) t); [now apply Hw, Hd|discriminate].
Qed.

Lemma in_week_defined wa r : record_key r <> None -> in_week wa r <> None.
Proof. unfold in_week, record_key. now destruct (strptime (rec_date r)). Qed.

Lemma in_month_defined now r : record_key r <> None -> in_month now r <> None.
Proof.
  unfold in_month, record_key. destruct (strptime (rec_date r)); [|easy].
  simpl. now destruct (year d =? year now).
Qed.

Lemma in_year_defined now r : record_key r <> None -> in_year now r <> None.
Proof. unfold in_year, record_key. now destruct (strptime (rec_date r)). Qed.

Lemma filter_type_kept t w rs :
  List.filter (fun r => String.eqb (rec_type r) t) (kept w rs) = kept (typed t w) rs.
Proof.
  unfold kept. induction rs as [|r rs IH]; [reflexivity|]. simpl. unfold typed at 1.
  destruct (String.eqb (rec_type r) t) eqn:Ht.
  - destruct (default false (w r)); simpl; rewrite ?Ht, IH; reflexivity.
  - destruct (default false (w r)); simpl; rewrite ?Ht, IH; reflexivity.
Qed.

(** The totals of a period report and the totals of the summary row of the
    same window. *)
Lemma period_totals_window w rs :
  (forall r, record_key r <> None -> w r <> None) -> dates_parse rs ->
  filter_try w rs = Some (kept w rs) /\
  window_totals w rs = Some (period_totals (kept w rs)).
Proof.
  intros Hw Hd. split.
  - apply filter_try_total. intros r Hr. now apply (window_defined w rs Hw Hd INCOME).
  - unfold window_totals.
    rewrite !filter_try_total
      by (intros r Hr; now apply (window_defined w rs Hw Hd)).
    cbn [mbind option_bind]. unfold period_totals, is_income, is_expense.
    now rewrite !filter_type_kept.
Qed.

(** X14. When every record has a timestamp the weekly, monthly and yearly
    reports do not raise, and the income, expense and balance they print are
    the numbers [update_balance_sheet] computes at the same instant for the
    row of that window. *)
Theorem period_reports_match_summary_rows (now : datetime) (st : state) :
  dates_parse (records st) ->
  (forall week_ago, minus_days 7 now = Some week_ago ->
     exists t,
       window_totals (in_week week_ago) (records st) = Some t /\
       generate_weekly_summary now st
       = Some ("📆 Недельный отчёт " ++ week_span week_ago now ++ ":" ++ nl ++ nl
                 ++ totals_text "💰" t)) /\
  (exists t,
     window_totals (in_month now) (records st) = Some t /\
     generate_monthly_summary now st
     = Some ("📈 Месячный отчёт за " ++ strftime_BY now ++ ":" ++ nl ++ nl
               ++ totals_text "💳" t)) /\
  (exists t,
     window_totals (in_year now) (records st) = Some t /\
     generate_yearly_summary now st
     = Some ("📊 Годовой отчёт за " ++ str_of_Z (year now) ++ ":" ++ nl ++ nl
               ++ totals_text "💵" t)).
Proof.
  intros Hd. split; [|split].
  - intros wa Hwa.
    destruct (period_totals_window (in_week wa) (records st) (in_week_defined wa) Hd)
      as [Hf Hw].
    eexists. split; [exact Hw|].
    unfold generate_weekly_summary. rewrite Hwa. cbn [mbind option_bind].
    rewrite Hf. reflexivity.
  - destruct (period_totals_window (in_month now) (records st) (in_month_defined now) Hd)
      as [Hf Hw].
    eexists. split; [exact Hw|].
    unfold generate_monthly_summary. rewrite Hf. reflexivity.
  - destruct (period_totals_window (in_year now) (records st) (in_year_defined now) Hd)
      as [Hf Hw].
    eexists. split; [exact Hw|].
    unfold generate_yearly_summary. rewrite Hf. reflexivity.
Qed.

Lemma replace_spaces_no_space s :
  List.Forall (fun c => c <> " "%char) (list_ascii_of_string (replace_spaces s)).
Proof.
  induction s as [|c s IH]; simpl; constructor; trivial.
  destruct (Ascii.eqb_spec c " "); [discriminate|assumption].
Qed.

Lemma generate_chart_returns rs title :
  exists ch, generate_chart rs title = Some ch /\
             chart_file ch = replace_spaces title ++ ".png".
Proof.
  unfold generate_chart.
  set (cats := sorted_strings (elements (list_to_set (map rec_category rs) : gset string))).
  destruct (chart_loop rs (zero_by_cat cats) (zero_by_cat cats)) as (di & de & Hf & _).
  { intros r Hr.
    assert (Hin : In (rec_category r) cats) by (apply chart_categories_spec; eauto).
    rewrite (zero_by_cat_In _ _ Hin). eauto. }
  rewrite Hf. eexists. split; reflexivity.
Qed.

(** X15. When every record has a timestamp the three period charts are
    produced: no date raises and the loop over the categories raises no
    [KeyError]; the monthly and yearly charts are the charts of the records
    of the window, and the name of the file of any chart is its title with
    every space replaced, followed by ".png", so it contains no space. *)
Theorem period_charts_are_produced (now : datetime) (st : state) :
  dates_parse (records st) ->
  (forall week_ago, minus_days 7 now = Some week_ago ->
     exists ch, generate_weekly_chart now st = Some ch) /\
  generate_monthly_chart now st
  = generate_chart (kept (in_month now) (records st))
      ("Месячный отчёт за " ++ strftime_BY now) /\
  generate_yearly_chart now st
  = generate_chart (kept (in_year now) (records st))
      ("Годовой отчёт за " ++ str_of_Z (year now)) /\
  (forall rs title, exists ch,
     generate_chart rs title = Some ch /\
     chart_file ch = replace_spaces title ++ ".png" /\
     List.Forall (fun c => c <> " "%char)
       (list_ascii_of_string (chart_file ch))).
Proof.
  intros Hd. split; [|split; [|split]].
  - intros wa Hwa. unfold generate_weekly_chart. rewrite Hwa. cbn [mbind option_bind].
    rewrite (proj1 (period_totals_window (in_week wa) (records st)
                      (in_week_defined wa) Hd)).
    cbn [mbind option_bind].
    destruct (generate_chart_returns (kept (in_week wa) (records st))
                ("Недельный отчёт " ++ week_span wa now)) as (ch & Hch & _).
    eauto.
  - unfold generate_monthly_chart.
    now rewrite (proj1 (period_totals_window (in_month now) (records st)
                          (in_month_defined now) Hd)).
  - unfold generate_yearly_chart.
    now rewrite (proj1 (period_totals_window (in_year now) (records st)
                          (in_year_defined now) Hd)).
  - intros rs title. destruct (generate_chart_returns rs title) as (ch & Hch & Hfile).
    exists ch. split; [exact Hch|]. split; [exact Hfile|].
    rewrite Hfile, list_ascii_of_string_app. apply List.Forall_app. split.
    + apply replace_spaces_no_space.
    + repeat constructor; discriminate.
Qed.

Lemma fold_insert_other (rows : list (string * list cell)) (range : string) :
  forall m : gmap string (list cell),
  ~ In range (map fst rows) ->
  fold_left (fun m rv => <[fst rv := snd rv]> m) rows m !! range = m !! range.
Proof.
  induction rows as [|[r v] t IH]; intros m Hn; cbn [fold_left fst snd].
  - reflexivity.
  - cbn [map fst In] in Hn. rewrite IH by tauto.
    apply lookup_insert_ne. intros ->. tauto.
Qed.

(** X16. [update_balance_sheet] touches the summary worksheet only, and
    writes it range by range.  The records, the pending inputs and the two
    other worksheets are as before.  Without a client, or when the date of
    an income or expense record does not parse, the state is left as it
    was, the overall balance included.  With a client, a timestamp in every
    record and an instant seven days or more after 0001-01-01 the rows of
    the four ranges are computed, and then written one call after the
    other: when the first [k] calls succeed and the next raises, the first
    [k] ranges hold their new rows, the others and every other range of the
    worksheet hold what they held, and no call is made after the one that
    raised. *)
Theorem update_balance_sheet_frame (now : datetime) (st : state) :
  (records (update_balance_sheet now st) = records st /\
   pending_inputs (update_balance_sheet now st) = pending_inputs st /\
   income_sheet (update_balance_sheet now st) = income_sheet st /\
   expense_sheet (update_balance_sheet now st) = expense_sheet st) /\
  (gc st = false -> update_balance_sheet now st = st) /\
  (forall r, In r (records st) ->
     rec_type r = INCOME \/ rec_type r = EXPENSE -> record_key r = None ->
     update_balance_sheet now st = st) /\
  (gc st = true -> dates_parse (records st) -> minus_days 7 now <> None ->
   exists rows,
     summary_rows now st = Some rows /\
     map fst rows = ["A1:D1"; "A2:D2"; "A3:D3"; "A4:D4"]) /\
  (forall rows k,
     gc st = true -> summary_rows now st = Some rows -> (k <= 4)%nat ->
     calls_succeed (balance_sheet st) k ->
     ((k < 4)%nat ->
      bs_outcome (balance_sheet st) (bs_calls (balance_sheet st) + k)%nat = false) ->
     (forall i range values,
        nth_error rows i = Some (range, values) ->
        bs_ranges (balance_sheet (update_balance_sheet now st)) !! range
        = if (i <? k)%nat then Some values
          else bs_ranges (balance_sheet st) !! range) /\
     (forall range,
        ~ In range (map fst rows) ->
        bs_ranges (balance_sheet (update_balance_sheet now st)) !! range
        = bs_ranges (balance_sheet st) !! range) /\
     bs_calls (balance_sheet (update_balance_sheet now st))
     = (bs_calls (balance_sheet st) + Nat.min (S k) 4)%nat).
Proof.
  split; [|split; [|split; [|split]]].
  - unfold update_balance_sheet. destruct (gc st); [|tauto].
    destruct (summary_rows now st); simpl; tauto.
  - intros Hg. unfold update_balance_sheet. now rewrite Hg.
  - intros r Hr Ht Hk. unfold update_balance_sheet. destruct (gc st); [|reflexivity].
    replace (summary_rows now st) with (@None (list (string * list cell)));
      [reflexivity|].
    symmetry. unfold summary_rows.
    destruct (minus_days 7 now) as [wa|]; [|reflexivity]. cbn [mbind option_bind].
    replace (window_totals (in_week wa) (records st))
      with (@None (pynum * pynum * pynum)); [reflexivity|].
    symmetry. unfold window_totals.
    assert (Hw : in_week wa r = None).
    { unfold in_week. unfold record_key in Hk. now rewrite Hk. }
    destruct Ht as [Ht|Ht].
    + rewrite (filter_try_raises (typed INCOME (in_week wa)) (records st) r Hr);
        [reflexivity|].
      unfold typed. now rewrite Ht, String.eqb_refl.
    + destruct (filter_try (typed INCOME (in_week wa)) (records st));
        [|reflexivity]. cbn [mbind option_bind].
      rewrite (filter_try_raises (typed EXPENSE (in_week wa)) (records st) r Hr);
        [reflexivity|].
      unfold typed. now rewrite Ht, String.eqb_refl.
  - intros Hg Hd Hwa.
    destruct (minus_days 7 now) as [wa|] eqn:Ewa; [|congruence].
    unfold summary_rows. rewrite Ewa. cbn [mbind option_bind].
    rewrite (proj2 (period_totals_window (in_week wa) (records st)
                      (in_week_defined wa) Hd)).
    rewrite (proj2 (period_totals_window (in_month now) (records st)
                      (in_month_defined now) Hd)).
    rewrite (proj2 (period_totals_window (in_year now) (records st)
                      (in_year_defined now) Hd)).
    cbn [mbind option_bind]. eexists. split; reflexivity.
  - intros rows k Hg Hrows Hk Hok Hfail.
    unfold update_balance_sheet. rewrite Hg, Hrows.
    cbn [balance_sheet set_balance_sheet].
    assert (Hlen : length rows = 4%nat).
    { destruct (summary_rows_spec now st rows Hrows) as (wa & _ & ->). reflexivity. }
    assert (Hnames : map fst rows = ["A1:D1"; "A2:D2"; "A3:D3"; "A4:D4"]).
    { destruct (summary_rows_spec now st rows Hrows) as (wa & _ & ->). reflexivity. }
    destruct (update_all_spec rows (balance_sheet st) k) as (Hr & Hc & _);
      [lia|exact Hok|rewrite Hlen; exact Hfail|].
    rewrite Hr, Hc, Hlen. split; [|split; [|reflexivity]].
    + intros i range values Hnth.
      destruct rows as [|[r1 v1] [|[r2 v2] [|[r3 v3] [|[r4 v4] [|]]]]];
        try discriminate Hlen.
      cbn in Hnames. inversion Hnames; subst r1 r2 r3 r4. clear Hnames.
      destruct k as [|[|[|[|[|k]]]]]; try lia;
        destruct i as [|[|[|[|i]]]]; cbn [nth_error] in Hnth;
        try (destruct i; discriminate Hnth);
        injection Hnth as <- <-;
        cbn [firstn fold_left fst snd Nat.ltb Nat.leb];
        repeat (rewrite lookup_insert_ne by discriminate);
        rewrite ?lookup_insert_eq; reflexivity.
    + intros range Hn. apply fold_insert_other.
      intros Hin. apply Hn.
      clear - Hin. revert Hin. generalize k. clear.
      induction rows as [|x t IH]; intros [|k]; cbn; intros H; try tauto.
      destruct H as [H|H]; [now left|right; eapply IH; exact H].
Qed.

(** X17. The identity of an entry does not tell its fields apart: for every
    implementation of MD5 and of the printing of floats, an entry whose
    comment starts with its printed amount and a hyphen has the identity of
    the entry that carries them at the end of its category instead, and it
    is rejected as a duplicate of that entry although the two differ in
    category and comment. *)
Theorem identity_text_is_ambiguous (st : state) (d t c m : string) (a : float) :
  let old := mk_record d t (c ++ "-" ++ str_of_float a) a m in
  let new := mk_record d t c a (str_of_float a ++ "-" ++ m) in
  hash_input new = hash_input old /\
  ~ same_fields new old /\
  (In old (records st) -> save_record new st = (false, st)).
Proof.
  intros old new.
  assert (Hh : hash_input new = hash_input old).
  { unfold hash_input, new, old. simpl. now rewrite !append_assoc. }
  split; [exact Hh|]. split.
  - intros (_ & _ & Hc & _). simpl in Hc.
    apply (f_equal String.length) in Hc.
    assert (Hlen : forall x y, String.length (x ++ y)
                               = (String.length x + String.length y)%nat).
    { intros x y. induction x as [|ch x IH]; [reflexivity|].
      change (S (String.length (x ++ y)) = S (String.length x + String.length y)).
      now rewrite IH. }
    rewrite !Hlen in Hc. simpl in Hc. lia.
  - intros Hin. unfold save_record.
    replace (existsb _ (records st)) with true; [reflexivity|].
    symmetry. apply existsb_exists. exists old. split; [exact Hin|].
    apply String.eqb_eq. unfold get_record_id. now rewrite Hh.
Qed.

(** X18. The rows a refresh keeps.  A row becomes a record exactly when its
    date cell is text that [strptime] accepts and its amount cell is truthy
    and converts to a float; the record then has that text as its date, the
    type of the sheet, the category and the comment of the row, the float
    as its amount and no identity, and its timestamp is a valid instant of
    whole seconds. *)
Theorem row_kept_iff (trans_type : string) (rw : row) (r : record) :
  parse_row trans_type rw = Some r <->
  exists s dt a,
    row_date rw = CText s /\ strptime s = Some dt /\
    datetime_ok dt = true /\ microsecond dt = 0 /\
    cell_truthy (row_amount rw) = true /\
    float_of_cell (row_amount rw) = Some a /\
    r = mk_record s trans_type (row_category rw) a (row_comment rw).
Proof.
  assert (Hvalid : forall s dt, strptime s = Some dt ->
                     datetime_ok dt = true /\ microsecond dt = 0).
  { intros s dt. unfold strptime.
    repeat match goal with
           | |- context [let '(_, _) := ?e in _] => destruct e
           | |- context [mbind _ ?e] => destruct e as [?|]; cbn [mbind option_bind]
           | |- context [match ?e with Some _ => _ | None => _ end] =>
               destruct e; cbn [mbind option_bind]
           | |- context [match ?e with [] => _ | _ :: _ => _ end] => destruct e
           | |- context [match ?e with EmptyString => _ | String _ _ => _ end] =>
               destruct e
           | |- None = Some _ -> _ => discriminate
           | p : _ * _ |- _ => destruct p
           end;
      try discriminate.
    unfold mk_datetime.
    match goal with |- context [datetime_ok ?x] => destruct (datetime_ok x) eqn:E end;
      [|discriminate].
    intros [= <-]. split; [exact E|reflexivity]. }
  split.
  - unfold parse_row, strptime_cell.
    destruct (cell_truthy (row_date rw)) eqn:Hd; [|discriminate].
    destruct (cell_truthy (row_amount rw)) eqn:Ha; [|discriminate]. simpl.
    destruct (row_date rw) as [|s|n]; simpl; try discriminate.
    destruct (strptime s) as [dt|] eqn:Hs; simpl; [|discriminate].
    destruct (float_of_cell (row_amount rw)) as [a|]; simpl; [|discriminate].
    intros [= <-]. destruct (Hvalid s dt Hs) as [Hok Hus].
    exists s, dt, a. repeat split; trivial.
  - intros (s & dt & a & Hd & Hs & _ & _ & Ha & Hf & ->).
    unfold parse_row, strptime_cell. rewrite Hd, Ha, Hf, Hs. simpl.
    destruct s as [|c s]; [discriminate Hs|]. reflexivity.
Qed.

End ReportExtras.

(** ** Windows and duplicates across a refresh *)

Section WindowExtras.
Context {L : PyLib}.

(** X19. The windows nest: a record counted for the month of an instant is
    counted for its year, and at a valid instant of the years 1000 to 9999
    a record the daily window keeps, if its date is written as the bot
    writes it, is counted for the month and for the year. *)
Theorem windows_nest (now : datetime) (r : record) :
  (in_month now r = Some true -> in_year now r = Some true) /\
  (datetime_ok now = true -> 1000 <= year now -> canonical_date r ->
   forall rs, In r (daily_records now rs) ->
   in_month now r = Some true /\ in_year now r = Some true).
Proof.
  assert (Hmy : in_month now r = Some true -> in_year now r = Some true).
  { unfold in_month, in_year. destruct (strptime (rec_date r)) as [dt|]; [|easy].
    simpl. destruct (year dt =? year now); [reflexivity|discriminate]. }
  split; [exact Hmy|].
  intros Hok Hy Hcan rs Hin.
  assert (Hm : in_month now r = Some true); [|split; [exact Hm|now apply Hmy]].
  unfold daily_records in Hin. apply List.filter_In in Hin as [_ Hs].
  rewrite (canonical_on_day now r Hok Hy Hcan) in Hs.
  unfold on_day, record_key in Hs. unfold in_month.
  destruct (strptime (rec_date r)) as [dt|]; [|discriminate]. simpl.
  unfold same_day in Hs. apply andb_true_iff in Hs as [Hs _].
  apply andb_true_iff in Hs as [Hy' Hm']. now rewrite Hy', Hm'.
Qed.

(** The record a refresh reads back for an accepted entry. *)
Lemma accepted_entry_read_back r st dt :
  gc st = true ->
  ws_up (income_sheet st) = true -> ws_up (expense_sheet st) = true ->
  rec_type r = INCOME \/ rec_type r = EXPENSE ->
  strptime (rec_date r) = Some dt ->
  PrimFloat.eqb (rec_amount r) PrimFloat.zero = false ->
  fst (save_record r st) = true ->
  In (mk_record (rec_date r) (rec_type r) (rec_category r) (rec_amount r)
        (rec_comment r))
     (records (load_records (snd (save_record r st)))).
Proof.
  intros Hg Hi He Ht Hd Ha Hok.
  revert Hok. unfold save_record.
  destruct (existsb _ (records st)); [discriminate|].
  unfold save_record_to_sheet, save_record_to_sheet_try. rewrite Hg.
  change (rec_type (with_id r)) with (rec_type r).
  intros _.
  assert (Hrow : forall t, parse_row t (row_of_record (with_id r))
                           = Some (mk_record (rec_date r) t (rec_category r)
                                     (rec_amount r) (rec_comment r))).
  { intros t. now apply (parse_row_of_record t (with_id r) dt). }
  destruct Ht as [Ht|Ht]; rewrite Ht.
  - simpl. unfold append_row at 1. rewrite Hi. simpl.
    unfold load_records. simpl. rewrite Hg. simpl.
    eapply Permutation_in; [symmetry; apply sort_records_perm|].
    apply in_or_app. left.
    unfold load_sheet, get_all_records. simpl.
    apply list_elem_of_In, list_elem_of_omap.
    exists (row_of_record (with_id r)). split; [|apply Hrow].
    apply list_elem_of_In, in_or_app. right. now left.
  - simpl. unfold append_row at 1. rewrite He. simpl.
    unfold load_records. simpl. rewrite Hg. simpl.
    eapply Permutation_in; [symmetry; apply sort_records_perm|].
    apply in_or_app. right.
    unfold load_sheet, get_all_records. simpl.
    apply list_elem_of_In, list_elem_of_omap.
    exists (row_of_record (with_id r)). split; [|apply Hrow].
    apply list_elem_of_In, in_or_app. right. now left.
Qed.

(** X20. Deduplication holds across a refresh.  With a reachable service,
    an entry of one of the two types, with a timestamp and an amount that
    is not zero, that was accepted is rejected when it is entered again
    after the next refresh, and that attempt changes nothing. *)
Theorem duplicate_rejected_after_refresh r st dt :
  gc st = true ->
  ws_up (income_sheet st) = true -> ws_up (expense_sheet st) = true ->
  rec_type r = INCOME \/ rec_type r = EXPENSE ->
  strptime (rec_date r) = Some dt ->
  PrimFloat.eqb (rec_amount r) PrimFloat.zero = false ->
  fst (save_record r st) = true ->
  save_record r (load_records (snd (save_record r st)))
  = (false, load_records (snd (save_record r st))).
Proof.
  intros Hg Hi He Ht Hd Ha Hok.
  pose proof (accepted_entry_read_back r st dt Hg Hi He Ht Hd Ha Hok) as Hin.
  set (st' := load_records (snd (save_record r st))) in *.
  unfold save_record at 1.
  replace (existsb _ (records st')) with true; [reflexivity|].
  symmetry. apply existsb_exists. eexists. split; [exact Hin|].
  apply String.eqb_eq. reflexivity.
Qed.

End WindowExtras.

(** ** Witnesses of the further properties on the reference library *)

Lemma refresh_is_the_parsed_rows_witness :
  Permutation (records (load_records (L := cpython) one_row_state))
    (omap (parse_row (L := cpython) INCOME) (readable_rows (income_sheet one_row_state))
       ++ omap (parse_row (L := cpython) EXPENSE)
            (readable_rows (expense_sheet one_row_state))).
Proof.
  apply (proj1 (refresh_is_the_parsed_rows (L := cpython) one_row_state eq_refl)).
Defined.

Lemma save_record_twice_witness :
  save_record (L := cpython) business_1000
    (snd (save_record (L := cpython) business_1000 empty_state))
  = (false, snd (save_record (L := cpython) business_1000 empty_state)).
Proof.
  apply (save_record_twice (L := cpython) business_1000 empty_state).
  vm_compute. reflexivity.
Defined.

Lemma unwritten_entry_lost_on_refresh_witness :
  load_records (L := cpython)
    (snd (save_record (L := cpython) business_1000 offline_state))
  = load_records (L := cpython) offline_state.
Proof.
  refine (proj2 (proj2 (proj2 (proj2
            (unwritten_entry_lost_on_refresh (L := cpython) business_1000
               offline_state _ _))))).
  - right. left. split; reflexivity.
  - intros x [].
Defined.

Lemma blank_text_keeps_pending_witness :
  process_manual_input (L := cpython) (at_ 2024 1 1 12 0 0) 7 "   " waiting_state
  = ([Reply "Пожалуйста, введите сумму и комментарий."], waiting_state).
Proof.
  apply (blank_text_keeps_pending (L := cpython) _ 7 "   " waiting_state
           housing_pending); reflexivity.
Defined.

Lemma parsed_amount_ends_input_witness :
  pending_inputs
    (snd (process_manual_input (L := cpython) (at_ 2024 1 1 12 0 0) 7 "1500 rent"
            waiting_state)) !! 7 = None.
Proof.
  refine (proj1 (proj2
            (parsed_amount_ends_input (L := cpython) (at_ 2024 1 1 12 0 0) 7
               "1500 rent" waiting_state housing_pending "1500" ["rent"] 1500
               _ _ _))); vm_compute; reflexivity.
Defined.

Lemma manual_input_keeps_store_sorted_witness :
  strptime (strftime_full (at_ 2024 1 1 12 0 0))
  = Some (whole_second (at_ 2024 1 1 12 0 0)).
Proof.
  refine (proj1
            (manual_input_keeps_store_sorted (L := cpython) (at_ 2024 1 1 12 0 0) 7
               "1500 rent" waiting_state _ _ _)).
  - reflexivity.
  - simpl. lia.
  - constructor.
Defined.

Lemma category_then_amount_witness :
  pending_inputs
    (snd (process_manual_input (L := cpython) (at_ 2024 1 1 12 0 5) 7 "1500 rent"
            (snd (on_callback_query (L := cpython) (at_ 2024 1 1 12 0 0) 7
                    "expense_housing" empty_state)))) !! 7 = None.
Proof.
  refine (proj1
            (category_then_amount (L := cpython) (at_ 2024 1 1 12 0 0)
               (at_ 2024 1 1 12 0 5) 7 empty_state "Жилье" "expense_housing"
               "1500 rent" "1500" ["rent"] 1500 EXPENSE _ _ _)).
  - right. split; [|reflexivity]. simpl. tauto.
  - vm_compute. reflexivity.
  - vm_compute. reflexivity.
Defined.

Lemma daily_target_in_future_witness :
  exists t,
    daily_summary_task_target (at_ 2024 3 1 21 0 0) = Some t /\
    datetime_ok t = true /\ at_hour 20 t /\
    datetime_ltb (at_ 2024 3 1 21 0 0) t = true /\
    (datetime_ltb (at_ 2024 3 1 21 0 0) (replace_hms0 (at_ 2024 3 1 21 0 0) 20) = true /\
     same_date (at_ 2024 3 1 21 0 0) t \/
     datetime_leb (replace_hms0 (at_ 2024 3 1 21 0 0) 20) (at_ 2024 3 1 21 0 0) = true /\
     toordinal t = toordinal (at_ 2024 3 1 21 0 0) + 1).
Proof.
  apply (daily_target_in_future (at_ 2024 3 1 21 0 0)).
  - reflexivity.
  - vm_compute. reflexivity.
Defined.

Lemma weekly_target_is_a_sunday_witness :
  exists t,
    weekly_summary_task_target (at_ 2024 3 1 21 0 0) = Some t /\
    datetime_ok t = true /\ at_hour 20 t /\ weekday t = 6 /\
    datetime_ltb (at_ 2024 3 1 21 0 0) t = true /\
    toordinal (at_ 2024 3 1 21 0 0) <= toordinal t
    <= toordinal (at_ 2024 3 1 21 0 0) + 7.
Proof.
  apply (weekly_target_is_a_sunday (at_ 2024 3 1 21 0 0)).
  - reflexivity.
  - simpl. lia.
Defined.

Lemma monthly_target_in_future_witness :
  exists t,
    monthly_summary_task_target (at_ 2024 3 1 21 0 0) = Some t /\
    datetime_ok t = true /\ at_hour 10 t /\ day t = 1 /\
    datetime_ltb (at_ 2024 3 1 21 0 0) t = true.
Proof.
  apply (monthly_target_in_future (at_ 2024 3 1 21 0 0)).
  - reflexivity.
  - simpl. lia.
Defined.

Lemma period_reports_match_summary_rows_witness :
  exists t,
    window_totals (in_year (at_ 2024 1 3 9 0 0)) (records scenario_state) = Some t /\
    generate_yearly_summary (L := cpython) (at_ 2024 1 3 9 0 0) scenario_state
    = Some ("📊 Годовой отчёт за " ++ str_of_Z (year (at_ 2024 1 3 9 0 0)) ++ ":"
              ++ nl ++ nl ++ totals_text (L := cpython) "💵" t).
Proof.
  refine (proj2 (proj2
            (period_reports_match_summary_rows (L := cpython) (at_ 2024 1 3 9 0 0)
               scenario_state _))).
  repeat constructor; discriminate.
Defined.

Lemma period_charts_are_produced_witness :
  generate_yearly_chart (at_ 2024 1 3 9 0 0) scenario_state
  = generate_chart (kept (in_year (at_ 2024 1 3 9 0 0)) (records scenario_state))
      ("Годовой отчёт за " ++ str_of_Z (year (at_ 2024 1 3 9 0 0))).
Proof.
  refine (proj1 (proj2 (proj2
            (period_charts_are_produced (L := cpython) (at_ 2024 1 3 9 0 0)
               scenario_state _)))).
  repeat constructor; discriminate.
Defined.

Lemma windows_nest_witness :
  in_month (at_ 2024 1 1 23 59 59) business_1000 = Some true /\
  in_year (at_ 2024 1 1 23 59 59) business_1000 = Some true.
Proof.
  refine (proj2 (windows_nest (at_ 2024 1 1 23 59 59) business_1000) _ _ _
            [business_1000; products_300] _).
  - reflexivity.
  - simpl. lia.
  - exists (at_ 2024 1 1 9 0 0). split; [reflexivity|split; [simpl; lia|reflexivity]].
  - vm_compute. tauto.
Defined.

Lemma duplicate_rejected_after_refresh_witness :
  save_record (L := cpython) products_300
    (load_records (L := cpython)
       (snd (save_record (L := cpython) products_300 empty_state)))
  = (false,
     load_records (L := cpython)
       (snd (save_record (L := cpython) products_300 empty_state))).
Proof.
  apply (duplicate_rejected_after_refresh (L := cpython) products_300 empty_state
           (at_ 2024 1 1 18 0 0)); try reflexivity.
  right. reflexivity.
Defined.

(** X16: the third call raises.  The first two ranges hold their rows, the
    other two are as before (empty), and three calls were made. *)
Lemma update_balance_sheet_frame_witness :
  let st' := update_balance_sheet (L := cpython) (at_ 2024 1 3 12 0 0) flaky_state in
  bs_ranges (balance_sheet st') !! "A1:D1"
  = Some [CText "Общий баланс"; CNum (NFloat 850.25); CText ""; CText ""] /\
  bs_ranges (balance_sheet st') !! "A2:D2"
  = Some (window_row (L := cpython) "Данные недели"
            (in_week (at_ 2023 12 27 12 0 0)) (records flaky_state)) /\
  bs_ranges (balance_sheet st') !! "A3:D3" = None /\
  bs_ranges (balance_sheet st') !! "A4:D4" = None /\
  bs_calls (balance_sheet st') = 3%nat.
Proof.
  pose proof (update_balance_sheet_frame (L := cpython) (at_ 2024 1 3 12 0 0)
                flaky_state) as (_ & _ & _ & _ & H).
  destruct (H (default [] (summary_rows (L := cpython) (at_ 2024 1 3 12 0 0)
                             flaky_state)) 2%nat)
    as (Hnth & _ & Hcalls).
  - reflexivity.
  - vm_compute. reflexivity.
  - lia.
  - intros [|[|i]] Hi; try reflexivity. lia.
  - intros _. reflexivity.
  - intros st'. split; [|split; [|split; [|split]]].
    + apply (Hnth 0%nat). vm_compute. reflexivity.
    + apply (Hnth 1%nat). vm_compute. reflexivity.
    + apply (Hnth 2%nat "A3:D3"
               (window_row (L := cpython) "Данные месяца"
                  (in_month (at_ 2024 1 3 12 0 0)) (records flaky_state))).
      vm_compute. reflexivity.
    + apply (Hnth 3%nat "A4:D4"
               (window_row (L := cpython) "Данные года"
                  (in_year (at_ 2024 1 3 12 0 0)) (records flaky_state))).
      vm_compute. reflexivity.
    + exact Hcalls.
Defined.
